(** * Withdrawal consistency core of the withdraw API

    A shallow embedding of the Go sources: the wallet repository and its
    SQL statements, the idempotency store, the rate-limit store, the HTTP
    middlewares and handler that compose them, and the two selectors that
    map a configuration string to an algorithm; beside them the balance
    inquiry, the limiter's key extractors and reset, the token manager
    and the bearer-token middleware, the login, and the providers of
    package app. *)

From stdpp Require Import base gmap strings list pretty.
From Stdlib Require Import ZArith Lia Ascii.

Open Scope string_scope.
Open Scope Z_scope.

(** ** Values shared by all packages *)

(** A member value of the flat JSON objects the handlers send
    (fiber.Map literals and the response structs). *)
Inductive json_value : Type :=
| JString (s : string)
| JNumber (z : Z)
| JTime (t : Z).

(** A JSON object as handed to the JSON encoder: its members. *)
Definition json_object : Type := list (string * json_value).

(** Library functions the sources call but do not define. Strings are Go
    strings, that is, byte sequences. *)
Class Runtime : Type := {
  (** uuid.Parse of github.com/google/uuid; the result is the canonical
      text of the identifier, as [user_id::text] renders it. *)
  uuid_Parse : string -> option string;
  (** strings.TrimSpace, strings.ToLower, strings.ToUpper. *)
  TrimSpace : string -> string;
  ToLower : string -> string;
  ToUpper : string -> string;
  (** hex.EncodeToString of the SHA-256 digest of the bytes written. *)
  sha256_hex : string -> string;
  (** The JSON encoder behind c.JSON, and the Content-Type c.JSON sets. *)
  JSONEncoder : json_object -> string;
  JSONContentType : string;
  (** c.Bind().JSON into withdrawalRequest: the decoded amount_minor, or
      None when the body does not decode. *)
  BindJSON_withdrawalRequest : string -> option Z
}.

(** int64 / bigint range. *)
Definition max_int64 : Z := 9223372036854775807.
Definition min_int64 : Z := -9223372036854775808.
Definition in_int64 (z : Z) : bool := (min_int64 <=? z) && (z <=? max_int64).

(** Result of a fallible call: Go's [(value, error)] pair. *)
Inductive Res (E A : Type) : Type :=
| Ok (a : A)
| Err (e : E).
Arguments Ok {E A} a.
Arguments Err {E A} e.

(** ** Relational schema (db/migrations) *)

(** Row of [wallets]; the table is keyed by the unique [user_id]. *)
Record Wallet : Type := {
  wallet_id : string;
  balance_minor : Z;
  currency : string;
  version : Z;
  wallet_created_at : Z;
  wallet_updated_at : Z
}.

(** Row of [wallet_ledger]. *)
Record LedgerEntry : Type := {
  ledger_wallet_id : string;
  entry_type : string;
  amount_minor : Z;
  balance_after_minor : Z;
  reference_id : option string;
  chain_id : option string;
  ledger_created_at : Z
}.

(** Row of [withdraw_idempotency]; unique on (scope, idempotency_key).
    The column request_hash is char(64); the hashes the middleware
    supplies are 64 hexadecimal digits, which it stores as given. *)
Record IdempotencyRow : Type := {
  request_hash : string;
  status : string;
  response_status : option Z;
  response_body : option string;
  response_content_type : option string;
  locked_until : Z;
  idem_created_at : Z;
  idem_updated_at : Z;
  completed_at : option Z
}.

Record DB : Type := {
  wallets : gmap string Wallet;
  wallet_ledger : list LedgerEntry;
  withdraw_idempotency : gmap (string * string) IdempotencyRow
}.

Definition set_wallets (ws : gmap string Wallet) (db : DB) : DB :=
  {| wallets := ws;
     wallet_ledger := wallet_ledger db;
     withdraw_idempotency := withdraw_idempotency db |}.

Definition set_wallet_ledger (l : list LedgerEntry) (db : DB) : DB :=
  {| wallets := wallets db;
     wallet_ledger := l;
     withdraw_idempotency := withdraw_idempotency db |}.

Definition set_withdraw_idempotency
  (t : gmap (string * string) IdempotencyRow) (db : DB) : DB :=
  {| wallets := wallets db;
     wallet_ledger := wallet_ledger db;
     withdraw_idempotency := t |}.

(** The wallet invariant of the data model: no balance below zero. *)
Definition balances_non_negative (db : DB) : Prop :=
  forall uid w, wallets db !! uid = Some w -> 0 <= balance_minor w.

(** ** Domain values and errors (internal/domain, internal/domain/vo) *)

Record WalletBalance : Type := {
  wb_UserID : string;
  wb_BalanceMinor : Z;
  wb_Currency : string;
  wb_UpdatedAt : Z
}.

Record WalletWithdrawal : Type := {
  ww_UserID : string;
  ww_AmountMinor : Z;
  ww_BalanceMinor : Z;
  ww_Currency : string;
  ww_ChainID : string;
  ww_UpdatedAt : Z
}.

(** The sentinel errors of package vo, and errors made by fmt.Errorf
    around a driver or parser error, identified by their message prefix. *)
Inductive error : Type :=
| ErrInvalidAmount
| ErrWalletNotFound
| ErrInsufficientBalance
| Wrapped (msg : string).

#[global] Instance error_eq_dec : EqDecision error.
Proof. solve_decision. Defined.

(** ** database/sql transactions, as the two stores use them *)

Module Sql.

(** The calls a store sends to the database. *)
Inductive Op : Type :=
| OpBegin
| OpCommit
| OpRollback
| OpWithdrawWalletBalanceByUserID
| OpHasWalletByUserID
| OpInsertWalletLedger
| OpSelectForUpdate
| OpInsertKey
| OpReacquireKey.

#[global] Instance Op_eq_dec : EqDecision Op.
Proof. solve_decision. Defined.

(** A transaction handle [*sqlx.Tx] together with the database it runs
    against: what the database holds, what the transaction sees, whether
    the transaction is over, and the calls sent so far. *)
Record Tx : Type := {
  stored : DB;
  view : DB;
  done_ : bool;
  sent : list Op
}.

(** db.BeginTxx, when it succeeds. *)
Definition BeginTxx (db : DB) : Tx :=
  {| stored := db; view := db; done_ := false; sent := [OpBegin] |}.

(** A statement that runs in the transaction: it sees and changes the
    view only. *)
Definition Query {A : Type} (op : Op) (g : DB -> A * DB) (tx : Tx) : A * Tx :=
  let '(a, v) := g (view tx) in
  (a, {| stored := stored tx; view := v; done_ := done_ tx;
         sent := sent tx ++ [op] |}).

Definition Exec (op : Op) (g : DB -> DB) (tx : Tx) : Tx :=
  {| stored := stored tx; view := g (view tx); done_ := done_ tx;
     sent := sent tx ++ [op] |}.

(** A statement that was sent and failed: nothing changes. *)
Definition Failed (op : Op) (tx : Tx) : Tx :=
  {| stored := stored tx; view := view tx; done_ := done_ tx;
     sent := sent tx ++ [op] |}.

(** tx.Commit: publishes the view, unless it fails; either way the
    transaction is over. *)
Definition Commit (fails : bool) (tx : Tx) : Tx :=
  if done_ tx then tx
  else {| stored := if fails then stored tx else view tx;
          view := view tx; done_ := true; sent := sent tx ++ [OpCommit] |}.

(** tx.Rollback: drops the view; on a transaction that is over it does
    nothing (sql.ErrTxDone). *)
Definition Rollback (tx : Tx) : Tx :=
  if done_ tx then tx
  else {| stored := stored tx; view := stored tx; done_ := true;
          sent := sent tx ++ [OpRollback] |}.

End Sql.

(** ** Package sqlc: the three statements of the wallet queries *)

Module Sqlc.

Record WithdrawWalletBalanceByUserIDRow : Type := {
  WalletID : string;
  UserID : string;
  BalanceMinor : Z;
  Currency : string;
  UpdatedAt : Z
}.

Record InsertWalletLedgerParams : Type := {
  p_WalletID : string;
  p_EntryType : string;
  p_AmountMinor : Z;
  p_BalanceAfterMinor : Z;
  p_ReferenceID : option string;
  p_ChainID : option string
}.

(** Outcome of a [:one] query. *)
Inductive QueryResult (A : Type) : Type :=
| Row (a : A)
| ErrNoRows
| QueryError.
Arguments Row {A} a.
Arguments ErrNoRows {A}.
Arguments QueryError {A}.

(** SELECT EXISTS (SELECT 1 FROM wallets WHERE user_id = $1). *)
Definition HasWalletByUserID (db : DB) (user_id : string) : bool :=
  bool_decide (is_Some (wallets db !! user_id)).

(** UPDATE wallets SET balance_minor = balance_minor - $amount,
    version = version + 1, updated_at = now()
    WHERE user_id = $user AND balance_minor >= $amount RETURNING ...
    A row that matches is rewritten in place; when no row matches the
    table is left as it is. The bigint columns cannot hold a value
    outside the int64 range: the statement fails instead. *)
Definition WithdrawWalletBalanceByUserID
  (now : Z) (db : DB) (amount : Z) (user_id : string)
  : QueryResult WithdrawWalletBalanceByUserIDRow * DB :=
  match wallets db !! user_id with
  | Some w =>
      if amount <=? balance_minor w then
        if in_int64 (balance_minor w - amount) && in_int64 (version w + 1) then
          let w' := {| wallet_id := wallet_id w;
                       balance_minor := balance_minor w - amount;
                       currency := currency w;
                       version := version w + 1;
                       wallet_created_at := wallet_created_at w;
                       wallet_updated_at := now |} in
          (Row {| WalletID := wallet_id w';
                  UserID := user_id;
                  BalanceMinor := balance_minor w';
                  Currency := currency w';
                  UpdatedAt := wallet_updated_at w' |},
           set_wallets (<[user_id := w']> (wallets db)) db)
        else (QueryError, db)
      else (ErrNoRows, db)
  | None => (ErrNoRows, db)
  end.

(** INSERT INTO wallet_ledger (...) VALUES (..., now()). *)
Definition InsertWalletLedger
  (now : Z) (db : DB) (p : InsertWalletLedgerParams) : DB :=
  set_wallet_ledger
    (wallet_ledger db ++
       [{| ledger_wallet_id := p_WalletID p;
           entry_type := p_EntryType p;
           amount_minor := p_AmountMinor p;
           balance_after_minor := p_BalanceAfterMinor p;
           reference_id := p_ReferenceID p;
           chain_id := p_ChainID p;
           ledger_created_at := now |}])
    db.

Record GetWalletBalanceByUserIDRow : Type := {
  g_UserID : string;
  g_BalanceMinor : Z;
  g_Currency : string;
  g_UpdatedAt : Z
}.

(** SELECT w.user_id::text, w.balance_minor, w.currency, w.updated_at
    FROM wallets AS w WHERE w.user_id = $1 LIMIT 1. *)
Definition GetWalletBalanceByUserID (db : DB) (user_id : string)
  : QueryResult GetWalletBalanceByUserIDRow :=
  match wallets db !! user_id with
  | Some w =>
      Row {| g_UserID := user_id;
             g_BalanceMinor := balance_minor w;
             g_Currency := currency w;
             g_UpdatedAt := wallet_updated_at w |}
  | None => ErrNoRows
  end.

End Sqlc.

(** ** Package repository: withdraw.balance.go *)

Module Repository.

(** Which database calls of one invocation fail for reasons outside the
    statement itself (connection loss, cancellation, ...). *)
Record Faults : Type := {
  begin_fails : bool;
  withdraw_fails : bool;
  has_wallet_fails : bool;
  insert_ledger_fails : bool;
  commit_fails : bool
}.

Definition no_faults : Faults :=
  {| begin_fails := false; withdraw_fails := false; has_wallet_fails := false;
     insert_ledger_fails := false; commit_fails := false |}.

Section WithRuntime.
Context `{Runtime}.

(** [WithdrawWalletBalanceByUserID]: the result, the database after the
    call and the calls sent. *)
Definition WithdrawWalletBalanceByUserID
  (f : Faults) (now : Z) (db : DB)
  (userID : string) (amountMinor : Z) (chainID : string)
  : Res error WalletBalance * DB * list Sql.Op :=
  match uuid_Parse userID with
  | None => (Err (Wrapped "repository: invalid user_id"), db, [])
  | Some parsedUserID =>
      if amountMinor <=? 0 then (Err ErrInvalidAmount, db, [])
      else if begin_fails f then
        (Err (Wrapped "repository: failed to start transaction"), db, [Sql.OpBegin])
      else
        let tx := Sql.BeginTxx db in
        (* defer tx.Rollback(): applied below to the transaction as the
           body leaves it *)
        let '(result, tx) :=
          let '(q, tx) :=
            if withdraw_fails f then
              (Sqlc.QueryError, Sql.Failed Sql.OpWithdrawWalletBalanceByUserID tx)
            else
              Sql.Query Sql.OpWithdrawWalletBalanceByUserID
                (fun v => Sqlc.WithdrawWalletBalanceByUserID now v amountMinor
                            parsedUserID) tx in
          match q with
          | Sqlc.ErrNoRows =>
              if has_wallet_fails f then
                (Err (Wrapped "repository: failed to check wallet existence"),
                 Sql.Failed Sql.OpHasWalletByUserID tx)
              else
                let '(exists_, tx) :=
                  Sql.Query Sql.OpHasWalletByUserID
                    (fun v => (Sqlc.HasWalletByUserID v parsedUserID, v)) tx in
                if negb exists_ then (Err ErrWalletNotFound, tx)
                else (Err ErrInsufficientBalance, tx)
          | Sqlc.QueryError =>
              (Err (Wrapped "repository: failed to withdraw wallet balance"), tx)
          | Sqlc.Row withdrawnWallet =>
              let ledgerParams :=
                {| Sqlc.p_WalletID := Sqlc.WalletID withdrawnWallet;
                   Sqlc.p_EntryType := "withdrawal";
                   Sqlc.p_AmountMinor := - amountMinor;
                   Sqlc.p_BalanceAfterMinor := Sqlc.BalanceMinor withdrawnWallet;
                   Sqlc.p_ReferenceID := None;
                   Sqlc.p_ChainID :=
                     if bool_decide (chainID = EmptyString) then None
                     else Some chainID |} in
              if insert_ledger_fails f then
                (Err (Wrapped "repository: failed to insert wallet ledger"),
                 Sql.Failed Sql.OpInsertWalletLedger tx)
              else
                let tx :=
                  Sql.Exec Sql.OpInsertWalletLedger
                    (fun v => Sqlc.InsertWalletLedger now v ledgerParams) tx in
                let tx := Sql.Commit (commit_fails f) tx in
                if commit_fails f then
                  (Err (Wrapped "repository: failed to commit transaction"), tx)
                else
                  (Ok {| wb_UserID := Sqlc.UserID withdrawnWallet;
                         wb_BalanceMinor := Sqlc.BalanceMinor withdrawnWallet;
                         wb_Currency := Sqlc.Currency withdrawnWallet;
                         wb_UpdatedAt := Sqlc.UpdatedAt withdrawnWallet |}, tx)
          end in
        let tx := Sql.Rollback tx in
        (result, Sql.stored tx, Sql.sent tx)
  end.

End WithRuntime.

(** inquiry.check.balance.go *)

Section Inquiry.
Context `{Runtime}.

(** [InquiryCheckBalanceRepository.GetWalletBalanceByUserID]: one SELECT
    outside any transaction; [query_fails] says whether the database call
    fails for a reason outside the statement. *)
Definition GetWalletBalanceByUserID
  (query_fails : bool) (db : DB) (userID : string) : Res error WalletBalance :=
  match uuid_Parse userID with
  | None => Err (Wrapped "repository: invalid user_id")
  | Some parsedUserID =>
      match (if query_fails then Sqlc.QueryError
             else Sqlc.GetWalletBalanceByUserID db parsedUserID) with
      | Sqlc.ErrNoRows => Err ErrWalletNotFound
      | Sqlc.QueryError =>
          Err (Wrapped "repository: get wallet balance by user_id failed")
      | Sqlc.Row balanceRow =>
          Ok {| wb_UserID := Sqlc.g_UserID balanceRow;
                wb_BalanceMinor := Sqlc.g_BalanceMinor balanceRow;
                wb_Currency := Sqlc.g_Currency balanceRow;
                wb_UpdatedAt := Sqlc.g_UpdatedAt balanceRow |}
      end
  end.

End Inquiry.

End Repository.

(** ** Package services: the withdraw service *)

Module Services.

Section WithRuntime.
Context `{Runtime}.

(** [InquiryWithdrawBalanceService.WithdrawBalance] over the repository. *)
Definition WithdrawBalance
  (f : Repository.Faults) (now : Z) (db : DB)
  (userID : string) (amountMinor : Z) (chainID : string)
  : Res error WalletWithdrawal * DB * list Sql.Op :=
  if bool_decide (TrimSpace userID = EmptyString) then (Err ErrWalletNotFound, db, [])
  else if amountMinor <=? 0 then (Err ErrInvalidAmount, db, [])
  else
    match Repository.WithdrawWalletBalanceByUserID f now db userID amountMinor chainID with
    | (Err e, db', ops) => (Err e, db', ops)
    | (Ok balance, db', ops) =>
        (Ok {| ww_UserID := wb_UserID balance;
               ww_AmountMinor := amountMinor;
               ww_BalanceMinor := wb_BalanceMinor balance;
               ww_Currency := wb_Currency balance;
               ww_ChainID := chainID;
               ww_UpdatedAt := wb_UpdatedAt balance |}, db', ops)
    end.

(** vo.BalanceInquiry. *)
Record BalanceInquiry : Type := {
  bi_UserID : string;
  bi_BalanceMinor : Z;
  bi_Currency : string;
  bi_UpdatedAt : Z
}.

(** [InquiryCheckBalanceService.CheckBalance] over the repository. The
    error for a blank user id is made by errors.New and is none of the
    sentinels. *)
Definition CheckBalance
  (query_fails : bool) (db : DB) (userID : string) : Res error BalanceInquiry :=
  if bool_decide (TrimSpace userID = EmptyString) then
    Err (Wrapped "user_id is required")
  else
    match Repository.GetWalletBalanceByUserID query_fails db userID with
    | Err e => Err e
    | Ok balance =>
        Ok {| bi_UserID := wb_UserID balance;
              bi_BalanceMinor := wb_BalanceMinor balance;
              bi_Currency := wb_Currency balance;
              bi_UpdatedAt := wb_UpdatedAt balance |}
    end.

End WithRuntime.

End Services.

(** ** Package idempotency: types and the SQL store *)

Module Idempotency.

(** [DecisionType] is a Go string type with four named values. *)
Definition DecisionAcquired : string := "acquired".
Definition DecisionReplay : string := "replay".
Definition DecisionInProgress : string := "in_progress".
Definition DecisionConflict : string := "conflict".

(** Durations are int64 nanoseconds. *)
Definition Second : Z := 1000000000.
Definition Millisecond : Z := 1000000.
Definition defaultLockTTL : Z := 30 * Second.

Record Request : Type := {
  Scope : string;
  Key : string;
  RequestHash : string;
  LockTTL : Z
}.

Record Decision : Type := {
  Type_ : string;
  StatusCode : Z;
  Body : string;
  ContentType : string
}.

Record StoredResponse : Type := {
  sr_StatusCode : Z;
  sr_Body : string;
  sr_ContentType : string
}.

(** A decision that only has a type: [Decision{Type: t}]. *)
Definition Decision_of_type (t : string) : Decision :=
  {| Type_ := t; StatusCode := 0; Body := EmptyString;
     ContentType := EmptyString |}.

(** The [Store] interface: both methods read the clock and act on the
    database. *)
Record Store : Type := {
  Acquire : Z -> DB -> Request -> Res error Decision * DB;
  Complete : Z -> DB -> Request -> StoredResponse -> option error * DB
}.

(** Which database calls of one invocation fail. *)
Record Faults : Type := {
  begin_fails : bool;
  select_fails : bool;
  insert_fails : bool;
  reacquire_fails : bool;
  commit_fails : bool;
  complete_exec_fails : bool;
  rows_affected_fails : bool
}.

Definition no_faults : Faults :=
  {| begin_fails := false; select_fails := false; insert_fails := false;
     reacquire_fails := false; commit_fails := false;
     complete_exec_fails := false; rows_affected_fails := false |}.

Section WithRuntime.
Context `{Runtime}.

(** The lock TTL in force: [request.LockTTL], or the default when that
    is zero or negative. *)
Definition effectiveLockTTL (request : Request) : Z :=
  if LockTTL request <=? 0 then defaultLockTTL else LockTTL request.

(** INSERT INTO withdraw_idempotency (scope, idempotency_key,
    request_hash, status, locked_until, created_at, updated_at)
    VALUES ($1, $2, $3, 'in_progress', $4, now(), now()). *)
Definition insertQuery
  (now : Z) (db : DB) (scope key hash : string) (lockUntil : Z) : DB :=
  set_withdraw_idempotency
    (<[(scope, key) :=
         {| request_hash := hash;
            status := "in_progress";
            response_status := None;
            response_body := None;
            response_content_type := None;
            locked_until := lockUntil;
            idem_created_at := now;
            idem_updated_at := now;
            completed_at := None |}]> (withdraw_idempotency db))
    db.

(** UPDATE withdraw_idempotency SET status = 'in_progress',
    locked_until = $3, updated_at = now()
    WHERE scope = $1 AND idempotency_key = $2. *)
Definition reacquireQuery
  (now : Z) (db : DB) (scope key : string) (lockUntil : Z) : DB :=
  match withdraw_idempotency db !! (scope, key) with
  | None => db
  | Some r =>
      set_withdraw_idempotency
        (<[(scope, key) :=
             {| request_hash := request_hash r;
                status := "in_progress";
                response_status := response_status r;
                response_body := response_body r;
                response_content_type := response_content_type r;
                locked_until := lockUntil;
                idem_created_at := idem_created_at r;
                idem_updated_at := now;
                completed_at := completed_at r |}]> (withdraw_idempotency db))
        db
  end.

(** UPDATE withdraw_idempotency SET status = 'completed',
    response_status = $4, response_body = $5, response_content_type = $6,
    locked_until = now(), completed_at = now(), updated_at = now()
    WHERE scope = $1 AND idempotency_key = $2 AND request_hash = $3.
    Returns the table and the number of rows affected. *)
Definition updateQuery
  (now : Z) (db : DB) (scope key hash : string)
  (statusCode : Z) (body contentType : string) : DB * Z :=
  match withdraw_idempotency db !! (scope, key) with
  | None => (db, 0)
  | Some r =>
      if bool_decide (request_hash r = hash) then
        (set_withdraw_idempotency
           (<[(scope, key) :=
                {| request_hash := request_hash r;
                   status := "completed";
                   response_status := Some statusCode;
                   response_body := Some body;
                   response_content_type := Some contentType;
                   locked_until := now;
                   idem_created_at := idem_created_at r;
                   idem_updated_at := now;
                   completed_at := Some now |}]> (withdraw_idempotency db))
           db, 1)
      else (db, 0)
  end.

(** [SQLXStore.Acquire] of an initialised store. *)
Definition SQLXStore_Acquire
  (f : Faults) (now : Z) (db : DB) (request : Request)
  : Res error Decision * DB :=
  let lockTTL := effectiveLockTTL request in
  let scope := TrimSpace (Scope request) in
  if bool_decide (scope = EmptyString) then
    (Err (Wrapped "idempotency: scope is required"), db)
  else
  let key := TrimSpace (Key request) in
  if bool_decide (key = EmptyString) then
    (Err (Wrapped "idempotency: key is required"), db)
  else
  let hash := TrimSpace (RequestHash request) in
  if bool_decide (hash = EmptyString) then
    (Err (Wrapped "idempotency: request hash is required"), db)
  else
  let lockUntil := now + lockTTL in
  if begin_fails f then
    (Err (Wrapped "idempotency: failed to start transaction"), db)
  else
    let tx := Sql.BeginTxx db in
    (* defer tx.Rollback(): applied below to the transaction as the body
       leaves it *)
    let '(result, tx) :=
      if select_fails f then
        (Err (Wrapped "idempotency: failed to query key"),
         Sql.Failed Sql.OpSelectForUpdate tx)
      else
        let '(row, tx) :=
          Sql.Query Sql.OpSelectForUpdate
            (fun v => (withdraw_idempotency v !! (scope, key), v)) tx in
        match row with
        | None =>
            if insert_fails f then
              (Err (Wrapped "idempotency: failed to insert key"),
               Sql.Failed Sql.OpInsertKey tx)
            else
              let tx :=
                Sql.Exec Sql.OpInsertKey
                  (fun v => insertQuery now v scope key hash lockUntil) tx in
              let tx := Sql.Commit (commit_fails f) tx in
              if commit_fails f then
                (Err (Wrapped "idempotency: failed to commit acquire insert"), tx)
              else (Ok (Decision_of_type DecisionAcquired), tx)
        | Some existing =>
            if bool_decide (request_hash existing <> hash) then
              let tx := Sql.Commit (commit_fails f) tx in
              if commit_fails f then
                (Err (Wrapped "idempotency: failed to commit conflict read"), tx)
              else (Ok (Decision_of_type DecisionConflict), tx)
            else if bool_decide (status existing = "completed") then
              let tx := Sql.Commit (commit_fails f) tx in
              if commit_fails f then
                (Err (Wrapped "idempotency: failed to commit replay read"), tx)
              else
                (Ok {| Type_ := DecisionReplay;
                       StatusCode := default 0 (response_status existing);
                       Body := default EmptyString (response_body existing);
                       ContentType :=
                         default EmptyString (response_content_type existing) |},
                 tx)
            else if bool_decide (status existing = "in_progress")
                    && (now <? locked_until existing) then
              let tx := Sql.Commit (commit_fails f) tx in
              if commit_fails f then
                (Err (Wrapped "idempotency: failed to commit in-progress read"), tx)
              else (Ok (Decision_of_type DecisionInProgress), tx)
            else if reacquire_fails f then
              (Err (Wrapped "idempotency: failed to reacquire key"),
               Sql.Failed Sql.OpReacquireKey tx)
            else
              let tx :=
                Sql.Exec Sql.OpReacquireKey
                  (fun v => reacquireQuery now v scope key lockUntil) tx in
              let tx := Sql.Commit (commit_fails f) tx in
              if commit_fails f then
                (Err (Wrapped "idempotency: failed to commit reacquire"), tx)
              else (Ok (Decision_of_type DecisionAcquired), tx)
        end in
    let tx := Sql.Rollback tx in
    (result, Sql.stored tx).

(** [SQLXStore.Complete] of an initialised store: one statement outside
    any transaction. *)
Definition SQLXStore_Complete
  (f : Faults) (now : Z) (db : DB) (request : Request)
  (response : StoredResponse) : option error * DB :=
  let scope := TrimSpace (Scope request) in
  if bool_decide (scope = EmptyString) then
    (Some (Wrapped "idempotency: scope is required"), db)
  else
  let key := TrimSpace (Key request) in
  if bool_decide (key = EmptyString) then
    (Some (Wrapped "idempotency: key is required"), db)
  else
  let hash := TrimSpace (RequestHash request) in
  if bool_decide (hash = EmptyString) then
    (Some (Wrapped "idempotency: request hash is required"), db)
  else
  let contentType := TrimSpace (sr_ContentType response) in
  if complete_exec_fails f then
    (Some (Wrapped "idempotency: failed to persist response"), db)
  else
    let '(db', rowsAffected) :=
      updateQuery now db scope key hash
        (sr_StatusCode response) (sr_Body response) contentType in
    if rows_affected_fails f then
      (Some (Wrapped "idempotency: failed to read affected rows"), db')
    else if rowsAffected =? 0 then
      (Some (Wrapped "idempotency: key not found for completion"), db')
    else (None, db').

(** The SQL store as a [Store]. *)
Definition SQLXStore (f : Faults) : Store :=
  {| Acquire := SQLXStore_Acquire f; Complete := SQLXStore_Complete f |}.

End WithRuntime.

End Idempotency.

(** ** Package ratelimit: limiter and Redis store *)

Module Ratelimit.

(** [Algorithm] is a Go string type with three named values. *)
Definition AlgorithmTokenBucket : string := "token_bucket".
Definition AlgorithmSlidingWindow : string := "sliding_window".
Definition AlgorithmFixedWindow : string := "fixed_window".

(** Go's two's-complement int64 multiplication result. *)
Definition wrap64 (z : Z) : Z := (z + 2 ^ 63) mod 2 ^ 64 - 2 ^ 63.

(** A value held under a Redis key: an integer counter, or anything
    else (a hash, a sorted set, a string that is not an integer). *)
Inductive RedisValue : Type :=
| VInteger (n : Z)
| VOther.

(** A key's value and its expiry in Unix milliseconds, if it has one. *)
Record RedisEntry : Type := {
  value : RedisValue;
  expire_at : option Z
}.

(** A key is gone once the server clock is past its expiry. *)
Definition expired (now_ms : Z) (e : RedisEntry) : bool :=
  match expire_at e with
  | Some t => t <? now_ms
  | None => false
  end.

(** The entry a command sees under [key] at [now_ms]. *)
Definition redis_get (now_ms : Z) (st : gmap string RedisEntry) (key : string)
  : option RedisEntry :=
  match st !! key with
  | Some e => if expired now_ms e then None else Some e
  | None => None
  end.

Record Result : Type := {
  Allowed : bool;
  Limit : Z;
  Remaining : Z;
  ResetAt : Z;
  RetryAfter : Z
}.

(** [Config] without its two callbacks, which neither read nor write the
    store. Durations are int64 nanoseconds. *)
Record Config : Type := {
  Algorithm : string;
  cfg_Limit : Z;
  Window : Z;
  Burst : Z
}.

(** [Duration.Milliseconds]: integer division truncating toward zero. *)
Definition Milliseconds (d : Z) : Z := Z.quot d 1000000.

(** The clocks one call reads: the process clock (Unix nanoseconds) and
    the Redis server clock (Unix milliseconds); and whether EVAL fails in
    transit. *)
Record Clock : Type := {
  now_ns : Z;
  redis_now_ms : Z;
  eval_fails : bool
}.

(** The Lua script of [fixedWindow], run atomically by the server:
    INCR, PEXPIRE on the first hit, PTTL, then the comparison with the
    limit. Returns [{allowed, remaining, ttl}] and the keyspace, or None
    when a command raises (INCR on a value that is not an integer, or
    on the largest int64). Lua numbers are doubles; the arithmetic below
    is the exact one, which they match for magnitudes below 2^53. What
    is proved of the script's replies assumes a limit below 2^53. *)
Definition fixedWindow_script
  (now_ms : Z) (st : gmap string RedisEntry) (key : string) (limit window : Z)
  : option (Z * Z * Z * gmap string RedisEntry) :=
  let incr :=
    match redis_get now_ms st key with
    | None => Some (1, <[key := {| value := VInteger 1; expire_at := None |}]> st)
    | Some e =>
        match value e with
        | VInteger n =>
            if n <? max_int64 then
              Some (n + 1,
                    <[key := {| value := VInteger (n + 1);
                                expire_at := expire_at e |}]> st)
            else None
        | VOther => None
        end
    end in
  match incr with
  | None => None
  | Some (current, st) =>
      let st :=
        if current =? 1 then
          if window <=? 0 then delete key st
          else <[key := {| value := VInteger current;
                           expire_at := Some (now_ms + window) |}]> st
        else st in
      let ttl :=
        match redis_get now_ms st key with
        | None => -2
        | Some e =>
            match expire_at e with
            | None => -1
            | Some t => Z.max 0 (t - now_ms)
            end
        end in
      if current <=? limit then Some (1, limit - current, ttl, st)
      else Some (0, 0, ttl, st)
  end.

(** The values the package keeps in a context.Context, as its extractors
    read them: ctx.Value(key).(string) for the keys ratelimit:ip and
    ratelimit:user_id, None when the value is unset or not a string. *)
Record GoContext : Type := {
  value_ip : option string;
  value_user_id : option string
}.

Definition WithIP (ctx : GoContext) (ip : string) : GoContext :=
  {| value_ip := Some ip; value_user_id := value_user_id ctx |}.

Definition WithUserID (ctx : GoContext) (userID : string) : GoContext :=
  {| value_ip := value_ip ctx; value_user_id := Some userID |}.

Definition GetIP (ctx : GoContext) : string := default EmptyString (value_ip ctx).

Definition GetUserID (ctx : GoContext) : string :=
  default EmptyString (value_user_id ctx).

Definition KeyExtractor : Type := GoContext -> Res error string.

Definition DefaultKeyExtractor : KeyExtractor := fun ctx =>
  match value_ip ctx with
  | Some ip =>
      if bool_decide (ip <> EmptyString) then Ok ("ip:" +:+ ip) else Ok "default"
  | None => Ok "default"
  end.

Definition UserKeyExtractor (prefix : string) : KeyExtractor := fun ctx =>
  match value_user_id ctx with
  | Some userID =>
      if bool_decide (userID <> EmptyString) then
        if bool_decide (prefix <> EmptyString)
        then Ok (prefix +:+ ":user:" +:+ userID)
        else Ok ("user:" +:+ userID)
      else Err (Wrapped "ratelimit: user_id not found in context")
  | None => Err (Wrapped "ratelimit: user_id not found in context")
  end.

Definition IPKeyExtractor (prefix : string) : KeyExtractor := fun ctx =>
  match value_ip ctx with
  | Some ip =>
      if bool_decide (ip <> EmptyString) then
        if bool_decide (prefix <> EmptyString)
        then Ok (prefix +:+ ":ip:" +:+ ip)
        else Ok ("ip:" +:+ ip)
      else Err (Wrapped "ratelimit: ip not found in context")
  | None => Err (Wrapped "ratelimit: ip not found in context")
  end.

(** The loop of [joinKeys]: [i] is the index of the next part and
    [result] the string built so far. *)
Fixpoint joinKeys_loop (i : nat) (result : string) (parts : list string) : string :=
  match parts with
  | [] => result
  | p :: parts' =>
      let result := if (0 <? i)%nat then result +:+ ":" else result in
      joinKeys_loop (S i) (result +:+ p) parts'
  end.

Definition joinKeys (parts : list string) : string :=
  joinKeys_loop 0 EmptyString parts.

(** The loop of [CompositeKeyExtractor]: [parts] holds the keys of the
    extractors already run. *)
Fixpoint composite_loop
  (extractors : list KeyExtractor) (ctx : GoContext) (parts : list string)
  : Res error (list string) :=
  match extractors with
  | [] => Ok parts
  | ext :: extractors' =>
      match ext ctx with
      | Err err => Err err
      | Ok part => composite_loop extractors' ctx (parts ++ [part])
      end
  end.

Definition CompositeKeyExtractor (extractors : list KeyExtractor) : KeyExtractor :=
  fun ctx =>
  match composite_loop extractors ctx [] with
  | Err err => Err err
  | Ok parts => Ok (joinKeys parts)
  end.

(** [RedisStore] of a connected client: its key prefix. The keyspace the
    client talks to is passed to each call. *)
Record RedisStore : Type := {
  rs_prefix : string
}.

Definition WithRedisPrefix (prefix : string) : RedisStore -> RedisStore :=
  fun _ => {| rs_prefix := prefix |}.

Definition NewRedisStore (opts : list (RedisStore -> RedisStore)) : RedisStore :=
  fold_left (fun s opt => opt s) opts {| rs_prefix := "ratelimit" |}.

(** [RedisStore.Reset]: DEL of the prefixed key. The error of a failed
    call is the client's own, returned as it is. *)
Definition RedisStore_Reset
  (del_fails : bool) (prefix : string) (st : gmap string RedisEntry) (key : string)
  : option error * gmap string RedisEntry :=
  let fullKey := prefix +:+ ":" +:+ key in
  if del_fails then (Some (Wrapped "redis: del failed"), st)
  else (None, delete fullKey st).

(** The concrete [limiter]. [Config.KeyExtractor] is kept beside the
    configuration record. *)
Record limiter : Type := {
  l_store : RedisStore;
  l_config : Config;
  l_KeyExtractor : KeyExtractor
}.

Section WithScripts.

(** The token-bucket and sliding-window scripts compute on Lua floating
    point numbers and on math.random; their evaluation is left abstract. *)
Variable tokenBucket slidingWindow :
  Clock -> gmap string RedisEntry -> string -> Config
  -> Res error Result * gmap string RedisEntry.

(** [RedisStore.fixedWindow]. *)
Definition fixedWindow
  (clk : Clock) (st : gmap string RedisEntry) (key : string) (config : Config)
  : Res error Result * gmap string RedisEntry :=
  let windowMs := Milliseconds (Window config) in
  if eval_fails clk then (Err (Wrapped "ratelimit: redis eval failed"), st)
  else
    match fixedWindow_script (redis_now_ms clk) st key (cfg_Limit config) windowMs with
    | None => (Err (Wrapped "ratelimit: redis eval failed"), st)
    | Some (r0, r1, r2, st') =>
        let allowed := bool_decide (r0 = 1) in
        let remaining := r1 in
        let ttlMs := r2 in
        let retryAfter :=
          if negb allowed then wrap64 (ttlMs * Idempotency.Millisecond) else 0 in
        (Ok {| Allowed := allowed;
               Limit := cfg_Limit config;
               Remaining := remaining;
               ResetAt := now_ns clk + wrap64 (ttlMs * Idempotency.Millisecond);
               RetryAfter := retryAfter |}, st')
    end.

(** [RedisStore.Allow]: the store's key prefix, then the dispatch on the
    configured algorithm. *)
Definition RedisStore_Allow
  (prefix : string) (clk : Clock) (st : gmap string RedisEntry)
  (key : string) (config : Config)
  : Res error Result * gmap string RedisEntry :=
  let fullKey := prefix +:+ ":" +:+ key in
  if bool_decide (Algorithm config = AlgorithmTokenBucket) then
    tokenBucket clk st fullKey config
  else if bool_decide (Algorithm config = AlgorithmSlidingWindow) then
    slidingWindow clk st fullKey config
  else if bool_decide (Algorithm config = AlgorithmFixedWindow) then
    fixedWindow clk st fullKey config
  else tokenBucket clk st fullKey config.

(** [New]: validation and defaults of the limiter configuration; [store]
    is None for a nil store and [keyExtractor] None for a nil
    [Config.KeyExtractor]. *)
Definition New
  (store : option RedisStore) (config : Config) (keyExtractor : option KeyExtractor)
  : Res error limiter :=
  match store with
  | None => Err (Wrapped "ratelimit: store is required")
  | Some store =>
      if cfg_Limit config <=? 0 then Err (Wrapped "ratelimit: limit must be positive")
      else if Window config <=? 0 then Err (Wrapped "ratelimit: window must be positive")
      else
        Ok {| l_store := store;
              l_config :=
                {| Algorithm :=
                     if bool_decide (Algorithm config = EmptyString)
                     then AlgorithmTokenBucket else Algorithm config;
                   cfg_Limit := cfg_Limit config;
                   Window := Window config;
                   Burst := if Burst config <=? 0 then cfg_Limit config
                            else Burst config |};
              l_KeyExtractor := default DefaultKeyExtractor keyExtractor |}
  end.

(** [limiter.AllowKey] over the Redis store with the given prefix. *)
Definition AllowKey
  (prefix : string) (config : Config) (clk : Clock)
  (st : gmap string RedisEntry) (key : string)
  : Res error Result * gmap string RedisEntry :=
  match RedisStore_Allow prefix clk st key config with
  | (Err _, st') => (Err (Wrapped "ratelimit: store error"), st')
  | (Ok result, st') => (Ok result, st')
  end.

(** [limiter.Allow]: the key comes from the configured extractor. *)
Definition limiter_Allow
  (l : limiter) (clk : Clock) (st : gmap string RedisEntry) (ctx : GoContext)
  : Res error Result * gmap string RedisEntry :=
  match l_KeyExtractor l ctx with
  | Err _ => (Err (Wrapped "ratelimit: failed to extract key"), st)
  | Ok key => AllowKey (rs_prefix (l_store l)) (l_config l) clk st key
  end.

End WithScripts.

(** [limiter.ResetKey] and [limiter.Reset]. *)
Definition ResetKey
  (del_fails : bool) (l : limiter) (st : gmap string RedisEntry) (key : string)
  : option error * gmap string RedisEntry :=
  RedisStore_Reset del_fails (rs_prefix (l_store l)) st key.

Definition Reset
  (del_fails : bool) (l : limiter) (st : gmap string RedisEntry) (ctx : GoContext)
  : option error * gmap string RedisEntry :=
  match l_KeyExtractor l ctx with
  | Err _ => (Some (Wrapped "ratelimit: failed to extract key"), st)
  | Ok key => ResetKey del_fails l st key
  end.

(** The [Limiter] interface as the middleware uses it. *)
Record Limiter : Type := {
  Limiter_AllowKey :
    Clock -> gmap string RedisEntry -> string
    -> Res error Result * gmap string RedisEntry
}.

(** A [limiter] seen through the interface. *)
Definition limiter_Limiter
  (tokenBucket slidingWindow :
     Clock -> gmap string RedisEntry -> string -> Config
     -> Res error Result * gmap string RedisEntry)
  (l : limiter) : Limiter :=
  {| Limiter_AllowKey :=
       AllowKey tokenBucket slidingWindow (rs_prefix (l_store l)) (l_config l) |}.

End Ratelimit.

(** ** The Fiber request context, as far as the sources use it *)

Module Fiber.

Definition StatusOK : Z := 200.
Definition StatusBadRequest : Z := 400.
Definition StatusUnauthorized : Z := 401.
Definition StatusNotFound : Z := 404.
Definition StatusConflict : Z := 409.
Definition StatusTooManyRequests : Z := 429.
Definition StatusInternalServerError : Z := 500.

Definition HeaderContentType : string := "Content-Type".

(** What fasthttp reports as the response content type when none is set. *)
Definition defaultContentType : string := "text/plain; charset=utf-8".

Record Request : Type := {
  Method : string;
  Path : string;
  ReqHeaders : gmap string string;
  BodyRaw : string;
  IP : string;
  (** c.Locals("user_id") asserted to string: None when the local is
      unset or holds another type. *)
  Locals_user_id : option string;
  (** requestid.FromContext. *)
  RequestID : string
}.

(** The response under construction; [ContentTypeHeader] is empty until
    a handler sets it. *)
Record Response : Type := {
  Status : Z;
  ContentTypeHeader : string;
  RespHeaders : gmap string string;
  RespBody : string
}.

Record Ctx : Type := {
  req : Request;
  resp : Response
}.

Definition Response_fresh : Response :=
  {| Status := StatusOK; ContentTypeHeader := EmptyString;
     RespHeaders := ∅; RespBody := EmptyString |}.

(** c.Get(key): the request header, or the empty string. *)
Definition Get (c : Ctx) (key : string) : string :=
  default EmptyString (ReqHeaders (req c) !! key).

(** c.Status(status). *)
Definition SetStatus (status : Z) (c : Ctx) : Ctx :=
  {| req := req c;
     resp := {| Status := status;
                ContentTypeHeader := ContentTypeHeader (resp c);
                RespHeaders := RespHeaders (resp c);
                RespBody := RespBody (resp c) |} |}.

(** c.Set(key, val) on the response. *)
Definition Set_ (key val : string) (c : Ctx) : Ctx :=
  if bool_decide (key = HeaderContentType) then
    {| req := req c;
       resp := {| Status := Status (resp c);
                  ContentTypeHeader := val;
                  RespHeaders := RespHeaders (resp c);
                  RespBody := RespBody (resp c) |} |}
  else
    {| req := req c;
       resp := {| Status := Status (resp c);
                  ContentTypeHeader := ContentTypeHeader (resp c);
                  RespHeaders := <[key := val]> (RespHeaders (resp c));
                  RespBody := RespBody (resp c) |} |}.

(** c.Send(body). *)
Definition Send (body : string) (c : Ctx) : Ctx :=
  {| req := req c;
     resp := {| Status := Status (resp c);
                ContentTypeHeader := ContentTypeHeader (resp c);
                RespHeaders := RespHeaders (resp c);
                RespBody := body |} |}.

(** c.Response().Header.ContentType(). *)
Definition Response_ContentType (c : Ctx) : string :=
  if bool_decide (ContentTypeHeader (resp c) = EmptyString)
  then defaultContentType else ContentTypeHeader (resp c).

(** What a client can tell two replies apart by, besides the other
    headers: status code, content type and body bytes. *)
Definition reply (c : Ctx) : Z * string * string :=
  (Status (resp c), Response_ContentType c, RespBody (resp c)).

Section WithRuntime.
Context `{Runtime}.

(** c.Status(status).JSON(data). *)
Definition JSON (status : Z) (data : json_object) (c : Ctx) : Ctx :=
  Set_ HeaderContentType JSONContentType
    (Send (JSONEncoder data) (SetStatus status c)).

End WithRuntime.

(** The stores a request can touch. *)
Record World : Type := {
  pg : DB;
  rd : gmap string Ratelimit.RedisEntry
}.

Definition set_pg (db : DB) (w : World) : World := {| pg := db; rd := rd w |}.
Definition set_rd (st : gmap string Ratelimit.RedisEntry) (w : World) : World :=
  {| pg := pg w; rd := st |}.

(** A [fiber.Handler]: the error it returns, the context and the stores
    after it ran. *)
Definition Handler : Type :=
  Ratelimit.Clock -> Ctx -> World -> option error * Ctx * World.

Definition MethodPost : string := "POST".
Definition HeaderAuthorization : string := "Authorization".

(** c.Locals("user_id", value) with a string value. *)
Definition set_Locals_user_id (value : string) (c : Ctx) : Ctx :=
  {| req := {| Method := Method (req c);
               Path := Path (req c);
               ReqHeaders := ReqHeaders (req c);
               BodyRaw := BodyRaw (req c);
               IP := IP (req c);
               Locals_user_id := Some value;
               RequestID := RequestID (req c) |};
     resp := resp c |}.

End Fiber.

(** ** Package jwt: the HMAC token manager *)

Module Jwt.

Definition StrategyHMAC : string := "hmac".

(** A time.Time as Unix nanoseconds; the zero Time is the first instant
    of year 1. *)
Definition zeroTime : Z := -62135596800 * 1000000000.
Definition IsZero (t : Z) : bool := bool_decide (t = zeroTime).

(** [Audience] is None for a nil slice; [Secret] is the byte string. *)
Record Options : Type := {
  Strategy : string;
  Secret : string;
  Algorithm : string;
  Issuer : string;
  Audience : option (list string);
  TTL : Z
}.

Record Claims : Type := {
  Subject : string;
  c_Issuer : string;
  c_Audience : option (list string);
  ExpiresAt : Z;
  IssuedAt : Z;
  NotBefore : Z;
  ID : string
}.

(** [Claims{Subject: subject}]. *)
Definition Claims_of_subject (subject : string) : Claims :=
  {| Subject := subject; c_Issuer := EmptyString; c_Audience := None;
     ExpiresAt := zeroTime; IssuedAt := zeroTime; NotBefore := zeroTime;
     ID := EmptyString |}.

(** The three HMAC signing methods of the library. *)
Inductive SigningMethod : Type :=
| SigningMethodHS256
| SigningMethodHS384
| SigningMethodHS512.

(** jwtlib.RegisteredClaims; the numeric dates are pointers. *)
Record RegisteredClaims : Type := {
  r_Issuer : string;
  r_Subject : string;
  r_Audience : option (list string);
  r_ExpiresAt : option Z;
  r_NotBefore : option Z;
  r_IssuedAt : option Z;
  r_ID : string
}.

Record hmacManager : Type := {
  secret : string;
  method : SigningMethod;
  issuer : string;
  audience : option (list string);
  ttl : Z
}.

(** The [TokenManager] interface; both methods read the clock. *)
Record TokenManager : Type := {
  Sign : Z -> Claims -> Res error string;
  Verify : Z -> string -> Res error Claims
}.

Definition resolveHMACMethod (alg : string) : Res error SigningMethod :=
  if bool_decide (alg = EmptyString) || bool_decide (alg = "HS256")
  then Ok SigningMethodHS256
  else if bool_decide (alg = "HS384") then Ok SigningMethodHS384
  else if bool_decide (alg = "HS512") then Ok SigningMethodHS512
  else Err (Wrapped "jwt: unsupported HMAC algorithm").

Definition NewHMAC (opts : Options) : Res error hmacManager :=
  if (String.length (Secret opts) =? 0)%nat then
    Err (Wrapped "jwt: HMAC secret must not be empty")
  else if (String.length (Secret opts) <? 32)%nat then
    Err (Wrapped "jwt: HMAC secret must be at least 32 bytes")
  else
    match resolveHMACMethod (Algorithm opts) with
    | Err err => Err err
    | Ok method =>
        Ok {| secret := Secret opts;
              method := method;
              issuer := Issuer opts;
              audience := Audience opts;
              ttl := TTL opts |}
    end.

(** [New]. *)
Definition New (opts : Options) : Res error hmacManager :=
  if bool_decide (Strategy opts = StrategyHMAC) then NewHMAC opts
  else Err (Wrapped "jwt: unknown strategy").

Section WithLibrary.

(** jwtlib.NewNumericDate: the time as the library keeps it; and
    Token.SignedString of a token made by NewWithClaims. *)
Variable NewNumericDate : Z -> Z.
Variable SignedString : SigningMethod -> RegisteredClaims -> string -> Res error string.

(** The registered claims [Sign] builds at time [now]. *)
Definition Sign_registered (m : hmacManager) (now : Z) (claims : Claims)
  : RegisteredClaims :=
  {| r_Subject := Subject claims;
     r_ID := ID claims;
     r_Issuer :=
       if bool_decide (c_Issuer claims <> EmptyString) then c_Issuer claims
       else issuer m;
     r_Audience :=
       match c_Audience claims with
       | Some a => Some a
       | None => audience m
       end;
     r_IssuedAt :=
       if negb (IsZero (IssuedAt claims)) then Some (NewNumericDate (IssuedAt claims))
       else Some (NewNumericDate now);
     r_ExpiresAt :=
       if negb (IsZero (ExpiresAt claims)) then Some (NewNumericDate (ExpiresAt claims))
       else if 0 <? ttl m then Some (NewNumericDate (now + ttl m))
       else None;
     r_NotBefore :=
       if negb (IsZero (NotBefore claims)) then Some (NewNumericDate (NotBefore claims))
       else None |}.

(** [hmacManager.Sign]. *)
Definition hmacManager_Sign (m : hmacManager) (now : Z) (claims : Claims)
  : Res error string :=
  match SignedString (method m) (Sign_registered m now claims) (secret m) with
  | Err _ => Err (Wrapped "jwt: failed to sign token")
  | Ok signed => Ok signed
  end.

End WithLibrary.

(** [registeredToClaims]. *)
Definition registeredToClaims (r : RegisteredClaims) : Claims :=
  {| Subject := r_Subject r;
     c_Issuer := r_Issuer r;
     c_Audience := r_Audience r;
     ID := r_ID r;
     ExpiresAt := default zeroTime (r_ExpiresAt r);
     IssuedAt := default zeroTime (r_IssuedAt r);
     NotBefore := default zeroTime (r_NotBefore r) |}.

End Jwt.

(** ** Package middlewares: request id, rate limit, idempotency *)

Module Middlewares.

Definition ChainIDHeader : string := "X-Request-ID".
Definition IdempotencyKeyHeader : string := "X-Idempotency-Key".

(** [ChainIDFromContext]. *)
Definition ChainIDFromContext (c : Fiber.Ctx) : string :=
  let chainID := Fiber.RequestID (Fiber.req c) in
  if bool_decide (chainID <> EmptyString) then chainID
  else Fiber.Get c ChainIDHeader.

Record RateLimitConfig : Type := {
  Limiter : option Ratelimit.Limiter;
  Skipper : option (Fiber.Ctx -> bool);
  KeyExtractor : option (Fiber.Ctx -> string)
}.

Definition defaultKeyExtractor (c : Fiber.Ctx) : string :=
  match Fiber.Locals_user_id (Fiber.req c) with
  | Some uid =>
      if bool_decide (uid <> EmptyString) then "user:" +:+ uid
      else "ip:" +:+ Fiber.IP (Fiber.req c)
  | None => "ip:" +:+ Fiber.IP (Fiber.req c)
  end.

Definition PerUserKeyExtractor (prefix : string) (c : Fiber.Ctx) : string :=
  match Fiber.Locals_user_id (Fiber.req c) with
  | Some uid =>
      if bool_decide (uid <> EmptyString) then prefix +:+ ":user:" +:+ uid
      else prefix +:+ ":ip:" +:+ Fiber.IP (Fiber.req c)
  | None => prefix +:+ ":ip:" +:+ Fiber.IP (Fiber.req c)
  end.

Definition SkipHealthCheck (c : Fiber.Ctx) : bool :=
  bool_decide (Fiber.Path (Fiber.req c) = "/healthz").

Definition SkipAuthRoutes (c : Fiber.Ctx) : bool :=
  let path := Fiber.Path (Fiber.req c) in
  bool_decide (path = "/healthz")
  || (bool_decide (Fiber.Method (Fiber.req c) = Fiber.MethodPost)
      && bool_decide (path = "/api/v1/auth/login")).

Definition PerIPKeyExtractor (prefix : string) (c : Fiber.Ctx) : string :=
  prefix +:+ ":ip:" +:+ Fiber.IP (Fiber.req c).

Definition PerEndpointKeyExtractor (prefix : string) (c : Fiber.Ctx) : string :=
  match Fiber.Locals_user_id (Fiber.req c) with
  | Some uid =>
      if bool_decide (uid <> EmptyString) then
        prefix +:+ ":" +:+ Fiber.Method (Fiber.req c) +:+ ":"
          +:+ Fiber.Path (Fiber.req c) +:+ ":user:" +:+ uid
      else
        prefix +:+ ":" +:+ Fiber.Method (Fiber.req c) +:+ ":"
          +:+ Fiber.Path (Fiber.req c) +:+ ":ip:" +:+ Fiber.IP (Fiber.req c)
  | None =>
      prefix +:+ ":" +:+ Fiber.Method (Fiber.req c) +:+ ":"
        +:+ Fiber.Path (Fiber.req c) +:+ ":ip:" +:+ Fiber.IP (Fiber.req c)
  end.

(** strings.HasPrefix and strings.Contains on byte strings. *)
Fixpoint HasPrefix (s prefix : string) : bool :=
  match prefix, s with
  | EmptyString, _ => true
  | String a prefix', String b s' => Ascii.eqb a b && HasPrefix s' prefix'
  | String _ _, EmptyString => false
  end.

Fixpoint Contains (s substr : string) : bool :=
  HasPrefix s substr
  || match s with
     | EmptyString => false
     | String _ s' => Contains s' substr
     end.

(** strings.Cut(s, " "): the text before and after the first space. *)
Fixpoint Cut_space (s : string) : option (string * string) :=
  match s with
  | EmptyString => None
  | String a s' =>
      if Ascii.eqb a " "%char then Some (EmptyString, s')
      else
        match Cut_space s' with
        | Some (before, after) => Some (String a before, after)
        | None => None
        end
  end.

(** strings.SplitN(s, " ", 2). *)
Definition SplitN_space_2 (s : string) : list string :=
  match Cut_space s with
  | Some (before, after) => [before; after]
  | None => [s]
  end.

(** strconv.FormatInt(n, 10) and strconv.Itoa. *)
Definition FormatInt (n : Z) : string := pretty n.

(** int(d.Seconds()). Seconds() is float64(d / Second) +
    float64(d % Second) / 1e9, and the conversion to int truncates
    toward zero. For a duration of less than 2^24 seconds in magnitude
    the float64 sum cannot round up to the next whole second, and the
    result is the integer quotient written here; from 2^24 seconds on
    the two can differ by one (16777216.999999999 s gives 16777217 in
    Go). What is proved of the Retry-After value keeps to durations
    below 2^24 seconds. *)
Definition Seconds_int (d : Z) : Z := Z.quot d Idempotency.Second.

(** Time.Unix() of a time given in Unix nanoseconds. *)
Definition Unix (t : Z) : Z := t `div` Idempotency.Second.

Section WithRuntime.
Context `{Runtime}.

Definition error_body (msg : string) : json_object := [("error", JString msg)].

(** [NewHTTPRateLimitMiddleware] around the rest of the chain [next]. *)
Definition NewHTTPRateLimitMiddleware
  (cfg : RateLimitConfig) (next : Fiber.Handler) : Fiber.Handler :=
  fun clk c w =>
  match Limiter cfg with
  | None => next clk c w
  | Some limiter =>
      let skipper := default (fun _ => false) (Skipper cfg) in
      let keyExtractor := default defaultKeyExtractor (KeyExtractor cfg) in
      if skipper c then next clk c w
      else
        let key := keyExtractor c in
        match Ratelimit.Limiter_AllowKey limiter clk (Fiber.rd w) key with
        | (Err _, st') =>
            (None,
             Fiber.JSON Fiber.StatusInternalServerError
               (error_body "internal server error") c,
             Fiber.set_rd st' w)
        | (Ok result, st') =>
            let w := Fiber.set_rd st' w in
            let c := Fiber.Set_ "X-RateLimit-Limit"
                       (FormatInt (Ratelimit.Limit result)) c in
            let c := Fiber.Set_ "X-RateLimit-Remaining"
                       (FormatInt (Ratelimit.Remaining result)) c in
            let c := Fiber.Set_ "X-RateLimit-Reset"
                       (FormatInt (Unix (Ratelimit.ResetAt result))) c in
            if negb (Ratelimit.Allowed result) then
              let retryAfter := Seconds_int (Ratelimit.RetryAfter result) in
              let retryAfter := if retryAfter <? 1 then 1 else retryAfter in
              let c := Fiber.Set_ "Retry-After" (FormatInt retryAfter) c in
              (None,
               Fiber.JSON Fiber.StatusTooManyRequests
                 [("error", JString "rate limit exceeded");
                  ("retry_after", JNumber retryAfter)] c,
               w)
            else next clk c w
        end
  end.

Definition newline : string := String "010"%char EmptyString.

(** [withdrawRequestHash]. *)
Definition withdrawRequestHash (method path userID body : string) : string :=
  sha256_hex
    (ToUpper (TrimSpace method) +:+ newline +:+
     TrimSpace path +:+ newline +:+
     TrimSpace userID +:+ newline +:+ body).

(** [NewHTTPWithdrawIdempotencyMiddleware] around the rest of the chain
    [next]; [store] is None for a nil store. *)
Definition NewHTTPWithdrawIdempotencyMiddleware
  (store : option Idempotency.Store) (next : Fiber.Handler) : Fiber.Handler :=
  fun clk c w =>
  match store with
  | None =>
      (None, Fiber.JSON Fiber.StatusInternalServerError
               (error_body "idempotency store is not available") c, w)
  | Some store =>
  match Fiber.Locals_user_id (Fiber.req c) with
  | None =>
      (None, Fiber.JSON Fiber.StatusUnauthorized
               (error_body "missing authenticated user") c, w)
  | Some userID =>
  if bool_decide (TrimSpace userID = EmptyString) then
    (None, Fiber.JSON Fiber.StatusUnauthorized
             (error_body "missing authenticated user") c, w)
  else
  let idempotencyKey := TrimSpace (Fiber.Get c IdempotencyKeyHeader) in
  if bool_decide (idempotencyKey = EmptyString) then
    (None, Fiber.JSON Fiber.StatusBadRequest
             (error_body "missing idempotency key") c, w)
  else
  let requestBody := Fiber.BodyRaw (Fiber.req c) in
  let hash :=
    withdrawRequestHash (Fiber.Method (Fiber.req c)) (Fiber.Path (Fiber.req c))
      userID requestBody in
  let request :=
    {| Idempotency.Scope := "withdraw:" +:+ userID;
       Idempotency.Key := idempotencyKey;
       Idempotency.RequestHash := hash;
       Idempotency.LockTTL := 0 |} in
  match Idempotency.Acquire store (Ratelimit.now_ns clk) (Fiber.pg w) request with
  | (Err _, db') =>
      (None, Fiber.JSON Fiber.StatusInternalServerError
               (error_body "failed to acquire idempotency key") c,
       Fiber.set_pg db' w)
  | (Ok decision, db') =>
      let w := Fiber.set_pg db' w in
      if bool_decide (Idempotency.Type_ decision = Idempotency.DecisionReplay) then
        let c :=
          if bool_decide (Idempotency.ContentType decision <> EmptyString)
          then Fiber.Set_ Fiber.HeaderContentType
                 (Idempotency.ContentType decision) c
          else c in
        let statusCode :=
          if Idempotency.StatusCode decision <=? 0 then Fiber.StatusOK
          else Idempotency.StatusCode decision in
        (None, Fiber.Send (Idempotency.Body decision) (Fiber.SetStatus statusCode c), w)
      else if bool_decide (Idempotency.Type_ decision = Idempotency.DecisionInProgress) then
        (None, Fiber.JSON Fiber.StatusConflict
                 (error_body "request is already in progress") c, w)
      else if bool_decide (Idempotency.Type_ decision = Idempotency.DecisionConflict) then
        (None, Fiber.JSON Fiber.StatusConflict
                 (error_body "idempotency key reused with different payload") c, w)
      else if bool_decide (Idempotency.Type_ decision = Idempotency.DecisionAcquired) then
        let '(handlerErr, c, w) := next clk c w in
        let response :=
          {| Idempotency.sr_StatusCode := Fiber.Status (Fiber.resp c);
             Idempotency.sr_Body := Fiber.RespBody (Fiber.resp c);
             Idempotency.sr_ContentType := Fiber.Response_ContentType c |} in
        match Idempotency.Complete store (Ratelimit.now_ns clk) (Fiber.pg w)
                request response with
        | (Some _, db'') =>
            match handlerErr with
            | Some e => (Some e, c, Fiber.set_pg db'' w)
            | None =>
                (None, Fiber.JSON Fiber.StatusInternalServerError
                         (error_body "failed to persist idempotency response") c,
                 Fiber.set_pg db'' w)
            end
        | (None, db'') => (handlerErr, c, Fiber.set_pg db'' w)
        end
      else
        (None, Fiber.JSON Fiber.StatusInternalServerError
                 (error_body "invalid idempotency state") c, w)
  end
  end
  end.

Section WithEqualFold.

(** strings.EqualFold: equality under Unicode case folding. *)
Variable EqualFold : string -> string -> bool.

(** [NewHTTPJWTMiddleware] around the rest of the chain [next]. The
    local jwt_claims it also sets is read by no handler. *)
Definition NewHTTPJWTMiddleware
  (tokenManager : Jwt.TokenManager) (next : Fiber.Handler) : Fiber.Handler :=
  fun clk c w =>
  let path := Fiber.Path (Fiber.req c) in
  if bool_decide (Fiber.Method (Fiber.req c) = Fiber.MethodPost)
     && Contains path "/auth/login" then next clk c w
  else
    let authorizationHeader := TrimSpace (Fiber.Get c Fiber.HeaderAuthorization) in
    match SplitN_space_2 authorizationHeader with
    | [scheme; rest] =>
        if negb (EqualFold scheme "Bearer") then
          (None, Fiber.JSON Fiber.StatusUnauthorized
                   (error_body "missing or invalid authorization header") c, w)
        else
          let tokenString := TrimSpace rest in
          if bool_decide (tokenString = EmptyString) then
            (None, Fiber.JSON Fiber.StatusUnauthorized
                     (error_body "missing bearer token") c, w)
          else
            match Jwt.Verify tokenManager (Ratelimit.now_ns clk) tokenString with
            | Err _ =>
                (None, Fiber.JSON Fiber.StatusUnauthorized
                         (error_body "invalid token") c, w)
            | Ok claims =>
                next clk (Fiber.set_Locals_user_id (Jwt.Subject claims) c) w
            end
    | _ =>
        (None, Fiber.JSON Fiber.StatusUnauthorized
                 (error_body "missing or invalid authorization header") c, w)
    end.

End WithEqualFold.

End WithRuntime.

End Middlewares.

(** ** Package handlers: the withdraw handler *)

Module Handlers.

Section WithRuntime.
Context `{Runtime}.

Definition error_body (msg : string) : json_object := [("error", JString msg)].

Definition withdrawal_body (r : WalletWithdrawal) : json_object :=
  [("user_id", JString (ww_UserID r));
   ("amount_minor", JNumber (ww_AmountMinor r));
   ("balance_minor", JNumber (ww_BalanceMinor r));
   ("currency", JString (ww_Currency r));
   ("chain_id", JString (ww_ChainID r));
   ("updated_at", JTime (ww_UpdatedAt r))].

(** [InquiryWithdrawBalanceHandler.Handle] over the service and the
    repository; [f] says which of the repository's database calls fail. *)
Definition Handle (f : Repository.Faults) : Fiber.Handler :=
  fun clk c w =>
  match Fiber.Locals_user_id (Fiber.req c) with
  | None =>
      (None, Fiber.JSON Fiber.StatusUnauthorized
               (error_body "missing authenticated user") c, w)
  | Some userID =>
      if bool_decide (userID = EmptyString) then
        (None, Fiber.JSON Fiber.StatusUnauthorized
                 (error_body "missing authenticated user") c, w)
      else
        match BindJSON_withdrawalRequest (Fiber.BodyRaw (Fiber.req c)) with
        | None =>
            (None, Fiber.JSON Fiber.StatusBadRequest
                     (error_body "invalid request body") c, w)
        | Some amountMinor =>
            let chainID := Middlewares.ChainIDFromContext c in
            match Services.WithdrawBalance f (Ratelimit.now_ns clk) (Fiber.pg w)
                    userID amountMinor chainID with
            | (Err err, db', _) =>
                let w' := Fiber.set_pg db' w in
                match err with
                | ErrInvalidAmount =>
                    (None, Fiber.JSON Fiber.StatusBadRequest
                             (error_body "amount_minor must be greater than 0") c, w')
                | ErrWalletNotFound =>
                    (None, Fiber.JSON Fiber.StatusNotFound
                             (error_body "wallet not found") c, w')
                | ErrInsufficientBalance =>
                    (None, Fiber.JSON Fiber.StatusConflict
                             (error_body "insufficient balance") c, w')
                | Wrapped _ =>
                    (None, Fiber.JSON Fiber.StatusInternalServerError
                             (error_body "internal server error") c, w')
                end
            | (Ok result, db', _) =>
                (None, Fiber.JSON Fiber.StatusOK (withdrawal_body result) c,
                 Fiber.set_pg db' w)
            end
        end
  end.

Definition balance_body (r : Services.BalanceInquiry) : json_object :=
  [("user_id", JString (Services.bi_UserID r));
   ("balance_minor", JNumber (Services.bi_BalanceMinor r));
   ("currency", JString (Services.bi_Currency r));
   ("updated_at", JTime (Services.bi_UpdatedAt r))].

(** [InquiryCheckBalanceHandler.Handle] over the service and the
    repository; [query_fails] says whether the repository's database call
    fails. *)
Definition InquiryCheckBalanceHandler_Handle (query_fails : bool) : Fiber.Handler :=
  fun clk c w =>
  match Fiber.Locals_user_id (Fiber.req c) with
  | None =>
      (None, Fiber.JSON Fiber.StatusUnauthorized
               (error_body "missing authenticated user") c, w)
  | Some userID =>
      if bool_decide (userID = EmptyString) then
        (None, Fiber.JSON Fiber.StatusUnauthorized
                 (error_body "missing authenticated user") c, w)
      else
        match Services.CheckBalance query_fails (Fiber.pg w) userID with
        | Err err =>
            if bool_decide (err = ErrWalletNotFound) then
              (None, Fiber.JSON Fiber.StatusNotFound
                       (error_body "wallet not found") c, w)
            else
              (None, Fiber.JSON Fiber.StatusInternalServerError
                       (error_body "internal server error") c, w)
        | Ok balance =>
            (None, Fiber.JSON Fiber.StatusOK (balance_body balance) c, w)
        end
  end.

End WithRuntime.

End Handlers.

(** ** Package app: algorithm selection and the withdraw route *)

Module App.

Section WithRuntime.
Context `{Runtime}.

(** [parseRateLimitAlgorithm]. *)
Definition parseRateLimitAlgorithm (value : string) : string :=
  let v := TrimSpace (ToLower value) in
  if bool_decide (v = "sliding_window") then Ratelimit.AlgorithmSlidingWindow
  else if bool_decide (v = "fixed_window") then Ratelimit.AlgorithmFixedWindow
  else Ratelimit.AlgorithmTokenBucket.

(** [registerWithdrawRoutes]: rate limit, then idempotency, then the
    handler. *)
Definition registerWithdrawRoutes
  (RateLimiter : option Ratelimit.Limiter)
  (IdempotencyStore : option Idempotency.Store)
  (f : Repository.Faults) : Fiber.Handler :=
  Middlewares.NewHTTPRateLimitMiddleware
    {| Middlewares.Limiter := RateLimiter;
       Middlewares.Skipper := None;
       Middlewares.KeyExtractor := Some (Middlewares.PerUserKeyExtractor "withdraw") |}
    (Middlewares.NewHTTPWithdrawIdempotencyMiddleware IdempotencyStore
       (Handlers.Handle f)).

End WithRuntime.

End App.

(** ** Package hash: strategy selection *)

Module Hash.

Definition StrategyBcrypt : string := "bcrypt".

Record Options : Type := {
  Strategy : string;
  Cost : Z
}.

(** The one implementation of [Hasher]: bcrypt with a cost. *)
Record bcryptHasher : Type := {
  cost : Z
}.

(** bcrypt.MinCost, bcrypt.MaxCost, bcrypt.DefaultCost. *)
Definition MinCost : Z := 4.
Definition MaxCost : Z := 31.
Definition DefaultCost : Z := 10.

(** [NewBcrypt]. *)
Definition NewBcrypt (cost : Z) : Res error bcryptHasher :=
  let cost := if cost =? 0 then DefaultCost else cost in
  if (cost <? MinCost) || (MaxCost <? cost) then
    Err (Wrapped "hash: bcrypt cost out of range")
  else Ok {| cost := cost |}.

(** [New]. *)
Definition New (opts : Options) : Res error bcryptHasher :=
  if bool_decide (Strategy opts = StrategyBcrypt) then NewBcrypt (Cost opts)
  else Err (Wrapped "hash: unknown strategy").

(** The [Hasher] interface; [Compare] returns None for a nil error. *)
Record Hasher : Type := {
  Hash : string -> Res error string;
  Compare : string -> string -> option error
}.

End Hash.

(** ** Login: the auth repository and service *)

Module Auth.

(** Row of [users]. *)
Record User : Type := {
  u_id : string;
  u_email : string;
  u_password_hash : string;
  u_status : string
}.

(** domain.UserAuth, as the repository fills it. *)
Record UserAuth : Type := {
  ua_ID : string;
  ua_Email : string;
  ua_PasswordHash : string;
  ua_Status : string
}.

(** vo.AuthLogin, as the service fills it. *)
Record AuthLogin : Type := {
  AccessToken : string;
  TokenType : string
}.

(** The sentinel vo.ErrInvalidCredentials and the errors made by
    fmt.Errorf, identified by their message prefix. *)
Inductive AuthError : Type :=
| ErrInvalidCredentials
| AuthWrapped (msg : string).

Section WithRuntime.
Context `{Runtime}.

(** lower(text) of the database server. *)
Variable sql_lower : string -> string.

(** [AuthLoginRepository.GetUserAuthByEmail]:
    SELECT id::text AS id, email, password_hash, status FROM users
    WHERE lower(email) = $1 LIMIT 1.
    The statement has no ORDER BY: the row it returns is the first match
    in the order the server scans the table, which is the order of the
    list. [query_fails] says whether the call fails for another reason
    than an empty result. *)
Definition GetUserAuthByEmail
  (query_fails : bool) (users : list User) (email : string)
  : Res AuthError UserAuth :=
  let normalizedEmail := TrimSpace (ToLower email) in
  if bool_decide (normalizedEmail = EmptyString) then Err ErrInvalidCredentials
  else if query_fails then
    Err (AuthWrapped "repository: get user auth by email failed")
  else
    match List.find (fun u => bool_decide (sql_lower (u_email u) = normalizedEmail))
            users with
    | None => Err ErrInvalidCredentials
    | Some row =>
        if bool_decide (u_status row <> "active") then Err ErrInvalidCredentials
        else
          Ok {| ua_ID := u_id row;
                ua_Email := u_email row;
                ua_PasswordHash := u_password_hash row;
                ua_Status := u_status row |}
    end.

(** [AuthLoginService.Login] over the repository, a hasher and a token
    manager. *)
Definition Login
  (hasher : Hash.Hasher) (tokenManager : Jwt.TokenManager)
  (query_fails : bool) (now : Z) (users : list User) (email password : string)
  : Res AuthError AuthLogin :=
  let normalizedEmail := TrimSpace (ToLower email) in
  if bool_decide (normalizedEmail = EmptyString)
     || bool_decide (TrimSpace password = EmptyString) then
    Err ErrInvalidCredentials
  else
    match GetUserAuthByEmail query_fails users normalizedEmail with
    | Err err => Err err
    | Ok user =>
        match Hash.Compare hasher (ua_PasswordHash user) password with
        | Some _ => Err ErrInvalidCredentials
        | None =>
            match Jwt.Sign tokenManager now (Jwt.Claims_of_subject (ua_ID user)) with
            | Err _ => Err (AuthWrapped "service: failed to issue token")
            | Ok token => Ok {| AccessToken := token; TokenType := "Bearer" |}
            end
        end
    end.

End WithRuntime.

End Auth.

(** ** Package config: the provider interface *)

Module Config.

(** The methods of [ConfigProvider] the application reads. Durations are
    int64 nanoseconds. *)
Record ConfigProvider : Type := {
  GetString : string -> string;
  GetInt : string -> Z;
  GetDuration : string -> Z;
  IsSet : string -> bool
}.

End Config.

(** ** Package app: the providers *)

Module Bootstrap.

Definition Minute : Z := 60 * Idempotency.Second.

(** redis.Options, as [provideRedisClient] fills it. *)
Record RedisOptions : Type := {
  Addr : string;
  Password : string;
  DB_ : Z
}.

(** strings.Repeat. *)
Fixpoint Repeat (s : string) (count : nat) : string :=
  match count with
  | O => EmptyString
  | S count' => s +:+ Repeat s count'
  end.

(** strings.ReplaceAll(s, old, new) for one-byte [old] and [new]. *)
Fixpoint ReplaceAll_byte (s : string) (old new : ascii) : string :=
  match s with
  | EmptyString => EmptyString
  | String a s' =>
      String (if Ascii.eqb a old then new else a) (ReplaceAll_byte s' old new)
  end.

Section WithRuntime.
Context `{Runtime}.

(** [provideRedisClient]: the options the client is made with. *)
Definition provideRedisClient (cfg : Config.ConfigProvider) : RedisOptions :=
  let host := TrimSpace (Config.GetString cfg "redis.host") in
  let host := if bool_decide (host = EmptyString) then "localhost" else host in
  let port := Config.GetInt cfg "redis.port" in
  let port := if port =? 0 then 6379 else port in
  {| Addr := host +:+ ":" +:+ Middlewares.FormatInt port;
     Password := Config.GetString cfg "redis.password";
     DB_ := Config.GetInt cfg "redis.db" |}.

(** [provideWithdrawRateLimiter]; [redisClient] is None for a nil client.
    The OnLimited callback only logs. *)
Definition provideWithdrawRateLimiter
  (cfg : Config.ConfigProvider) (redisClient : option RedisOptions)
  : Res error Ratelimit.limiter :=
  match redisClient with
  | None => Err (Wrapped "app: redis client is required for withdraw rate limiter")
  | Some _ =>
      let limit := Config.GetInt cfg "rate_limit.withdraw.limit" in
      let limit := if limit <=? 0 then 20 else limit in
      let window := Config.GetDuration cfg "rate_limit.withdraw.window" in
      let window := if window <=? 0 then Minute else window in
      let burst := Config.GetInt cfg "rate_limit.withdraw.burst" in
      let burst := if burst <=? 0 then limit else burst in
      let algorithm :=
        App.parseRateLimitAlgorithm
          (Config.GetString cfg "rate_limit.withdraw.algorithm") in
      let store :=
        Ratelimit.NewRedisStore [Ratelimit.WithRedisPrefix "withdraw-api:withdraw"] in
      Ratelimit.New (Some store)
        {| Ratelimit.Algorithm := algorithm;
           Ratelimit.cfg_Limit := limit;
           Ratelimit.Window := window;
           Ratelimit.Burst := burst |}
        None
  end.

(** [providePasswordHasher]. *)
Definition providePasswordHasher : Res error Hash.bcryptHasher :=
  Hash.New {| Hash.Strategy := Hash.StrategyBcrypt; Hash.Cost := 0 |}.

(** [provideJWTTokenManager]. *)
Definition provideJWTTokenManager (cfg : Config.ConfigProvider)
  : Res error Jwt.hmacManager :=
  let secret := Config.GetString cfg "security.jwt.secret" in
  let secret :=
    if bool_decide (secret = EmptyString) then Config.GetString cfg "jwt.secret"
    else secret in
  let secret :=
    if bool_decide (secret = EmptyString)
    then "change-me-please-use-strong-secret-in-production" else secret in
  let secret :=
    if (String.length secret <? 32)%nat
    then secret +:+ Repeat "x" (32 - String.length secret) else secret in
  let ttl := Config.GetDuration cfg "security.jwt.ttl" in
  let ttl := if ttl <=? 0 then 15 * Minute else ttl in
  match Jwt.New {| Jwt.Strategy := Jwt.StrategyHMAC;
                   Jwt.Secret := secret;
                   Jwt.Algorithm := "HS256";
                   Jwt.Issuer := Config.GetString cfg "security.jwt.issuer";
                   Jwt.Audience := None;
                   Jwt.TTL := ttl |} with
  | Err _ => Err (Wrapped "app: failed to init JWT manager")
  | Ok tokenManager => Ok tokenManager
  end.

(** [isSingleBinaryBin]. *)
Definition isSingleBinaryBin (bin : string) : bool :=
  let normalized := TrimSpace (ToLower bin) in
  bool_decide (normalized = EmptyString) || bool_decide (normalized = "all").

(** [moduleDBEnvKey] and [globalDBEnvKey]. *)
Definition moduleDBEnvKey (module key : string) : string :=
  let normalizedKey := ToUpper (ReplaceAll_byte key "."%char "_"%char) in
  "DATABASE_" +:+ ToUpper module +:+ "_" +:+ normalizedKey.

Definition globalDBEnvKey (key : string) : string :=
  let normalizedKey := ToUpper (ReplaceAll_byte key "."%char "_"%char) in
  "DATABASE_" +:+ normalizedKey.

(** [moduleDBString]: [fromModule] is the value the first block returns,
    None when control falls through it. *)
Definition moduleDBString
  (cfg : Config.ConfigProvider) (module key : string) (useModuleConfig : bool)
  : string :=
  let fromModule :=
    if useModuleConfig then
      let moduleKey := "database." +:+ module +:+ "." +:+ key in
      if Config.IsSet cfg moduleKey then Some (Config.GetString cfg moduleKey)
      else
        let moduleEnvKey := moduleDBEnvKey module key in
        if Config.IsSet cfg moduleEnvKey
        then Some (Config.GetString cfg moduleEnvKey)
        else None
    else None in
  match fromModule with
  | Some value => value
  | None =>
      let globalKey := "database." +:+ key in
      if Config.IsSet cfg globalKey then Config.GetString cfg globalKey
      else Config.GetString cfg (globalDBEnvKey key)
  end.

(** [moduleDBInt]. *)
Definition moduleDBInt
  (cfg : Config.ConfigProvider) (module key : string) (useModuleConfig : bool) : Z :=
  let fromModule :=
    if useModuleConfig then
      let moduleKey := "database." +:+ module +:+ "." +:+ key in
      if Config.IsSet cfg moduleKey then Some (Config.GetInt cfg moduleKey)
      else
        let moduleEnvKey := moduleDBEnvKey module key in
        if Config.IsSet cfg moduleEnvKey
        then Some (Config.GetInt cfg moduleEnvKey)
        else None
    else None in
  match fromModule with
  | Some value => value
  | None =>
      let globalKey := "database." +:+ key in
      if Config.IsSet cfg globalKey then Config.GetInt cfg globalKey
      else Config.GetInt cfg (globalDBEnvKey key)
  end.

(** The data source name [providePostgresSQLXForModule] opens. *)
Definition providePostgresSQLXForModule_dsn
  (cfg : Config.ConfigProvider) (bin module : string) : string :=
  let useModuleConfig := negb (isSingleBinaryBin bin) in
  "host=" +:+ moduleDBString cfg module "host" useModuleConfig
  +:+ " port=" +:+ Middlewares.FormatInt (moduleDBInt cfg module "port" useModuleConfig)
  +:+ " user=" +:+ moduleDBString cfg module "user" useModuleConfig
  +:+ " password=" +:+ moduleDBString cfg module "password" useModuleConfig
  +:+ " dbname=" +:+ moduleDBString cfg module "name" useModuleConfig
  +:+ " sslmode=" +:+ moduleDBString cfg module "ssl_mode" useModuleConfig.

End WithRuntime.

End Bootstrap.

(** * Vocabulary of the properties *)

Section Vocabulary.
Context `{Runtime}.

Variable tokenBucket slidingWindow :
  Ratelimit.Clock -> gmap string Ratelimit.RedisEntry -> string
  -> Ratelimit.Config
  -> Res error Ratelimit.Result * gmap string Ratelimit.RedisEntry.

Import Sql Repository Idempotency Ratelimit.

(** The wallet row the conditional update writes for a debit of
    [amount] at time [now]. *)
Definition debited (now amount : Z) (w : Wallet) : Wallet :=
  {| wallet_id := wallet_id w;
     balance_minor := balance_minor w - amount;
     currency := currency w;
     version := version w + 1;
     wallet_created_at := wallet_created_at w;
     wallet_updated_at := now |}.

(** The ledger row a withdrawal of [amount] from [w] appends. *)
Definition withdrawal_entry (now amount : Z) (chainID : string) (w : Wallet)
  : LedgerEntry :=
  {| ledger_wallet_id := wallet_id w;
     entry_type := "withdrawal";
     amount_minor := - amount;
     balance_after_minor := balance_minor w - amount;
     reference_id := None;
     chain_id := if bool_decide (chainID = EmptyString) then None else Some chainID;
     ledger_created_at := now |}.

(** The errors the repository returns for a call that violates its
    preconditions. *)
Definition InvalidInput (e : error) : Prop :=
  e = Wrapped "repository: invalid user_id" \/ e = ErrInvalidAmount.

(** Nothing but BEGIN goes to the database before the conditional
    update: no statement reads the balance ahead of the debit. *)
Definition update_sent_first (ops : list Sql.Op) : Prop :=
  ops = [] \/ ops = [OpBegin] \/
  exists rest, ops = OpBegin :: OpWithdrawWalletBalanceByUserID :: rest.

(** A request the store accepts: scope, key and hash are not blank. *)
Definition well_formed (request : Request) : Prop :=
  TrimSpace (Scope request) <> EmptyString /\
  TrimSpace (Key request) <> EmptyString /\
  TrimSpace (RequestHash request) <> EmptyString.

(** The row the store looks at for a request. *)
Definition row_of (db : DB) (request : Request) : option IdempotencyRow :=
  withdraw_idempotency db !! (TrimSpace (Scope request), TrimSpace (Key request)).

(** The transaction of Acquire goes through: BEGIN, the locking SELECT
    and COMMIT do not fail. *)
Definition reads_commit (f : Faults) : Prop :=
  begin_fails f = false /\ select_fails f = false /\ commit_fails f = false.

(** The row a reacquisition leaves. *)
Definition reacquired (now lockUntil : Z) (r : IdempotencyRow) : IdempotencyRow :=
  {| request_hash := request_hash r;
     status := "in_progress";
     response_status := response_status r;
     response_body := response_body r;
     response_content_type := response_content_type r;
     locked_until := lockUntil;
     idem_created_at := idem_created_at r;
     idem_updated_at := now;
     completed_at := completed_at r |}.

(** The row a first acquisition inserts. *)
Definition inserted (now lockUntil : Z) (hash : string) : IdempotencyRow :=
  {| request_hash := hash;
     status := "in_progress";
     response_status := None;
     response_body := None;
     response_content_type := None;
     locked_until := lockUntil;
     idem_created_at := now;
     idem_updated_at := now;
     completed_at := None |}.

(** The request the middleware hands to the store for a context whose
    authenticated user is [userID]. *)
Definition idempotency_request (c : Fiber.Ctx) (userID : string) : Request :=
  {| Scope := "withdraw:" +:+ userID;
     Key := TrimSpace (Fiber.Get c Middlewares.IdempotencyKeyHeader);
     RequestHash :=
       Middlewares.withdrawRequestHash (Fiber.Method (Fiber.req c))
         (Fiber.Path (Fiber.req c)) userID (Fiber.BodyRaw (Fiber.req c));
     LockTTL := 0 |}.

(** The context carries an authenticated user and an idempotency key, so
    that the middleware gets as far as the store. *)
Definition reaches_store (c : Fiber.Ctx) (userID : string) : Prop :=
  Fiber.Locals_user_id (Fiber.req c) = Some userID /\
  TrimSpace userID <> EmptyString /\
  TrimSpace (Fiber.Get c Middlewares.IdempotencyKeyHeader) <> EmptyString.

(** The reply the middleware builds from a Replay decision. *)
Definition replayed (decision : Decision) (c : Fiber.Ctx) : Fiber.Ctx :=
  Fiber.Send (Body decision)
    (Fiber.SetStatus
       (if StatusCode decision <=? 0 then Fiber.StatusOK else StatusCode decision)
       (if bool_decide (ContentType decision <> EmptyString)
        then Fiber.Set_ Fiber.HeaderContentType (ContentType decision) c
        else c)).

(** The row Complete leaves. *)
Definition completed (now statusCode : Z) (body contentType : string)
  (r : IdempotencyRow) : IdempotencyRow :=
  {| request_hash := request_hash r;
     status := "completed";
     response_status := Some statusCode;
     response_body := Some body;
     response_content_type := Some contentType;
     locked_until := now;
     idem_created_at := idem_created_at r;
     idem_updated_at := now;
     completed_at := Some now |}.

(** The withdraw route behind the rate limiter, on a healthy
    idempotency store; [rf] says which repository calls fail. *)
Definition withdraw_route (rf : Repository.Faults) : Fiber.Handler :=
  Middlewares.NewHTTPWithdrawIdempotencyMiddleware
    (Some (SQLXStore no_faults)) (Handlers.Handle rf).

(** One call of AllowKey per clock reading, in order, on one key. *)
Fixpoint AllowKey_run
  (prefix : string) (config : Config) (key : string)
  (clks : list Clock) (st : gmap string RedisEntry)
  : list (Res error Result) * gmap string RedisEntry :=
  match clks with
  | [] => ([], st)
  | clk :: clks' =>
      let '(r, st') := AllowKey tokenBucket slidingWindow prefix config clk st key in
      let '(rs, st'') := AllowKey_run prefix config key clks' st' in
      (r :: rs, st'')
  end.

(** A reply of the limiter that lets the request through. *)
Definition allowed (r : Res error Result) : Prop :=
  exists res, r = Ok res /\ Allowed res = true.

(** A counter of value [n] that expires at [ex]. *)
Definition counter (n ex : Z) : RedisEntry :=
  {| value := VInteger n; expire_at := Some ex |}.

(** The money the wallets hold, and the money the ledger has recorded. *)
Definition total_balance (db : DB) : Z :=
  map_fold (fun _ w acc => balance_minor w + acc) 0 (wallets db).

Definition ledger_total (db : DB) : Z :=
  foldr (fun e acc => amount_minor e + acc) 0 (wallet_ledger db).

(** One call of the repository method: what fails, the clock and the
    arguments. *)
Record WithdrawCall : Type := {
  call_faults : Repository.Faults;
  call_now : Z;
  call_userID : string;
  call_amountMinor : Z;
  call_chainID : string
}.

(** The calls made one after the other on one database. *)
Fixpoint withdraw_all (calls : list WithdrawCall) (db : DB)
  : list (Res error WalletBalance) * DB :=
  match calls with
  | [] => ([], db)
  | call :: calls' =>
      let '(r, db', _) :=
        WithdrawWalletBalanceByUserID (call_faults call) (call_now call) db
          (call_userID call) (call_amountMinor call) (call_chainID call) in
      let '(rs, db'') := withdraw_all calls' db' in
      (r :: rs, db'')
  end.

(** A reply of the limiter that turns the request away with nothing
    remaining. *)
Definition denied (r : Res error Result) : Prop :=
  exists res, r = Ok res /\ Allowed res = false /\ Remaining res = 0.

Definition succeeded {A : Type} (r : Res error A) : bool :=
  match r with
  | Ok _ => true
  | Err _ => false
  end.

End Vocabulary.

(** ** An executable runtime

    A small instance of [Runtime] on which the model runs on concrete
    requests: the string functions on ASCII text, identifiers in the
    canonical 36-character form, a textual stand-in for the digest, and
    an encoder and decoder for the JSON objects of the withdraw route. *)

Module Sample.

Definition is_space (a : ascii) : bool :=
  let n := nat_of_ascii a in
  ((9 <=? n) && (n <=? 13))%nat || (n =? 32)%nat.

Fixpoint trim_left (s : string) : string :=
  match s with
  | String a s' => if is_space a then trim_left s' else s
  | EmptyString => EmptyString
  end.

Definition trim_space (s : string) : string :=
  String.rev (trim_left (String.rev (trim_left s))).

Definition lower (a : ascii) : ascii :=
  let n := nat_of_ascii a in
  if ((65 <=? n) && (n <=? 90))%nat then ascii_of_nat (n + 32) else a.

Definition upper (a : ascii) : ascii :=
  let n := nat_of_ascii a in
  if ((97 <=? n) && (n <=? 122))%nat then ascii_of_nat (n - 32) else a.

Fixpoint map_string (g : ascii -> ascii) (s : string) : string :=
  match s with
  | String a s' => String (g a) (map_string g s')
  | EmptyString => EmptyString
  end.

Definition is_hex (a : ascii) : bool :=
  let n := nat_of_ascii (lower a) in
  ((48 <=? n) && (n <=? 57))%nat || ((97 <=? n) && (n <=? 102))%nat.

Fixpoint canonical_from (i : nat) (s : string) : bool :=
  match s with
  | EmptyString => (i =? 36)%nat
  | String a s' =>
      (if ((i =? 8) || (i =? 13) || (i =? 18) || (i =? 23))%nat
       then Ascii.eqb a "-"%char else is_hex a)
      && canonical_from (S i) s'
  end.

Definition parse_uuid (s : string) : option string :=
  if canonical_from 0 s then Some (map_string lower s) else None.

Definition digest (s : string) : string :=
  "sha256:" +:+ pretty (Z.of_nat (String.length s)) +:+ ":" +:+ s.

Definition dquote : string := String "034"%char EmptyString.

Definition encode_value (v : json_value) : string :=
  match v with
  | JString s => dquote +:+ s +:+ dquote
  | JNumber z => pretty z
  | JTime t => dquote +:+ pretty t +:+ dquote
  end.

Fixpoint encode_members (o : json_object) : string :=
  match o with
  | [] => EmptyString
  | [(k, v)] => dquote +:+ k +:+ dquote +:+ ":" +:+ encode_value v
  | (k, v) :: o' =>
      dquote +:+ k +:+ dquote +:+ ":" +:+ encode_value v +:+ "," +:+ encode_members o'
  end.

Definition encode (o : json_object) : string := "{" +:+ encode_members o +:+ "}".

Fixpoint digits_value (acc : Z) (s : string) : option Z :=
  match s with
  | EmptyString => Some acc
  | String a s' =>
      let n := nat_of_ascii a in
      if ((48 <=? n) && (n <=? 57))%nat
      then digits_value (10 * acc + Z.of_nat (n - 48)) s'
      else None
  end.

(** Decodes bodies of the one shape [{amount_minor:N}] with the member
    name quoted, N a decimal numeral with an optional minus sign. *)
Definition decode_amount (body : string) : option Z :=
  let pre := "{" +:+ dquote +:+ "amount_minor" +:+ dquote +:+ ":" in
  let n := String.length pre in
  let m := String.length body in
  if bool_decide (String.substring 0 n body = pre)
     && bool_decide (String.substring (m - 1) 1 body = "}") then
    match String.substring n (m - 1 - n) body with
    | EmptyString => None
    | String "-"%char ds =>
        match ds with
        | EmptyString => None
        | _ => z ← digits_value 0 ds; Some (- z)
        end
    | ds => digits_value 0 ds
    end
  else None.

#[export] Instance runtime : Runtime := {
  uuid_Parse := parse_uuid;
  TrimSpace := trim_space;
  ToLower := map_string lower;
  ToUpper := map_string upper;
  sha256_hex := digest;
  JSONEncoder := encode;
  JSONContentType := "application/json; charset=utf-8";
  BindJSON_withdrawalRequest := decode_amount
}.

(** The seeded wallet of db/seeds/wallet: user 1111..., 1,000,000 IDR. *)
Definition seed_user : string := "11111111-1111-1111-1111-111111111111".

Definition seed_wallet : Wallet :=
  {| wallet_id := "22222222-2222-2222-2222-222222222222";
     balance_minor := 1000000;
     currency := "IDR";
     version := 0;
     wallet_created_at := 0;
     wallet_updated_at := 0 |}.

Definition seed_db : DB :=
  {| wallets := {[ seed_user := seed_wallet ]};
     wallet_ledger := [];
     withdraw_idempotency := ∅ |}.

Definition seed_world : Fiber.World := {| Fiber.pg := seed_db; Fiber.rd := ∅ |}.

(** POST /withdrawals by the seeded user with the given key and body. *)
Definition withdraw_request (key body : string) : Fiber.Ctx :=
  {| Fiber.req :=
       {| Fiber.Method := "POST";
          Fiber.Path := "/api/v1/withdrawals";
          Fiber.ReqHeaders := {[ Middlewares.IdempotencyKeyHeader := key ]};
          Fiber.BodyRaw := body;
          Fiber.IP := "127.0.0.1";
          Fiber.Locals_user_id := Some seed_user;
          Fiber.RequestID := "chain-1" |};
     Fiber.resp := Fiber.Response_fresh |}.

Definition amount_body (n : Z) : string :=
  encode [("amount_minor", JNumber n)].

(** The process and server clocks [t] seconds after the epoch. *)
Definition clock (t : Z) : Ratelimit.Clock :=
  {| Ratelimit.now_ns := t * Idempotency.Second;
     Ratelimit.redis_now_ms := t * 1000;
     Ratelimit.eval_fails := false |}.

(** A withdrawal of 100 under key idem-1, and the same key reused for a
    withdrawal of 200. *)
Definition first_ctx : Fiber.Ctx := withdraw_request "idem-1" (amount_body 100).
Definition other_ctx : Fiber.Ctx := withdraw_request "idem-1" (amount_body 200).

Definition first_request : Idempotency.Request :=
  idempotency_request first_ctx seed_user.

(** The first withdrawal sent again by the client: same method, path,
    user, key and body, under a new request id, from another address and
    with one more header. *)
Definition retry_ctx : Fiber.Ctx :=
  {| Fiber.req :=
       {| Fiber.Method := "POST";
          Fiber.Path := "/api/v1/withdrawals";
          Fiber.ReqHeaders :=
            {[ Middlewares.IdempotencyKeyHeader := "idem-1";
               "X-Attempt" := "2" ]};
          Fiber.BodyRaw := amount_body 100;
          Fiber.IP := "10.0.0.7";
          Fiber.Locals_user_id := Some seed_user;
          Fiber.RequestID := "chain-2" |};
     Fiber.resp := Fiber.Response_fresh |}.

(** The reply to the first withdrawal and the stores after it. *)
Definition first_reply : Fiber.Ctx :=
  (withdraw_route Repository.no_faults (clock 10) first_ctx seed_world).1.2.
Definition world_after_first : Fiber.World :=
  (withdraw_route Repository.no_faults (clock 10) first_ctx seed_world).2.

(** The row the first withdrawal leaves completed. *)
Definition first_row : IdempotencyRow :=
  completed (10 * Idempotency.Second) 200
    (Fiber.RespBody (Fiber.resp first_reply)) JSONContentType
    (inserted (10 * Idempotency.Second)
       (10 * Idempotency.Second + Idempotency.defaultLockTTL)
       (TrimSpace (Idempotency.RequestHash first_request))).

(** The database after a bare Acquire at time 100: the key is locked. *)
Definition db_in_progress : DB :=
  (Idempotency.SQLXStore_Acquire Idempotency.no_faults 100 seed_db first_request).2.

Definition row_in_progress : IdempotencyRow :=
  inserted 100 (100 + Idempotency.defaultLockTTL)
    (TrimSpace (Idempotency.RequestHash first_request)).

(** The first request as a caller of the store would send it with a
    lock TTL of its own, 5 seconds. *)
Definition request_with_ttl : Idempotency.Request :=
  {| Idempotency.Scope := Idempotency.Scope first_request;
     Idempotency.Key := Idempotency.Key first_request;
     Idempotency.RequestHash := Idempotency.RequestHash first_request;
     Idempotency.LockTTL := 5 * Idempotency.Second |}.

(** A completed row whose response_status is NULL. *)
Definition row_without_status : IdempotencyRow :=
  {| request_hash := TrimSpace (Idempotency.RequestHash first_request);
     status := "completed";
     response_status := None;
     response_body := Some "stored";
     response_content_type := Some "text/plain";
     locked_until := 0;
     idem_created_at := 0;
     idem_updated_at := 0;
     completed_at := Some 0 |}.

Definition world_without_status : Fiber.World :=
  {| Fiber.pg :=
       set_withdraw_idempotency
         {[ (TrimSpace (Idempotency.Scope first_request),
             TrimSpace (Idempotency.Key first_request)) := row_without_status ]}
         seed_db;
     Fiber.rd := ∅ |}.

(** Two requests a minute under the fixed-window algorithm. *)
Definition fixed_window_config : Ratelimit.Config :=
  {| Ratelimit.Algorithm := Ratelimit.AlgorithmFixedWindow;
     Ratelimit.cfg_Limit := 2;
     Ratelimit.Window := 60 * Idempotency.Second;
     Ratelimit.Burst := 2 |}.

(** A stand-in for the two scripts the fixed-window runs never call. *)
Definition no_script
  (_ : Ratelimit.Clock) (st : gmap string Ratelimit.RedisEntry)
  (_ : string) (_ : Ratelimit.Config)
  : Res error Ratelimit.Result * gmap string Ratelimit.RedisEntry :=
  (Err (Wrapped "ratelimit: redis eval failed"), st).

(** A limiter that denies, asking to retry after 5 seconds. *)
Definition denying_limiter : Ratelimit.Limiter :=
  {| Ratelimit.Limiter_AllowKey := fun _ st _ =>
       (Ok {| Ratelimit.Allowed := false; Ratelimit.Limit := 20;
              Ratelimit.Remaining := 0;
              Ratelimit.ResetAt := 250 * Idempotency.Second;
              Ratelimit.RetryAfter := 5 * Idempotency.Second |}, st) |}.

(** A store double that answers Acquire with a fixed decision, like the
    mock of the middleware tests. *)
Definition store_answering (d : Idempotency.Decision) : Idempotency.Store :=
  {| Idempotency.Acquire := fun _ db _ => (Ok d, db);
     Idempotency.Complete := fun _ db _ _ => (None, db) |}.

(** A handler that answers 201 with a fixed body, as in the tests. *)
Definition created_handler : Fiber.Handler :=
  fun _ c w => (None, Fiber.Send "ok" (Fiber.SetStatus 201 c), w).

(** A user id that parses and has no wallet. *)
Definition other_user : string := "33333333-3333-3333-3333-333333333333".

(** A request of the seeded user with no idempotency key, and the first
    request sent without an authenticated user. *)
Definition anonymous_ctx : Fiber.Ctx :=
  {| Fiber.req :=
       {| Fiber.Method := "POST";
          Fiber.Path := "/api/v1/withdrawals";
          Fiber.ReqHeaders := {[ Middlewares.IdempotencyKeyHeader := "idem-1" ]};
          Fiber.BodyRaw := amount_body 100;
          Fiber.IP := "127.0.0.1";
          Fiber.Locals_user_id := None;
          Fiber.RequestID := "chain-1" |};
     Fiber.resp := Fiber.Response_fresh |}.

(** The withdrawal of 100 from the seeded wallet at time 7. *)
Definition withdrawal_of_100
  : Res error WalletWithdrawal * DB * list Sql.Op :=
  Services.WithdrawBalance Repository.no_faults 7 seed_db seed_user 100 "chain-1".

(** The stores while the first request holds its key. *)
Definition world_in_progress : Fiber.World :=
  {| Fiber.pg := db_in_progress; Fiber.rd := ∅ |}.

(** A response to store. *)
Definition stored_response : Idempotency.StoredResponse :=
  {| Idempotency.sr_StatusCode := 200;
     Idempotency.sr_Body := "ok";
     Idempotency.sr_ContentType := " text/plain " |}.

(** A store whose completing UPDATE fails. *)
Definition completion_fails : Idempotency.Faults :=
  {| Idempotency.begin_fails := false; Idempotency.select_fails := false;
     Idempotency.insert_fails := false; Idempotency.reacquire_fails := false;
     Idempotency.commit_fails := false; Idempotency.complete_exec_fails := true;
     Idempotency.rows_affected_fails := false |}.

(** The limiter of the withdraw route under the fixed-window
    configuration. *)
Definition fixed_window_limiter : Ratelimit.limiter :=
  {| Ratelimit.l_store := {| Ratelimit.rs_prefix := "withdraw-api:withdraw" |};
     Ratelimit.l_config := fixed_window_config;
     Ratelimit.l_KeyExtractor := Ratelimit.DefaultKeyExtractor |}.

(** A keyspace where the seeded user's counter stands at the limit and
    expires at second 70, and one where the key holds a hash. *)
Definition keyspace_at_limit : gmap string Ratelimit.RedisEntry :=
  {[ "withdraw-api:withdraw:withdraw:user:u1" := counter 2 70000 ]}.

Definition keyspace_wrong_type : gmap string Ratelimit.RedisEntry :=
  {[ "withdraw-api:withdraw:withdraw:user:u1" :=
       {| Ratelimit.value := Ratelimit.VOther; Ratelimit.expire_at := None |} ]}.

(** The rate-limit configuration of the withdraw route over that
    limiter, the stores in which the seeded user's counter stands at the
    limit until second 70, and the stores and the limiter's reply after
    one more request of that user at second 12. *)
Definition withdraw_rate_limit : Middlewares.RateLimitConfig :=
  {| Middlewares.Limiter :=
       Some (Ratelimit.limiter_Limiter no_script no_script fixed_window_limiter);
     Middlewares.Skipper := None;
     Middlewares.KeyExtractor := Some (Middlewares.PerUserKeyExtractor "withdraw") |}.

Definition world_at_limit : Fiber.World :=
  {| Fiber.pg := seed_db;
     Fiber.rd :=
       {[ "withdraw-api:withdraw:withdraw:user:" +:+ seed_user := counter 2 70000 ]} |}.

Definition world_after_denial : Fiber.World :=
  {| Fiber.pg := seed_db;
     Fiber.rd :=
       {[ "withdraw-api:withdraw:withdraw:user:" +:+ seed_user := counter 3 70000 ]} |}.

Definition denied_for (seconds : Z) : Ratelimit.Result :=
  {| Ratelimit.Allowed := false;
     Ratelimit.Limit := 2;
     Ratelimit.Remaining := 0;
     Ratelimit.ResetAt := 70 * Idempotency.Second;
     Ratelimit.RetryAfter := seconds * Idempotency.Second |}.

(** A clock at second [t] on which the script call fails. *)
Definition failing_clock (t : Z) : Ratelimit.Clock :=
  {| Ratelimit.now_ns := t * Idempotency.Second;
     Ratelimit.redis_now_ms := t * 1000;
     Ratelimit.eval_fails := true |}.

(** A provider of an empty configuration. *)
Definition empty_config : Config.ConfigProvider :=
  {| Config.GetString := fun _ => EmptyString;
     Config.GetInt := fun _ => 0;
     Config.GetDuration := fun _ => 0;
     Config.IsSet := fun _ => false |}.

(** The token manager the application builds from the empty
    configuration. *)
Definition default_manager : Jwt.hmacManager :=
  {| Jwt.secret := "change-me-please-use-strong-secret-in-production";
     Jwt.method := Jwt.SigningMethodHS256;
     Jwt.issuer := EmptyString;
     Jwt.audience := None;
     Jwt.ttl := 15 * Bootstrap.Minute |}.

(** A numeric date keeps whole seconds. *)
Definition numeric_date (t : Z) : Z :=
  t `div` Idempotency.Second * Idempotency.Second.

(** strings.EqualFold on ASCII text. *)
Definition equal_fold (s t : string) : bool :=
  bool_decide (map_string lower s = map_string lower t).

(** A token manager double: it verifies the one token good-token, for
    the seeded user, and signs by prefixing the subject. *)
Definition token_manager : Jwt.TokenManager :=
  {| Jwt.Sign := fun _ claims => Ok ("signed:" +:+ Jwt.Subject claims);
     Jwt.Verify := fun _ token =>
       if bool_decide (token = "good-token")
       then Ok (Jwt.Claims_of_subject seed_user)
       else Err (Wrapped "jwt: token validation failed") |}.

(** A hasher double: the hash of a text is the text after hash:. *)
Definition hasher : Hash.Hasher :=
  {| Hash.Hash := fun plaintext => Ok ("hash:" +:+ plaintext);
     Hash.Compare := fun hashed plaintext =>
       if bool_decide (hashed = "hash:" +:+ plaintext) then None
       else Some (Wrapped "hash: bcrypt comparison failed") |}.

(** The seeded user of db/seeds, with a password the double accepts, and
    a suspended user. *)
Definition users : list Auth.User :=
  [{| Auth.u_id := "44444444-4444-4444-4444-444444444444";
      Auth.u_email := "gone@example.com";
      Auth.u_password_hash := "hash:old";
      Auth.u_status := "suspended" |};
   {| Auth.u_id := seed_user;
      Auth.u_email := "sample.user@example.com";
      Auth.u_password_hash := "hash:secret";
      Auth.u_status := "active" |}].

(** The first request before authentication, carrying a bearer token. *)
Definition bearer_ctx (authorization : string) : Fiber.Ctx :=
  {| Fiber.req :=
       {| Fiber.Method := "POST";
          Fiber.Path := "/api/v1/withdrawals";
          Fiber.ReqHeaders :=
            {[ Middlewares.IdempotencyKeyHeader := "idem-1";
               Fiber.HeaderAuthorization := authorization ]};
          Fiber.BodyRaw := amount_body 100;
          Fiber.IP := "127.0.0.1";
          Fiber.Locals_user_id := None;
          Fiber.RequestID := "chain-1" |};
     Fiber.resp := Fiber.Response_fresh |}.

End Sample.

(** * Properties *)

(** ** The conditional update and the withdraw transaction *)

Section RepositoryProperties.
Context `{Runtime}.

Import Sql Repository.

Lemma update_overdraft now db amount uid w :
  wallets db !! uid = Some w ->
  balance_minor w < amount ->
  Sqlc.WithdrawWalletBalanceByUserID now db amount uid = (Sqlc.ErrNoRows, db).
Proof.
  intros Hw Hlt. unfold Sqlc.WithdrawWalletBalanceByUserID. rewrite Hw.
  destruct (amount <=? balance_minor w) eqn:E; [apply Z.leb_le in E; lia | done].
Qed.

Lemma update_row now db amount uid r db' :
  Sqlc.WithdrawWalletBalanceByUserID now db amount uid = (Sqlc.Row r, db') ->
  exists w,
    wallets db !! uid = Some w /\ amount <= balance_minor w /\
    db' = set_wallets (<[uid := debited now amount w]> (wallets db)) db /\
    r = {| Sqlc.WalletID := wallet_id w; Sqlc.UserID := uid;
           Sqlc.BalanceMinor := balance_minor w - amount;
           Sqlc.Currency := currency w; Sqlc.UpdatedAt := now |}.
Proof.
  unfold Sqlc.WithdrawWalletBalanceByUserID.
  destruct (wallets db !! uid) as [w|] eqn:Hw; [|done].
  destruct (amount <=? balance_minor w) eqn:E; [|done].
  destruct (in_int64 _ && in_int64 _); [|done].
  intros [= <- <-]. exists w. apply Z.leb_le in E. done.
Qed.

(** What a call of the repository method amounts to, case by case. *)
Lemma withdraw_cases f now db userID amountMinor chainID :
  let '(r, db', ops) :=
    WithdrawWalletBalanceByUserID f now db userID amountMinor chainID in
  (exists e, r = Err e /\ db' = db /\
     (ops = [] \/ ops = [OpBegin] \/
      (exists mid, ops = OpBegin :: OpWithdrawWalletBalanceByUserID :: mid ++ [OpRollback]) \/
      ops = [OpBegin; OpWithdrawWalletBalanceByUserID; OpInsertWalletLedger; OpCommit]))
  \/
  (exists uid w,
     uuid_Parse userID = Some uid /\ wallets db !! uid = Some w /\
     0 < amountMinor <= balance_minor w /\
     r = Ok {| wb_UserID := uid; wb_BalanceMinor := balance_minor w - amountMinor;
               wb_Currency := currency w; wb_UpdatedAt := now |} /\
     db' = {| wallets := <[uid := debited now amountMinor w]> (wallets db);
              wallet_ledger :=
                wallet_ledger db ++ [withdrawal_entry now amountMinor chainID w];
              withdraw_idempotency := withdraw_idempotency db |} /\
     ops = [OpBegin; OpWithdrawWalletBalanceByUserID; OpInsertWalletLedger; OpCommit]).
Proof.
  unfold WithdrawWalletBalanceByUserID.
  destruct (uuid_Parse userID) as [uid|] eqn:Hp; [|left; eauto 10].
  destruct (amountMinor <=? 0) eqn:Ha; [left; eauto 10|].
  apply Z.leb_gt in Ha.
  destruct (begin_fails f); [left; eauto 10|].
  unfold Sql.Query, Sql.Failed, Sql.Exec, Sql.Commit, Sql.Rollback, Sql.BeginTxx.
  cbn.
  destruct (withdraw_fails f).
  { cbn. left. eexists. split; [done|]. split; [done|].
    right; right; left. by exists []. }
  destruct (Sqlc.WithdrawWalletBalanceByUserID now db amountMinor uid)
    as [q v] eqn:Hq.
  destruct q as [row| |].
  - apply update_row in Hq as (w & Hw & Hle & -> & ->). cbn.
    destruct (insert_ledger_fails f).
    { cbn. left. eexists. do 2 (split; [done|]).
      right; right; left. by exists [OpInsertWalletLedger]. }
    cbn. destruct (commit_fails f); cbn; [left; eauto 10|].
    right. exists uid, w. by repeat split.
  - cbn. destruct (has_wallet_fails f);
      [|cbn; destruct (negb (Sqlc.HasWalletByUserID v uid))];
      (cbn; left; eexists; do 2 (split; [done|]); right; right; left;
       by exists [OpHasWalletByUserID]).
  - cbn. left. eexists. do 2 (split; [done|]). right; right; left. by exists [].
Qed.

(** The non-negativity of balances is kept by every call. *)
Lemma withdraw_preserves_non_negative f now db userID amountMinor chainID :
  balances_non_negative db ->
  balances_non_negative
    (WithdrawWalletBalanceByUserID f now db userID amountMinor chainID).1.2.
Proof.
  intros Hinv.
  pose proof (withdraw_cases f now db userID amountMinor chainID) as Hc.
  destruct (WithdrawWalletBalanceByUserID f now db userID amountMinor chainID)
    as [[r db'] ops]. cbn.
  destruct Hc as [(e & _ & -> & _)|(uid & w & _ & Hw & Hamt & _ & -> & _)]; [done|].
  intros uid' w'. cbn. rewrite lookup_insert.
  case_decide; [intros [= <-]; cbn; lia | apply Hinv].
Qed.

Lemma withdraw_update_sent_first f now db userID amountMinor chainID :
  update_sent_first
    (WithdrawWalletBalanceByUserID f now db userID amountMinor chainID).2.
Proof.
  pose proof (withdraw_cases f now db userID amountMinor chainID) as Hc.
  destruct (WithdrawWalletBalanceByUserID f now db userID amountMinor chainID)
    as [[r db'] ops]. cbn. unfold update_sent_first.
  destruct Hc as [(e & _ & _ & [->|[->|[(mid & ->)| ->]]])|(?&?&?&?&?&?&?& ->)];
    eauto.
Qed.

Lemma withdraw_succeeds now db userID uid w amountMinor chainID :
  uuid_Parse userID = Some uid ->
  wallets db !! uid = Some w ->
  0 < amountMinor <= balance_minor w ->
  balance_minor w <= max_int64 ->
  0 <= version w < max_int64 ->
  WithdrawWalletBalanceByUserID no_faults now db userID amountMinor chainID =
    (Ok {| wb_UserID := uid; wb_BalanceMinor := balance_minor w - amountMinor;
           wb_Currency := currency w; wb_UpdatedAt := now |},
     {| wallets := <[uid := debited now amountMinor w]> (wallets db);
        wallet_ledger :=
          wallet_ledger db ++ [withdrawal_entry now amountMinor chainID w];
        withdraw_idempotency := withdraw_idempotency db |},
     [OpBegin; OpWithdrawWalletBalanceByUserID; OpInsertWalletLedger; OpCommit]).
Proof.
  intros Hp Hw Ha Hb Hv. unfold WithdrawWalletBalanceByUserID. rewrite Hp.
  destruct (amountMinor <=? 0) eqn:E; [apply Z.leb_le in E; lia|]. cbn.
  unfold Sql.Query, Sql.BeginTxx. cbn.
  unfold Sqlc.WithdrawWalletBalanceByUserID. rewrite Hw.
  destruct (amountMinor <=? balance_minor w) eqn:E2; [|apply Z.leb_gt in E2; lia].
  assert (in_int64 (balance_minor w - amountMinor) && in_int64 (version w + 1) = true)
    as ->.
  { unfold in_int64, min_int64, max_int64 in *.
    repeat (apply andb_true_intro; split); apply Z.leb_le; lia. }
  done.
Qed.

(** C1. A withdraw of more than the wallet holds is refused by the
    conditional update itself: the statement matches no row and leaves
    the table as it is; the call returns the insufficient-balance error
    with the database (balance and version included) unchanged, having
    sent BEGIN, the update, the existence check and ROLLBACK. Whatever
    database calls fail, the call leaves the database unchanged and
    returns an error, and no statement precedes the update but BEGIN.
    Every call, of any amount, keeps all balances non-negative. *)
Theorem overdraft_rejected_by_conditional_update
  now db userID uid w amountMinor chainID :
  uuid_Parse userID = Some uid ->
  wallets db !! uid = Some w ->
  0 <= balance_minor w ->
  balance_minor w < amountMinor ->
  Sqlc.WithdrawWalletBalanceByUserID now db amountMinor uid = (Sqlc.ErrNoRows, db) /\
  WithdrawWalletBalanceByUserID no_faults now db userID amountMinor chainID =
    (Err ErrInsufficientBalance, db,
     [OpBegin; OpWithdrawWalletBalanceByUserID; OpHasWalletByUserID; OpRollback]) /\
  (forall f,
     let '(r, db', ops) :=
       WithdrawWalletBalanceByUserID f now db userID amountMinor chainID in
     (exists e, r = Err e) /\ db' = db /\ wallets db' !! uid = Some w /\
     update_sent_first ops) /\
  (forall f now' userID' amountMinor' chainID',
     balances_non_negative db ->
     balances_non_negative
       (WithdrawWalletBalanceByUserID f now' db userID' amountMinor' chainID').1.2).
Proof.
  intros Hp Hw Hnn Hlt.
  split; [by eapply update_overdraft|].
  split.
  { unfold WithdrawWalletBalanceByUserID. rewrite Hp.
    destruct (amountMinor <=? 0) eqn:E; [apply Z.leb_le in E; lia|]. cbn.
    unfold Sql.Query, Sql.BeginTxx. cbn.
    rewrite (update_overdraft now db amountMinor uid w Hw Hlt). cbn.
    unfold Sqlc.HasWalletByUserID. rewrite Hw.
    rewrite bool_decide_eq_true_2; [done | by eexists]. }
  split.
  { intros f.
    pose proof (withdraw_cases f now db userID amountMinor chainID) as Hc.
    pose proof (withdraw_update_sent_first f now db userID amountMinor chainID) as Hs.
    destruct (WithdrawWalletBalanceByUserID f now db userID amountMinor chainID)
      as [[r db'] ops]. cbn in Hs.
    destruct Hc as [(e & -> & -> & _)|(uid' & w' & Hp' & Hw' & Ha & _)].
    - eauto.
    - rewrite Hp in Hp'. injection Hp' as <-. rewrite Hw in Hw'.
      injection Hw' as <-. lia. }
  intros f now' userID' amountMinor' chainID'.
  apply withdraw_preserves_non_negative.
Qed.

(** C2. A call that succeeds has debited one wallet and appended exactly
    one ledger row, of type withdrawal, whose amount is the negated
    request and whose balance-after is the balance the wallet now holds
    (and the snapshot reports), both between one BEGIN and its COMMIT. A
    call that fails, at whatever step, leaves the database as it was:
    when the transaction was begun it ends in ROLLBACK or in the failed
    COMMIT. And the call does succeed on a funded wallet when no database
    call fails. *)
Theorem withdrawal_ledger_entry_is_atomic
  f now db userID amountMinor chainID :
  (let '(r, db', ops) :=
     WithdrawWalletBalanceByUserID f now db userID amountMinor chainID in
   match r with
   | Ok snapshot =>
       exists (uid : string) (w : Wallet) (entry : LedgerEntry),
         uuid_Parse userID = Some uid /\ wallets db !! uid = Some w /\
         wallets db' = <[uid := debited now amountMinor w]> (wallets db) /\
         wallet_ledger db' = (wallet_ledger db ++ [entry])%list /\
         withdraw_idempotency db' = withdraw_idempotency db /\
         ledger_wallet_id entry = wallet_id w /\
         entry_type entry = "withdrawal" /\
         amount_minor entry = - amountMinor /\
         (exists w', wallets db' !! uid = Some w' /\
                     balance_after_minor entry = balance_minor w') /\
         wb_BalanceMinor snapshot = balance_after_minor entry /\
         ops = [OpBegin; OpWithdrawWalletBalanceByUserID;
                OpInsertWalletLedger; OpCommit]
   | Err _ =>
       db' = db /\
       (OpBegin ∈ ops -> ops = [OpBegin] \/ last ops = Some OpRollback \/
                         last ops = Some OpCommit)
   end) /\
  (forall uid w,
     uuid_Parse userID = Some uid -> wallets db !! uid = Some w ->
     0 < amountMinor <= balance_minor w -> balance_minor w <= max_int64 ->
     0 <= version w < max_int64 ->
     exists snapshot db',
       WithdrawWalletBalanceByUserID no_faults now db userID amountMinor chainID =
         (Ok snapshot, db',
          [OpBegin; OpWithdrawWalletBalanceByUserID;
           OpInsertWalletLedger; OpCommit])).
Proof.
  split.
  - pose proof (withdraw_cases f now db userID amountMinor chainID) as Hc.
    destruct (WithdrawWalletBalanceByUserID f now db userID amountMinor chainID)
      as [[r db'] ops].
    destruct Hc as [(e & -> & -> & Hops)|(uid & w & Hp & Hw & Ha & -> & -> & ->)].
    + split; [done|]. intros Hin.
      destruct Hops as [->|[->|[(mid & ->)| ->]]].
      * by apply elem_of_nil in Hin.
      * by left.
      * right; left.
        change (last ((OpBegin :: OpWithdrawWalletBalanceByUserID :: mid) ++ [OpRollback])
                = Some OpRollback).
        apply last_snoc.
      * by right; right.
    + exists uid, w, (withdrawal_entry now amountMinor chainID w). cbn.
      repeat split; try done.
      exists (debited now amountMinor w). by rewrite lookup_insert_eq.
  - intros uid w Hp Hw Ha Hb Hv. do 2 eexists.
    by apply withdraw_succeeds with (uid := uid) (w := w).
Qed.

End RepositoryProperties.

(** ** The idempotency store *)

Section IdempotencyProperties.
Context `{Runtime}.

Import Idempotency.

Lemma acquire_unfold_well_formed f now db request :
  well_formed request ->
  SQLXStore_Acquire f now db request =
  let lockUntil := now + effectiveLockTTL request in
  let scope := TrimSpace (Scope request) in
  let key := TrimSpace (Key request) in
  let hash := TrimSpace (RequestHash request) in
  if begin_fails f then
    (Err (Wrapped "idempotency: failed to start transaction"), db)
  else if select_fails f then
    (Err (Wrapped "idempotency: failed to query key"), db)
  else
    match row_of db request with
    | None =>
        if insert_fails f then
          (Err (Wrapped "idempotency: failed to insert key"), db)
        else if commit_fails f then
          (Err (Wrapped "idempotency: failed to commit acquire insert"), db)
        else (Ok (Decision_of_type DecisionAcquired),
              insertQuery now db scope key hash lockUntil)
    | Some existing =>
        if bool_decide (request_hash existing <> hash) then
          if commit_fails f then
            (Err (Wrapped "idempotency: failed to commit conflict read"), db)
          else (Ok (Decision_of_type DecisionConflict), db)
        else if bool_decide (status existing = "completed") then
          if commit_fails f then
            (Err (Wrapped "idempotency: failed to commit replay read"), db)
          else
            (Ok {| Type_ := DecisionReplay;
                   StatusCode := default 0 (response_status existing);
                   Body := default EmptyString (response_body existing);
                   ContentType :=
                     default EmptyString (response_content_type existing) |},
             db)
        else if bool_decide (status existing = "in_progress")
                && (now <? locked_until existing) then
          if commit_fails f then
            (Err (Wrapped "idempotency: failed to commit in-progress read"), db)
          else (Ok (Decision_of_type DecisionInProgress), db)
        else if reacquire_fails f then
          (Err (Wrapped "idempotency: failed to reacquire key"), db)
        else if commit_fails f then
          (Err (Wrapped "idempotency: failed to commit reacquire"), db)
        else (Ok (Decision_of_type DecisionAcquired),
              reacquireQuery now db scope key lockUntil)
    end.
Proof.
  intros (Hs & Hk & Hh). unfold SQLXStore_Acquire, row_of.
  rewrite !bool_decide_eq_false_2 by done. cbn zeta.
  unfold Sql.Query, Sql.Failed, Sql.Exec, Sql.Commit, Sql.Rollback, Sql.BeginTxx.
  destruct (begin_fails f), (select_fails f), (insert_fails f),
    (reacquire_fails f), (commit_fails f); cbn;
    repeat case_match; simplify_eq/=; reflexivity.
Qed.

Lemma acquire_conflict f now db request existing :
  well_formed request -> reads_commit f ->
  row_of db request = Some existing ->
  request_hash existing <> TrimSpace (RequestHash request) ->
  SQLXStore_Acquire f now db request = (Ok (Decision_of_type DecisionConflict), db).
Proof.
  intros Hwf (Hb & Hs & Hc) Hrow Hne.
  rewrite acquire_unfold_well_formed by done. cbn zeta.
  rewrite Hb, Hs, Hrow, Hc. by rewrite bool_decide_eq_true_2.
Qed.

Lemma acquire_replay f now db request existing :
  well_formed request -> reads_commit f ->
  row_of db request = Some existing ->
  request_hash existing = TrimSpace (RequestHash request) ->
  status existing = "completed" ->
  SQLXStore_Acquire f now db request =
    (Ok {| Type_ := DecisionReplay;
           StatusCode := default 0 (response_status existing);
           Body := default EmptyString (response_body existing);
           ContentType := default EmptyString (response_content_type existing) |},
     db).
Proof.
  intros Hwf (Hb & Hs & Hc) Hrow Heq Hst.
  rewrite acquire_unfold_well_formed by done. cbn zeta.
  rewrite Hb, Hs, Hrow, Hc.
  rewrite bool_decide_eq_false_2 by (intros Hne; by apply Hne).
  by rewrite bool_decide_eq_true_2.
Qed.

Lemma acquire_in_progress f now db request existing :
  well_formed request -> reads_commit f ->
  row_of db request = Some existing ->
  request_hash existing = TrimSpace (RequestHash request) ->
  status existing = "in_progress" ->
  now < locked_until existing ->
  SQLXStore_Acquire f now db request =
    (Ok (Decision_of_type DecisionInProgress), db).
Proof.
  intros Hwf (Hb & Hs & Hc) Hrow Heq Hst Hlock.
  rewrite acquire_unfold_well_formed by done. cbn zeta.
  rewrite Hb, Hs, Hrow, Hc.
  rewrite bool_decide_eq_false_2 by (intros Hne; by apply Hne).
  rewrite Hst. cbn.
  by destruct (now <? locked_until existing) eqn:E; [|apply Z.ltb_ge in E; lia].
Qed.

Lemma acquire_expired f now db request existing :
  well_formed request -> reads_commit f -> reacquire_fails f = false ->
  row_of db request = Some existing ->
  request_hash existing = TrimSpace (RequestHash request) ->
  status existing = "in_progress" ->
  locked_until existing <= now ->
  SQLXStore_Acquire f now db request =
    (Ok (Decision_of_type DecisionAcquired),
     set_withdraw_idempotency
       (<[(TrimSpace (Scope request), TrimSpace (Key request)) :=
            reacquired now (now + effectiveLockTTL request) existing]>
          (withdraw_idempotency db)) db).
Proof.
  intros Hwf (Hb & Hs & Hc) Hr Hrow Heq Hst Hlock.
  rewrite acquire_unfold_well_formed by done. cbn zeta.
  rewrite Hb, Hs, Hrow, Hc, Hr.
  rewrite bool_decide_eq_false_2 by (intros Hne; by apply Hne).
  rewrite Hst. cbn.
  destruct (now <? locked_until existing) eqn:E; [apply Z.ltb_lt in E; lia|].
  unfold reacquireQuery. unfold row_of in Hrow. by rewrite Hrow.
Qed.

Lemma acquire_fresh f now db request :
  well_formed request -> reads_commit f -> insert_fails f = false ->
  row_of db request = None ->
  SQLXStore_Acquire f now db request =
    (Ok (Decision_of_type DecisionAcquired),
     set_withdraw_idempotency
       (<[(TrimSpace (Scope request), TrimSpace (Key request)) :=
            inserted now (now + effectiveLockTTL request)
              (TrimSpace (RequestHash request))]>
          (withdraw_idempotency db)) db).
Proof.
  intros Hwf (Hb & Hs & Hc) Hi Hrow.
  rewrite acquire_unfold_well_formed by done. cbn zeta.
  by rewrite Hb, Hs, Hrow, Hc, Hi.
Qed.

(** A decision other than Acquired comes with the database untouched. *)
Lemma acquire_keeps_db_unless_acquired f now db request :
  let '(r, db') := SQLXStore_Acquire f now db request in
  db' = db \/ r = Ok (Decision_of_type DecisionAcquired).
Proof.
  destruct (SQLXStore_Acquire f now db request) as [r db'] eqn:E.
  unfold SQLXStore_Acquire in E.
  unfold Sql.Query, Sql.Failed, Sql.Exec, Sql.Commit, Sql.Rollback, Sql.BeginTxx
    in E.
  cbn in E. repeat case_match; simplify_eq; auto.
Qed.

End IdempotencyProperties.

(** ** The idempotency middleware *)

Section MiddlewareProperties.
Context `{Runtime}.

Import Idempotency.

Lemma middleware_replay store next clk c w userID decision db' :
  reaches_store c userID ->
  Acquire store (Ratelimit.now_ns clk) (Fiber.pg w) (idempotency_request c userID)
    = (Ok decision, db') ->
  Type_ decision = DecisionReplay ->
  Middlewares.NewHTTPWithdrawIdempotencyMiddleware (Some store) next clk c w =
    (None, replayed decision c, Fiber.set_pg db' w).
Proof.
  intros (Hu & Ht & Hk) Ha Hty.
  unfold Middlewares.NewHTTPWithdrawIdempotencyMiddleware.
  rewrite Hu. rewrite !bool_decide_eq_false_2 by done.
  fold (idempotency_request c userID). cbn zeta. rewrite Ha.
  by rewrite (bool_decide_eq_true_2 _ Hty).
Qed.

Lemma middleware_conflict store next clk c w userID decision db' :
  reaches_store c userID ->
  Acquire store (Ratelimit.now_ns clk) (Fiber.pg w) (idempotency_request c userID)
    = (Ok decision, db') ->
  Type_ decision = DecisionConflict ->
  Middlewares.NewHTTPWithdrawIdempotencyMiddleware (Some store) next clk c w =
    (None,
     Fiber.JSON Fiber.StatusConflict
       (Middlewares.error_body "idempotency key reused with different payload") c,
     Fiber.set_pg db' w).
Proof.
  intros (Hu & Ht & Hk) Ha Hty.
  unfold Middlewares.NewHTTPWithdrawIdempotencyMiddleware.
  rewrite Hu. rewrite !bool_decide_eq_false_2 by done.
  fold (idempotency_request c userID). cbn zeta. rewrite Ha, Hty.
  reflexivity.
Qed.

Lemma middleware_acquired store next clk c w userID decision db' :
  reaches_store c userID ->
  Acquire store (Ratelimit.now_ns clk) (Fiber.pg w) (idempotency_request c userID)
    = (Ok decision, db') ->
  Type_ decision = DecisionAcquired ->
  Middlewares.NewHTTPWithdrawIdempotencyMiddleware (Some store) next clk c w =
    let '(handlerErr, c', w') := next clk c (Fiber.set_pg db' w) in
    let response :=
      {| sr_StatusCode := Fiber.Status (Fiber.resp c');
         sr_Body := Fiber.RespBody (Fiber.resp c');
         sr_ContentType := Fiber.Response_ContentType c' |} in
    match Complete store (Ratelimit.now_ns clk) (Fiber.pg w')
            (idempotency_request c userID) response with
    | (Some _, db'') =>
        match handlerErr with
        | Some e => (Some e, c', Fiber.set_pg db'' w')
        | None =>
            (None,
             Fiber.JSON Fiber.StatusInternalServerError
               (Middlewares.error_body "failed to persist idempotency response") c',
             Fiber.set_pg db'' w')
        end
    | (None, db'') => (handlerErr, c', Fiber.set_pg db'' w')
    end.
Proof.
  intros (Hu & Ht & Hk) Ha Hty.
  unfold Middlewares.NewHTTPWithdrawIdempotencyMiddleware.
  rewrite Hu. rewrite !bool_decide_eq_false_2 by done.
  fold (idempotency_request c userID). cbn zeta. rewrite Ha, Hty.
  reflexivity.
Qed.

Lemma set_pg_same w : Fiber.set_pg (Fiber.pg w) w = w.
Proof. by destruct w. Qed.

(** C4. When the row for (scope, key) holds another request hash than
    the one supplied, Acquire leaves the database as it is, whatever
    database call fails, and returns the Conflict decision when the
    transaction goes through; the middleware then answers 409 with the
    key-reuse message, does not run the rest of the chain, and leaves
    the stores (the ledger among them) as they were. *)
Theorem conflict_law :
  (forall f now db request existing,
     well_formed request ->
     row_of db request = Some existing ->
     request_hash existing <> TrimSpace (RequestHash request) ->
     (SQLXStore_Acquire f now db request).2 = db /\
     (reads_commit f ->
      SQLXStore_Acquire f now db request =
        (Ok (Decision_of_type DecisionConflict), db))) /\
  (forall f next clk c w userID existing,
     reaches_store c userID ->
     well_formed (idempotency_request c userID) ->
     reads_commit f ->
     row_of (Fiber.pg w) (idempotency_request c userID) = Some existing ->
     request_hash existing <> TrimSpace (RequestHash (idempotency_request c userID)) ->
     Middlewares.NewHTTPWithdrawIdempotencyMiddleware (Some (SQLXStore f)) next clk c w =
       (None,
        Fiber.JSON Fiber.StatusConflict
          (Middlewares.error_body "idempotency key reused with different payload") c,
        w) /\
     Fiber.Status
       (Fiber.resp
          (Fiber.JSON Fiber.StatusConflict
             (Middlewares.error_body "idempotency key reused with different payload") c))
       = 409).
Proof.
  split.
  - intros f now db request existing Hwf Hrow Hne. split.
    + rewrite acquire_unfold_well_formed by done. cbn zeta. rewrite Hrow.
      rewrite bool_decide_eq_true_2 by done.
      by destruct (begin_fails f), (select_fails f), (commit_fails f).
    + intros Hf. by eapply acquire_conflict.
  - intros f next clk c w userID existing Hreach Hwf Hf Hrow Hne.
    split; [|reflexivity].
    rewrite (middleware_conflict (SQLXStore f) next clk c w userID
               (Decision_of_type DecisionConflict) (Fiber.pg w));
      [by rewrite set_pg_same | done | | done].
    cbn. by eapply acquire_conflict.
Qed.

(** C5. For a row of the same hash in status in_progress: while its
    lock lies strictly in the future, Acquire returns InProgress and
    leaves the database as it is; once the lock has run out, Acquire
    returns Acquired and has rewritten the row: status in_progress,
    locked_until at now plus the LockTTL of the request (now plus 30
    seconds when the request's LockTTL is not positive), which lies
    after now, updated_at at now, every other column as it was; no other
    row, wallet or ledger entry is touched. *)
Theorem in_progress_arbitration f now db request existing :
  well_formed request ->
  reads_commit f ->
  row_of db request = Some existing ->
  request_hash existing = TrimSpace (RequestHash request) ->
  status existing = "in_progress" ->
  (now < locked_until existing ->
   SQLXStore_Acquire f now db request =
     (Ok (Decision_of_type DecisionInProgress), db)) /\
  (locked_until existing <= now -> reacquire_fails f = false ->
   exists db' row,
     SQLXStore_Acquire f now db request =
       (Ok (Decision_of_type DecisionAcquired), db') /\
     row_of db' request = Some row /\
     status row = "in_progress" /\
     (0 < LockTTL request -> locked_until row = now + LockTTL request) /\
     (LockTTL request <= 0 -> locked_until row = now + 30 * Second) /\
     now < locked_until row /\
     idem_updated_at row = now /\
     request_hash row = request_hash existing /\
     response_status row = response_status existing /\
     response_body row = response_body existing /\
     response_content_type row = response_content_type existing /\
     idem_created_at row = idem_created_at existing /\
     completed_at row = completed_at existing /\
     (forall k, k <> (TrimSpace (Scope request), TrimSpace (Key request)) ->
                withdraw_idempotency db' !! k = withdraw_idempotency db !! k) /\
     wallets db' = wallets db /\ wallet_ledger db' = wallet_ledger db).
Proof.
  intros Hwf Hf Hrow Heq Hst. split.
  - intros Hlock. by eapply acquire_in_progress.
  - intros Hexp Hr. do 2 eexists. split; [by eapply acquire_expired|].
    unfold row_of. cbn. rewrite lookup_insert_eq. split; [done|].
    cbn. split; [done|].
    unfold effectiveLockTTL, defaultLockTTL, Second.
    destruct (LockTTL request <=? 0) eqn:E;
      [apply Z.leb_le in E | apply Z.leb_gt in E].
    + split; [lia|]. split; [done|]. split; [lia|]. do 7 (split; [done|]).
      split; [|done]. intros k Hk. by rewrite lookup_insert_ne.
    + split; [done|]. split; [lia|]. split; [lia|]. do 7 (split; [done|]).
      split; [|done]. intros k Hk. by rewrite lookup_insert_ne.
Qed.

(** C9. A request whose LockTTL is zero or negative is served exactly as
    the same request with a LockTTL of 30 seconds: the lock a first
    acquisition inserts, and the one a reacquisition writes, run until
    now plus 30 seconds, which lies after now; the TTL is no ground for
    an error. *)
Theorem non_positive_lock_ttl_defaults f now db request :
  LockTTL request <= 0 ->
  effectiveLockTTL request = 30 * Second /\
  SQLXStore_Acquire f now db request =
    SQLXStore_Acquire f now db
      {| Scope := Scope request; Key := Key request;
         RequestHash := RequestHash request; LockTTL := 30 * Second |} /\
  (well_formed request -> reads_commit f -> insert_fails f = false ->
   row_of db request = None ->
   exists db' row,
     SQLXStore_Acquire f now db request =
       (Ok (Decision_of_type DecisionAcquired), db') /\
     row_of db' request = Some row /\
     locked_until row = now + 30 * Second /\ now < locked_until row) /\
  (forall existing,
     well_formed request -> reads_commit f -> reacquire_fails f = false ->
     row_of db request = Some existing ->
     request_hash existing = TrimSpace (RequestHash request) ->
     status existing = "in_progress" -> locked_until existing <= now ->
     exists db' row,
       SQLXStore_Acquire f now db request =
         (Ok (Decision_of_type DecisionAcquired), db') /\
       row_of db' request = Some row /\
       locked_until row = now + 30 * Second /\ now < locked_until row).
Proof.
  intros Httl.
  assert (effectiveLockTTL request = 30 * Second) as Heff.
  { unfold effectiveLockTTL.
    by destruct (LockTTL request <=? 0) eqn:E; [|apply Z.leb_gt in E; lia]. }
  split; [done|]. split; [|split].
  - unfold SQLXStore_Acquire. rewrite Heff. reflexivity.
  - intros Hwf Hf Hi Hrow. do 2 eexists. split; [by eapply acquire_fresh|].
    unfold row_of. cbn. rewrite lookup_insert_eq. split; [done|].
    cbn. rewrite Heff. unfold Second. lia.
  - intros existing Hwf Hf Hr Hrow Heq Hst Hexp. do 2 eexists.
    split; [by eapply acquire_expired|].
    unfold row_of. cbn. rewrite lookup_insert_eq. split; [done|].
    cbn. rewrite Heff. unfold Second. lia.
Qed.

(** C10. On a Replay decision whose status code is zero or negative the
    middleware answers 200, with the decision's body as the body and,
    when the decision carries a content type, that content type; the
    rest of the chain is not run. With the SQL store this is the case of
    a completed row whose response_status is NULL or not positive: the
    reply is 200 with the stored body and the stored content type, and
    the stores are left as they were. *)
Theorem replay_without_positive_status_answers_200 :
  (forall store next clk c w userID decision db',
     reaches_store c userID ->
     Acquire store (Ratelimit.now_ns clk) (Fiber.pg w) (idempotency_request c userID)
       = (Ok decision, db') ->
     Type_ decision = DecisionReplay ->
     StatusCode decision <= 0 ->
     exists c',
       Middlewares.NewHTTPWithdrawIdempotencyMiddleware (Some store) next clk c w =
         (None, c', Fiber.set_pg db' w) /\
       Fiber.Status (Fiber.resp c') = 200 /\
       Fiber.RespBody (Fiber.resp c') = Body decision /\
       Fiber.ContentTypeHeader (Fiber.resp c') =
         (if bool_decide (ContentType decision <> EmptyString)
          then ContentType decision
          else Fiber.ContentTypeHeader (Fiber.resp c))) /\
  (forall f next clk c w userID existing,
     reaches_store c userID ->
     well_formed (idempotency_request c userID) ->
     reads_commit f ->
     row_of (Fiber.pg w) (idempotency_request c userID) = Some existing ->
     request_hash existing = TrimSpace (RequestHash (idempotency_request c userID)) ->
     status existing = "completed" ->
     (response_status existing = None \/
      exists s, response_status existing = Some s /\ s <= 0) ->
     exists c',
       Middlewares.NewHTTPWithdrawIdempotencyMiddleware (Some (SQLXStore f)) next clk c w =
         (None, c', w) /\
       Fiber.Status (Fiber.resp c') = 200 /\
       Fiber.RespBody (Fiber.resp c') = default EmptyString (response_body existing) /\
       (forall ct, response_content_type existing = Some ct -> ct <> EmptyString ->
                   Fiber.ContentTypeHeader (Fiber.resp c') = ct)).
Proof.
  assert (forall decision c, StatusCode decision <= 0 ->
            Fiber.Status (Fiber.resp (replayed decision c)) = 200 /\
            Fiber.RespBody (Fiber.resp (replayed decision c)) = Body decision /\
            Fiber.ContentTypeHeader (Fiber.resp (replayed decision c)) =
              (if bool_decide (ContentType decision <> EmptyString)
               then ContentType decision
               else Fiber.ContentTypeHeader (Fiber.resp c))) as Hrep.
  { intros decision c Hle. unfold replayed.
    destruct (StatusCode decision <=? 0) eqn:E; [|apply Z.leb_gt in E; lia].
    by case_bool_decide. }
  split.
  - intros store next clk c w userID decision db' Hreach Ha Hty Hle.
    exists (replayed decision c).
    split; [by apply middleware_replay with (userID := userID)|].
    by apply Hrep.
  - intros f next clk c w userID existing Hreach Hwf Hf Hrow Heq Hst Hnull.
    set (d := {| Type_ := DecisionReplay;
                 StatusCode := default 0 (response_status existing);
                 Body := default EmptyString (response_body existing);
                 ContentType :=
                   default EmptyString (response_content_type existing) |}).
    exists (replayed d c). split.
    { rewrite (middleware_replay (SQLXStore f) next clk c w userID d (Fiber.pg w));
        [by rewrite set_pg_same | done | | done].
      cbn. by eapply acquire_replay. }
    destruct (Hrep d c) as (H1 & H2 & H3).
    { cbn. destruct Hnull as [->|(s & -> & Hs)]; cbn; lia. }
    split; [done|]. split; [done|].
    intros ct Hct Hne. rewrite H3. cbn. rewrite Hct. cbn.
    by rewrite bool_decide_eq_true_2.
Qed.

End MiddlewareProperties.

(** ** The withdraw route: idempotency middleware around the handler *)

Section RouteProperties.
Context `{Runtime}.

Import Idempotency.

Lemma service_cases rf now db userID amountMinor chainID :
  let '(r, db', ops) :=
    Services.WithdrawBalance rf now db userID amountMinor chainID in
  (exists e, r = Err e /\ db' = db) \/
  (exists res (entry : LedgerEntry),
     r = Ok res /\
     wallet_ledger db' = (wallet_ledger db ++ [entry])%list /\
     entry_type entry = "withdrawal" /\
     amount_minor entry = - amountMinor /\
     withdraw_idempotency db' = withdraw_idempotency db).
Proof.
  unfold Services.WithdrawBalance.
  case_bool_decide; [left; eauto|].
  destruct (amountMinor <=? 0); [left; eauto|].
  pose proof (withdraw_cases rf now db userID amountMinor chainID) as Hc.
  destruct (Repository.WithdrawWalletBalanceByUserID rf now db userID
              amountMinor chainID) as [[r db'] ops].
  destruct Hc as [(e & -> & -> & _)|(uid & w & _ & _ & _ & -> & -> & _)].
  - left; eauto.
  - right. do 2 eexists. repeat split; reflexivity.
Qed.

(** The handler always answers with a JSON reply of positive status and
    returns no error; status 200 goes with exactly one new ledger row,
    any other status with the stores untouched. *)
Lemma Handle_shape rf clk c w :
  exists st body w',
    Handlers.Handle rf clk c w = (None, Fiber.JSON st body c, w') /\
    0 < st /\
    withdraw_idempotency (Fiber.pg w') = withdraw_idempotency (Fiber.pg w) /\
    ((st = 200 /\
      exists entry : LedgerEntry,
        wallet_ledger (Fiber.pg w') = (wallet_ledger (Fiber.pg w) ++ [entry])%list /\
        entry_type entry = "withdrawal") \/
     (st <> 200 /\ w' = w)).
Proof.
  unfold Handlers.Handle.
  destruct (Fiber.Locals_user_id (Fiber.req c)) as [userID|];
    [|do 3 eexists; split; [reflexivity|]; split; [done|]; split; [done|];
      by right].
  case_bool_decide;
    [do 3 eexists; split; [reflexivity|]; split; [done|]; split; [done|];
      by right|].
  destruct (BindJSON_withdrawalRequest (Fiber.BodyRaw (Fiber.req c)))
    as [amountMinor|];
    [|do 3 eexists; split; [reflexivity|]; split; [done|]; split; [done|];
      by right].
  pose proof (service_cases rf (Ratelimit.now_ns clk) (Fiber.pg w) userID
                amountMinor (Middlewares.ChainIDFromContext c)) as Hc.
  destruct (Services.WithdrawBalance rf (Ratelimit.now_ns clk) (Fiber.pg w)
              userID amountMinor (Middlewares.ChainIDFromContext c))
    as [[r db'] ops].
  destruct Hc as [(e & -> & ->)|(res & entry & -> & Hl & Ht & _ & Hi)].
  - rewrite set_pg_same.
    destruct e; do 3 eexists; (split; [reflexivity|]); (split; [done|]);
      (split; [done|]); by right.
  - do 3 eexists. split; [reflexivity|]. split; [done|]. split; [done|].
    left. split; [done|]. by exists entry.
Qed.

Lemma complete_finds_row now db request response row :
  well_formed request ->
  row_of db request = Some row ->
  request_hash row = TrimSpace (RequestHash request) ->
  SQLXStore_Complete no_faults now db request response =
    (None,
     set_withdraw_idempotency
       (<[(TrimSpace (Scope request), TrimSpace (Key request)) :=
            completed now (sr_StatusCode response) (sr_Body response)
              (TrimSpace (sr_ContentType response)) row]>
          (withdraw_idempotency db)) db).
Proof.
  intros (Hs & Hk & Hh) Hrow Heq. unfold SQLXStore_Complete.
  rewrite !bool_decide_eq_false_2 by done. cbn.
  unfold updateQuery. unfold row_of in Hrow. rewrite Hrow.
  by rewrite bool_decide_eq_true_2.
Qed.

Lemma JSON_resp st body c :
  Fiber.resp (Fiber.JSON st body c) =
    {| Fiber.Status := st;
       Fiber.ContentTypeHeader := JSONContentType;
       Fiber.RespHeaders := Fiber.RespHeaders (Fiber.resp c);
       Fiber.RespBody := JSONEncoder body |}.
Proof. reflexivity. Qed.

Lemma reply_JSON st body c :
  JSONContentType <> EmptyString ->
  Fiber.reply (Fiber.JSON st body c) = (st, JSONContentType, JSONEncoder body).
Proof.
  intros Hne. unfold Fiber.reply, Fiber.Response_ContentType.
  rewrite JSON_resp. cbn. by rewrite bool_decide_eq_false_2.
Qed.

Lemma Handle_invalid_amount rf clk c w authenticated amountMinor :
  Fiber.Locals_user_id (Fiber.req c) = Some authenticated ->
  authenticated <> EmptyString ->
  TrimSpace authenticated <> EmptyString ->
  BindJSON_withdrawalRequest (Fiber.BodyRaw (Fiber.req c)) = Some amountMinor ->
  amountMinor <= 0 ->
  Handlers.Handle rf clk c w =
    (None,
     Fiber.JSON Fiber.StatusBadRequest
       (Handlers.error_body "amount_minor must be greater than 0") c,
     w).
Proof.
  intros Hu Hne Htrim Hbody Ha.
  unfold Handlers.Handle. rewrite Hu, Hbody.
  rewrite bool_decide_eq_false_2 by done.
  unfold Services.WithdrawBalance.
  rewrite bool_decide_eq_false_2 by done.
  destruct (amountMinor <=? 0) eqn:E; [|apply Z.leb_gt in E; lia].
  by destruct w.
Qed.

(** C6. A call whose user id does not parse, or whose amount is zero or
    negative, returns an invalid-input error with no database call sent
    (no BEGIN) and the database unchanged. The handler answers a
    non-positive amount with status 400 and leaves the stores as they
    are; so does the withdraw route for a key not seen before, where
    only the idempotency row is written. *)
Theorem invalid_input_fails_before_transaction
  f now db userID amountMinor chainID :
  (uuid_Parse userID = None \/ amountMinor <= 0 ->
   exists e,
     Repository.WithdrawWalletBalanceByUserID f now db userID amountMinor chainID =
       (Err e, db, []) /\ InvalidInput e) /\
  (uuid_Parse userID = None ->
   Repository.WithdrawWalletBalanceByUserID f now db userID amountMinor chainID =
     (Err (Wrapped "repository: invalid user_id"), db, [])) /\
  (forall clk c w authenticated,
     Fiber.Locals_user_id (Fiber.req c) = Some authenticated ->
     authenticated <> EmptyString ->
     TrimSpace authenticated <> EmptyString ->
     BindJSON_withdrawalRequest (Fiber.BodyRaw (Fiber.req c)) = Some amountMinor ->
     amountMinor <= 0 ->
     Handlers.Handle f clk c w =
       (None,
        Fiber.JSON Fiber.StatusBadRequest
          (Handlers.error_body "amount_minor must be greater than 0") c,
        w)) /\
  (forall clk c w authenticated,
     reaches_store c authenticated ->
     authenticated <> EmptyString ->
     well_formed (idempotency_request c authenticated) ->
     row_of (Fiber.pg w) (idempotency_request c authenticated) = None ->
     BindJSON_withdrawalRequest (Fiber.BodyRaw (Fiber.req c)) = Some amountMinor ->
     amountMinor <= 0 ->
     exists w',
       withdraw_route f clk c w =
         (None,
          Fiber.JSON Fiber.StatusBadRequest
            (Handlers.error_body "amount_minor must be greater than 0") c,
          w') /\
       Fiber.Status
         (Fiber.resp
            (Fiber.JSON Fiber.StatusBadRequest
               (Handlers.error_body "amount_minor must be greater than 0") c))
         = 400 /\
       wallets (Fiber.pg w') = wallets (Fiber.pg w) /\
       wallet_ledger (Fiber.pg w') = wallet_ledger (Fiber.pg w)).
Proof.
  split; [|split; [|split]].
  - intros Hbad. unfold Repository.WithdrawWalletBalanceByUserID, InvalidInput.
    destruct (uuid_Parse userID) as [uid|]; [|eauto].
    destruct Hbad as [|Ha]; [done|].
    destruct (amountMinor <=? 0) eqn:E; [eauto | apply Z.leb_gt in E; lia].
  - intros Hp. unfold Repository.WithdrawWalletBalanceByUserID. by rewrite Hp.
  - intros clk c w authenticated. apply Handle_invalid_amount.
  - intros clk c w authenticated Hreach Hne Hwf Hnone Hbody Ha.
    pose proof Hreach as (Hu & Htrim & _).
    set (request := idempotency_request c authenticated) in *.
    set (now1 := Ratelimit.now_ns clk).
    set (row_a := inserted now1 (now1 + effectiveLockTTL request)
                    (TrimSpace (RequestHash request))).
    set (db_a := set_withdraw_idempotency
                   (<[(TrimSpace (Scope request), TrimSpace (Key request)) := row_a]>
                      (withdraw_idempotency (Fiber.pg w)))
                   (Fiber.pg w)).
    eexists. split; [|split; [reflexivity|]].
    + unfold withdraw_route.
      rewrite (middleware_acquired (SQLXStore no_faults) (Handlers.Handle f)
                 clk c w authenticated (Decision_of_type DecisionAcquired) db_a);
        [|done|cbn; by apply acquire_fresh|done].
      rewrite (Handle_invalid_amount f clk c _ authenticated amountMinor)
        by done.
      cbn [Complete SQLXStore]. fold request.
      rewrite (complete_finds_row _ _ _ _ row_a); [reflexivity|done| |done].
      unfold row_of. cbn. apply lookup_insert_eq.
    + by cbn.
Qed.

(** C3. Acquire on a completed row of the same hash returns a Replay
    decision that carries the stored status code, body and content type,
    and leaves the database as it is. On a Replay decision the
    middleware builds its reply from the decision alone and never runs
    the rest of the chain: a positive status code, the body and a
    non-empty content type go out as stored. Hence, when a request goes
    through the withdraw route with a key not seen before and a second
    request follows that gives the store the same scope, key and hash
    (whatever else differs between the two: request id, address, other
    headers), the second reply has the status code, content type and
    body bytes of the first, the second pass changes nothing in the
    stores, and the ledger has gained exactly one row when the first
    reply was 200 and none otherwise. *)
Theorem replay_law :
  (forall f now db request existing,
     well_formed request -> reads_commit f ->
     row_of db request = Some existing ->
     request_hash existing = TrimSpace (RequestHash request) ->
     status existing = "completed" ->
     SQLXStore_Acquire f now db request =
       (Ok {| Type_ := DecisionReplay;
              StatusCode := default 0 (response_status existing);
              Body := default EmptyString (response_body existing);
              ContentType :=
                default EmptyString (response_content_type existing) |},
        db)) /\
  (forall store next clk c w userID decision db',
     reaches_store c userID ->
     Acquire store (Ratelimit.now_ns clk) (Fiber.pg w) (idempotency_request c userID)
       = (Ok decision, db') ->
     Type_ decision = DecisionReplay ->
     Middlewares.NewHTTPWithdrawIdempotencyMiddleware (Some store) next clk c w =
       (None, replayed decision c, Fiber.set_pg db' w) /\
     (0 < StatusCode decision ->
      Fiber.Status (Fiber.resp (replayed decision c)) = StatusCode decision) /\
     Fiber.RespBody (Fiber.resp (replayed decision c)) = Body decision /\
     (ContentType decision <> EmptyString ->
      Fiber.ContentTypeHeader (Fiber.resp (replayed decision c)) =
        ContentType decision)) /\
  (forall rf1 rf2 clk1 clk2 c1 c2 w userID userID2,
     reaches_store c1 userID ->
     well_formed (idempotency_request c1 userID) ->
     row_of (Fiber.pg w) (idempotency_request c1 userID) = None ->
     Fiber.Locals_user_id (Fiber.req c2) = Some userID2 ->
     idempotency_request c2 userID2 = idempotency_request c1 userID ->
     TrimSpace JSONContentType = JSONContentType ->
     JSONContentType <> EmptyString ->
     exists r1 w1 r2,
       withdraw_route rf1 clk1 c1 w = (None, r1, w1) /\
       withdraw_route rf2 clk2 c2 w1 = (None, r2, w1) /\
       Fiber.reply r2 = Fiber.reply r1 /\
       (Fiber.Status (Fiber.resp r1) = 200 ->
        exists entry : LedgerEntry,
          wallet_ledger (Fiber.pg w1) =
            (wallet_ledger (Fiber.pg w) ++ [entry])%list /\
          entry_type entry = "withdrawal") /\
       (Fiber.Status (Fiber.resp r1) <> 200 ->
        wallet_ledger (Fiber.pg w1) = wallet_ledger (Fiber.pg w))).
Proof.
  split; [|split].
  - intros. by eapply acquire_replay.
  - intros store next clk c w userID decision db' Hreach Ha Hty.
    split; [by eapply middleware_replay|]. unfold replayed.
    split; [|split].
    + intros Hpos.
      by destruct (StatusCode decision <=? 0) eqn:E; [apply Z.leb_le in E; lia|].
    + done.
    + intros Hct. by rewrite bool_decide_eq_true_2.
  - intros rf1 rf2 clk1 clk2 c1 c2 w userID userID2 Hreach Hwf Hnone
      Hlocal Hsame Htrim Hne.
    assert (userID2 = userID) as ->.
    { apply (f_equal Scope) in Hsame. cbn in Hsame.
      by apply (inj (String.app "withdraw:")) in Hsame. }
    assert (reaches_store c2 userID) as Hreach2.
    { destruct Hreach as (_ & Hu & Hk). split; [done|]. split; [done|].
      apply (f_equal Key) in Hsame. cbn in Hsame. by rewrite Hsame. }
    set (request := idempotency_request c1 userID) in *.
    set (k := (TrimSpace (Scope request), TrimSpace (Key request))).
    set (now1 := Ratelimit.now_ns clk1).
    set (row_a := inserted now1 (now1 + effectiveLockTTL request)
                    (TrimSpace (RequestHash request))).
    set (db_a := set_withdraw_idempotency
                   (<[k := row_a]> (withdraw_idempotency (Fiber.pg w)))
                   (Fiber.pg w)).
    assert (reads_commit no_faults) as Hnf by done.
    destruct (Handle_shape rf1 clk1 c1 (Fiber.set_pg db_a w))
      as (st & body & wh & HH & Hst & Hidem & Hled).
    assert (row_of (Fiber.pg wh) request = Some row_a) as Hrow_h.
    { unfold row_of. rewrite Hidem. cbn. apply lookup_insert_eq. }
    set (row_c := completed now1 st (JSONEncoder body) JSONContentType row_a).
    set (db_c := set_withdraw_idempotency
                   (<[k := row_c]> (withdraw_idempotency (Fiber.pg wh)))
                   (Fiber.pg wh)).
    exists (Fiber.JSON st body c1), (Fiber.set_pg db_c wh).
    set (d := {| Type_ := DecisionReplay; StatusCode := st;
                 Body := JSONEncoder body; ContentType := JSONContentType |}).
    exists (replayed d c2).
    assert (withdraw_route rf1 clk1 c1 w =
              (None, Fiber.JSON st body c1, Fiber.set_pg db_c wh)) as Hfirst.
    { unfold withdraw_route.
      rewrite (middleware_acquired (SQLXStore no_faults) (Handlers.Handle rf1)
                 clk1 c1 w userID (Decision_of_type DecisionAcquired) db_a);
        [|done|cbn; by apply acquire_fresh|done].
      rewrite HH. cbn [Complete SQLXStore].
      fold request.
      rewrite (complete_finds_row _ _ _ _ row_a) by done.
      cbn [sr_StatusCode sr_Body sr_ContentType].
      unfold Fiber.Response_ContentType. rewrite JSON_resp. cbn.
      rewrite bool_decide_eq_false_2 by done. by rewrite Htrim. }
    split; [done|].
    pose proof Hsame as Hreq2.
    split.
    { unfold withdraw_route.
      rewrite (middleware_replay (SQLXStore no_faults) (Handlers.Handle rf2)
                 clk2 c2 (Fiber.set_pg db_c wh) userID d db_c);
        [by destruct wh | done | | done].
      rewrite Hreq2. cbn [Acquire SQLXStore Fiber.pg Fiber.set_pg].
      rewrite (acquire_replay no_faults _ db_c request row_c); try done.
      unfold row_of. cbn. apply lookup_insert_eq. }
    split.
    { rewrite reply_JSON by done.
      unfold Fiber.reply, Fiber.Response_ContentType, replayed. cbn.
      destruct (st <=? 0) eqn:E; [apply Z.leb_le in E; lia|].
      rewrite (bool_decide_eq_true_2 (JSONContentType <> EmptyString)) by done.
      cbn. by rewrite bool_decide_eq_false_2. }
    destruct Hled as [(-> & entry & Hl & Ht)|(Hn200 & ->)].
    + split; [|done]. intros _. exists entry. by cbn in *.
    + split; [done|]. intros _. reflexivity.
Qed.

End RouteProperties.

(** ** The fixed-window counter and the rate-limit middleware *)

Section RatelimitProperties.
Context `{Runtime}.

Import Ratelimit.

Variable tokenBucket slidingWindow :
  Clock -> gmap string RedisEntry -> string -> Config
  -> Res error Result * gmap string RedisEntry.

Lemma wrap64_small z : min_int64 <= z <= max_int64 -> wrap64 z = z.
Proof.
  unfold wrap64, min_int64, max_int64. intros Hz.
  change (2 ^ 63) with 9223372036854775808.
  change (2 ^ 64) with 18446744073709551616.
  rewrite Z.mod_small by lia. lia.
Qed.

Lemma Milliseconds_bound d :
  0 <= d -> 0 <= Milliseconds d /\ Milliseconds d * 1000000 <= d.
Proof.
  intros Hd. unfold Milliseconds. rewrite Z.quot_div_nonneg by lia.
  split; [apply Z.div_pos; lia|].
  pose proof (Z.mul_div_le d 1000000). lia.
Qed.

Lemma script_first now st key limit window :
  redis_get now st key = None -> 1 <= window ->
  fixedWindow_script now st key limit window =
    Some (if 1 <=? limit then (1, limit - 1, window,
                                <[key := counter 1 (now + window)]> st)
          else (0, 0, window, <[key := counter 1 (now + window)]> st)).
Proof.
  intros Hget Hw. unfold fixedWindow_script. rewrite Hget. cbn.
  destruct (window <=? 0) eqn:E; [apply Z.leb_le in E; lia|].
  rewrite insert_insert_eq. unfold redis_get. rewrite lookup_insert_eq.
  unfold expired. cbn.
  destruct (now + window <? now) eqn:E2; [apply Z.ltb_lt in E2; lia|].
  cbn. replace (Z.max 0 (now + window - now)) with window by lia.
  by destruct (1 <=? limit).
Qed.

Lemma script_next now st key limit window n ex :
  st !! key = Some (counter n ex) -> now <= ex -> 1 <= n < max_int64 ->
  fixedWindow_script now st key limit window =
    Some (if n + 1 <=? limit
          then (1, limit - (n + 1), ex - now, <[key := counter (n + 1) ex]> st)
          else (0, 0, ex - now, <[key := counter (n + 1) ex]> st)).
Proof.
  intros Hst Hnow Hn. unfold fixedWindow_script, redis_get. rewrite Hst.
  unfold expired. cbn.
  destruct (ex <? now) eqn:E; [apply Z.ltb_lt in E; lia|]. cbn.
  destruct (n <? max_int64) eqn:E2; [|apply Z.ltb_ge in E2; lia].
  destruct (n + 1 =? 1) eqn:E3; [apply Z.eqb_eq in E3; lia|].
  rewrite lookup_insert_eq. cbn. rewrite E. cbn.
  replace (Z.max 0 (ex - now)) with (ex - now) by lia.
  by destruct (n + 1 <=? limit).
Qed.

Lemma AllowKey_fixed prefix config clk st key :
  Algorithm config = AlgorithmFixedWindow ->
  AllowKey tokenBucket slidingWindow prefix config clk st key =
    match fixedWindow clk st (prefix +:+ ":" +:+ key) config with
    | (Err _, st') => (Err (Wrapped "ratelimit: store error"), st')
    | (Ok result, st') => (Ok result, st')
    end.
Proof.
  intros Halg. unfold AllowKey, RedisStore_Allow. by rewrite Halg.
Qed.

(** While the counter is alive and below the limit, every call is let
    through and counts one up. *)
Lemma run_within_limit prefix config key ex clks :
  Algorithm config = AlgorithmFixedWindow ->
  forall n st,
    st !! (prefix +:+ ":" +:+ key) = Some (counter n ex) ->
    1 <= n -> n + Z.of_nat (length clks) <= cfg_Limit config ->
    cfg_Limit config < max_int64 ->
    Forall (fun clk => redis_now_ms clk <= ex /\ eval_fails clk = false) clks ->
    exists rs st',
      AllowKey_run tokenBucket slidingWindow prefix config key clks st = (rs, st') /\
      Forall allowed rs /\ length rs = length clks /\
      st' !! (prefix +:+ ":" +:+ key) =
        Some (counter (n + Z.of_nat (length clks)) ex).
Proof.
  intros Halg. induction clks as [|clk clks IH]; intros n st Hst Hn Hle Hmax Hall.
  - exists [], st. cbn. rewrite Z.add_0_r. by repeat split.
  - inversion Hall as [|? ? [Hnow Hev] Hall']; subst.
    cbn [length] in Hle. cbn [AllowKey_run].
    rewrite AllowKey_fixed by done. unfold fixedWindow. rewrite Hev.
    rewrite (script_next _ _ _ _ _ n ex) by (done || lia).
    destruct (n + 1 <=? cfg_Limit config) eqn:E; [|apply Z.leb_gt in E; lia].
    cbn.
    destruct (IH (n + 1) (<[prefix +:+ ":" +:+ key := counter (n + 1) ex]> st))
      as (rs & st' & Hrun & Hrs & Hlen & Hst'); try done; try lia.
    { apply lookup_insert_eq. }
    rewrite Hrun. do 2 eexists. split; [reflexivity|]. split; [|split].
    + constructor; [|done]. eexists. by split.
    + cbn. by rewrite Hlen.
    + rewrite Hst'. f_equal. f_equal. cbn [length]. lia.
Qed.

(** C7. Under the fixed-window algorithm, with a limit of at least one
    (and below 2^53, where the script's numbers are exact) and a window
    of at least one millisecond: when a key has no live counter, the
    request that opens the window and the next limit-1 requests made up
    to the expiry of the counter are all let through, and one more
    request made while the counter is alive, the instant of its expiry
    included, is denied, with no requests remaining and a RetryAfter
    equal to the time left until the counter expires: positive before
    the expiry, zero at it. A denied request is answered at once from
    that single limiter call, whatever the rest of the chain is: status
    429, a Retry-After header and the JSON body with the error text and
    retry_after, both giving the whole seconds of the RetryAfter, at
    least 1 (for a RetryAfter below 2^24 seconds, where the conversion
    to seconds is exact). *)
Theorem fixed_window_boundary :
  (forall prefix config key st clk0 clks clk_last,
     let windowMs := Window config `div` 1000000 in
     Algorithm config = AlgorithmFixedWindow ->
     1 <= cfg_Limit config < 2 ^ 53 ->
     1000000 <= Window config <= max_int64 ->
     redis_get (redis_now_ms clk0) st (prefix +:+ ":" +:+ key) = None ->
     eval_fails clk0 = false ->
     Z.of_nat (length clks) = cfg_Limit config - 1 ->
     Forall (fun clk =>
               redis_now_ms clk <= redis_now_ms clk0 + windowMs
               /\ eval_fails clk = false) clks ->
     redis_now_ms clk0 <= redis_now_ms clk_last <= redis_now_ms clk0 + windowMs ->
     eval_fails clk_last = false ->
     exists rs st1 res st2,
       AllowKey_run tokenBucket slidingWindow prefix config key (clk0 :: clks) st = (rs, st1) /\
       Z.of_nat (length rs) = cfg_Limit config /\
       Forall allowed rs /\
       AllowKey tokenBucket slidingWindow prefix config clk_last st1 key =
         (Ok res, st2) /\
       Allowed res = false /\ Remaining res = 0 /\
       Limit res = cfg_Limit config /\
       RetryAfter res =
         (redis_now_ms clk0 + windowMs - redis_now_ms clk_last) * 1000000 /\
       0 <= RetryAfter res /\
       (0 < RetryAfter res <->
        redis_now_ms clk_last < redis_now_ms clk0 + windowMs)) /\
  (forall cfg limiter clk c w result st',
     Middlewares.Limiter cfg = Some limiter ->
     default (fun _ => false) (Middlewares.Skipper cfg) c = false ->
     Limiter_AllowKey limiter clk (Fiber.rd w)
       (default Middlewares.defaultKeyExtractor (Middlewares.KeyExtractor cfg) c)
       = (Ok result, st') ->
     Allowed result = false ->
     0 <= RetryAfter result < 2 ^ 24 * 1000000000 ->
     exists c',
       (forall next,
          Middlewares.NewHTTPRateLimitMiddleware cfg next clk c w =
            (None, c', Fiber.set_rd st' w)) /\
       Fiber.Status (Fiber.resp c') = 429 /\
       Fiber.RespHeaders (Fiber.resp c') !! "Retry-After" =
         Some (pretty (Z.max 1 (RetryAfter result `div` 1000000000))) /\
       Fiber.ContentTypeHeader (Fiber.resp c') = JSONContentType /\
       Fiber.RespBody (Fiber.resp c') =
         JSONEncoder
           [("error", JString "rate limit exceeded");
            ("retry_after",
             JNumber (Z.max 1 (RetryAfter result `div` 1000000000)))]).
Proof.
  split.
  - intros prefix config key st clk0 clks clk_last windowMs Halg [Hl1 Hl2]
      [Hw1 Hw2] Hget Hev0 Hlen Hall [Ht1 Ht2] Hevl.
    assert (Milliseconds (Window config) = windowMs) as Hms_eq.
    { unfold Milliseconds, windowMs. apply Z.quot_div_nonneg; lia. }
    set (fullKey := prefix +:+ ":" +:+ key) in *.
    set (ex := redis_now_ms clk0 + windowMs) in *.
    assert (cfg_Limit config < max_int64) as Hmax.
    { unfold max_int64. change (2 ^ 53) with 9007199254740992 in Hl2. lia. }
    assert (windowMs * 1000000 <= Window config) as Hms.
    { unfold windowMs. pose proof (Z.mul_div_le (Window config) 1000000). lia. }
    assert (1 <= windowMs) as Hwin.
    { unfold windowMs. apply Z.div_le_lower_bound; lia. }
    assert (exists r0,
              AllowKey tokenBucket slidingWindow prefix config clk0 st key =
                (Ok r0, <[fullKey := counter 1 ex]> st) /\ Allowed r0 = true)
      as (r0 & Hfirst & Hr0).
    { rewrite AllowKey_fixed by done. unfold fixedWindow. rewrite Hev0.
      rewrite Hms_eq. fold fullKey. rewrite script_first by done.
      destruct (1 <=? cfg_Limit config) eqn:E; [|apply Z.leb_gt in E; lia].
      eexists. split; reflexivity. }
    destruct (run_within_limit prefix config key ex clks Halg 1
                (<[fullKey := counter 1 ex]> st))
      as (rs & st1 & Hrun & Hrs & Hlenrs & Hst1); try done; try lia.
    { apply lookup_insert_eq. }
    fold fullKey in Hst1.
    assert (exists res st2,
              AllowKey tokenBucket slidingWindow prefix config clk_last st1 key =
                (Ok res, st2) /\
              Allowed res = false /\ Remaining res = 0 /\
              Limit res = cfg_Limit config /\
              RetryAfter res =
                wrap64 ((ex - redis_now_ms clk_last) * Idempotency.Millisecond))
      as (res & st2 & Hlast & Hden & Hrem & Hlim & Hretry).
    { rewrite AllowKey_fixed by done. unfold fixedWindow. rewrite Hevl.
      rewrite Hms_eq. fold fullKey.
      rewrite (script_next _ _ _ _ _ (1 + Z.of_nat (length clks)) ex)
        by (done || lia).
      destruct (1 + Z.of_nat (length clks) + 1 <=? cfg_Limit config) eqn:E2;
        [apply Z.leb_le in E2; lia|].
      do 2 eexists. split; [reflexivity|]. by repeat split. }
    exists (Ok r0 :: rs), st1, res, st2.
    split; [cbn [AllowKey_run]; by rewrite Hfirst, Hrun|].
    split; [cbn [length]; lia|].
    split; [constructor; [by exists r0 | done]|].
    split; [done|]. split; [done|]. split; [done|]. split; [done|].
    rewrite Hretry.
    rewrite wrap64_small
      by (unfold Idempotency.Millisecond, min_int64, max_int64 in *; lia).
    unfold Idempotency.Millisecond. split; [done|]. split; lia.
  - intros cfg limiter clk c w result st' Hlim Hskip Hallow Hdenied [Hr1 Hr2].
    assert (Middlewares.Seconds_int (RetryAfter result)
            = RetryAfter result `div` 1000000000) as Hsec.
    { unfold Middlewares.Seconds_int, Idempotency.Second.
      apply Z.quot_div_nonneg; lia. }
    eexists. split; [|split; [|split; [|split]]].
    + intros next. unfold Middlewares.NewHTTPRateLimitMiddleware.
      rewrite Hlim. cbn zeta. rewrite Hskip, Hallow, Hdenied. cbn [negb].
      reflexivity.
    + reflexivity.
    + rewrite Hsec.
      assert ((if RetryAfter result `div` 1000000000 <? 1 then 1
               else RetryAfter result `div` 1000000000)
              = Z.max 1 (RetryAfter result `div` 1000000000)) as ->.
      { destruct (_ <? 1) eqn:E; [apply Z.ltb_lt in E|apply Z.ltb_ge in E]; lia. }
      cbn. apply lookup_insert_eq.
    + reflexivity.
    + rewrite Hsec.
      assert ((if RetryAfter result `div` 1000000000 <? 1 then 1
               else RetryAfter result `div` 1000000000)
              = Z.max 1 (RetryAfter result `div` 1000000000)) as ->.
      { destruct (_ <? 1) eqn:E; [apply Z.ltb_lt in E|apply Z.ltb_ge in E]; lia. }
      reflexivity.
Qed.

End RatelimitProperties.

(** C7, as stated, fails at the last instant of a window: with two
    requests a minute under the fixed-window algorithm, the requests at
    seconds 10 and 11 are let through and use up the limit; at second
    70 the counter they left is still alive, so the third request is
    counted in their window and denied, and the RetryAfter it is given
    is zero, not positive. *)
Lemma denied_at_window_end_without_positive_retry_after :
  exists rs st1 res st2,
    AllowKey_run Sample.no_script Sample.no_script "withdraw-api:withdraw"
      Sample.fixed_window_config "withdraw:user:u1"
      [Sample.clock 10; Sample.clock 11] ∅ = (rs, st1) /\
    Z.of_nat (length rs) = Ratelimit.cfg_Limit Sample.fixed_window_config /\
    Forall allowed rs /\
    Ratelimit.redis_get (Ratelimit.redis_now_ms (Sample.clock 70)) st1
      "withdraw-api:withdraw:withdraw:user:u1" = Some (counter 2 70000) /\
    Ratelimit.AllowKey Sample.no_script Sample.no_script "withdraw-api:withdraw"
      Sample.fixed_window_config (Sample.clock 70) st1 "withdraw:user:u1"
      = (Ok res, st2) /\
    Ratelimit.Allowed res = false /\
    st2 !! "withdraw-api:withdraw:withdraw:user:u1" = Some (counter 3 70000) /\
    Ratelimit.RetryAfter res = 0 /\
    ~ 0 < Ratelimit.RetryAfter res.
Proof.
  do 4 eexists.
  split; [vm_compute; reflexivity|].
  split; [reflexivity|].
  split; [repeat constructor; eexists; split; reflexivity|].
  split; [vm_compute; reflexivity|].
  split; [vm_compute; reflexivity|].
  split; [reflexivity|].
  split; [vm_compute; reflexivity|].
  split; [reflexivity|].
  cbn. lia.
Qed.

(** ** Selection of an algorithm from a configuration string *)

Section SelectorProperties.
Context `{Runtime}.

Variable tokenBucket slidingWindow :
  Ratelimit.Clock -> gmap string Ratelimit.RedisEntry -> string
  -> Ratelimit.Config
  -> Res error Ratelimit.Result * gmap string Ratelimit.RedisEntry.

(** C8, as amended. The rate-limit selectors are total with token bucket
    as the default: parseRateLimitAlgorithm returns one of the three
    algorithms for every string, the two window algorithms exactly when
    the lower-cased, trimmed string names them and token bucket
    otherwise; and the store runs the token-bucket script for every
    algorithm value that is none of the three names. The hashing
    selector has no default: it builds the bcrypt hasher when the
    strategy is bcrypt and returns the unknown-strategy error for every
    other string. *)
Theorem rate_limit_selection_defaults_hash_selection_errors :
  (forall value,
     App.parseRateLimitAlgorithm value = Ratelimit.AlgorithmTokenBucket \/
     App.parseRateLimitAlgorithm value = Ratelimit.AlgorithmSlidingWindow \/
     App.parseRateLimitAlgorithm value = Ratelimit.AlgorithmFixedWindow) /\
  (forall value,
     (TrimSpace (ToLower value) = "sliding_window" ->
      App.parseRateLimitAlgorithm value = Ratelimit.AlgorithmSlidingWindow) /\
     (TrimSpace (ToLower value) = "fixed_window" ->
      App.parseRateLimitAlgorithm value = Ratelimit.AlgorithmFixedWindow) /\
     (TrimSpace (ToLower value) <> "sliding_window" ->
      TrimSpace (ToLower value) <> "fixed_window" ->
      App.parseRateLimitAlgorithm value = Ratelimit.AlgorithmTokenBucket)) /\
  (forall prefix clk st key config,
     Ratelimit.Algorithm config <> Ratelimit.AlgorithmSlidingWindow ->
     Ratelimit.Algorithm config <> Ratelimit.AlgorithmFixedWindow ->
     Ratelimit.RedisStore_Allow tokenBucket slidingWindow prefix clk st key config =
       tokenBucket clk st (prefix +:+ ":" +:+ key) config) /\
  (forall opts,
     (Hash.Strategy opts = Hash.StrategyBcrypt ->
      Hash.New opts = Hash.NewBcrypt (Hash.Cost opts)) /\
     (Hash.Strategy opts <> Hash.StrategyBcrypt ->
      Hash.New opts = Err (Wrapped "hash: unknown strategy"))).
Proof.
  split; [|split; [|split]].
  - intros value. unfold App.parseRateLimitAlgorithm.
    repeat case_bool_decide; auto.
  - intros value. unfold App.parseRateLimitAlgorithm. repeat split.
    + intros ->. reflexivity.
    + intros ->. reflexivity.
    + intros Hs Hf. by rewrite !bool_decide_eq_false_2.
  - intros prefix clk st key config Hs Hf. unfold Ratelimit.RedisStore_Allow.
    case_bool_decide; [done|]. by rewrite !bool_decide_eq_false_2.
  - intros opts. unfold Hash.New. split.
    + intros ->. reflexivity.
    + intros Hne. by rewrite bool_decide_eq_false_2.
Qed.

End SelectorProperties.

(** C8, as stated, fails for the hashing selector: there is no hasher
    that [Hash.New] falls back to for the strategies it does not know;
    the strategy md5 gets the unknown-strategy error. *)
Lemma hash_selection_has_no_default :
  Hash.New {| Hash.Strategy := "md5"; Hash.Cost := 0 |}
    = Err (Wrapped "hash: unknown strategy") /\
  ~ (exists fallback,
       forall opts, Hash.Strategy opts <> Hash.StrategyBcrypt ->
                    Hash.New opts = Ok fallback).
Proof.
  split; [reflexivity|].
  intros [fallback Hall].
  specialize (Hall {| Hash.Strategy := "md5"; Hash.Cost := 0 |}).
  cbn in Hall. discriminate Hall. discriminate.
Qed.

(** ** Wallets under sequences of calls, and the balance inquiry *)

Section WalletProperties.
Context `{Runtime}.

Import Sql Repository.

Lemma ledger_total_snoc db entry :
  foldr (fun e acc => amount_minor e + acc) 0 (wallet_ledger db ++ [entry]) =
    ledger_total db + amount_minor entry.
Proof.
  unfold ledger_total. induction (wallet_ledger db) as [|e l IH]; cbn; lia.
Qed.

Lemma total_balance_insert (ws : gmap string Wallet) uid w w' :
  ws !! uid = Some w ->
  map_fold (fun _ w acc => balance_minor w + acc) 0 (<[uid := w']> ws) =
    map_fold (fun _ w acc => balance_minor w + acc) 0 ws
    - balance_minor w + balance_minor w'.
Proof.
  intros Hw.
  rewrite (map_fold_delete_L _ _ uid w ws); [|intros; lia|done].
  rewrite <- (insert_delete_eq ws).
  rewrite map_fold_insert_L; [lia|intros; lia|apply lookup_delete_eq].
Qed.

Lemma withdraw_without_wallet now db userID uid amountMinor chainID :
  uuid_Parse userID = Some uid ->
  0 < amountMinor ->
  wallets db !! uid = None ->
  WithdrawWalletBalanceByUserID no_faults now db userID amountMinor chainID =
    (Err ErrWalletNotFound, db,
     [OpBegin; OpWithdrawWalletBalanceByUserID; OpHasWalletByUserID; OpRollback]).
Proof.
  intros Hp Ha Hw. unfold WithdrawWalletBalanceByUserID. rewrite Hp.
  destruct (amountMinor <=? 0) eqn:E; [apply Z.leb_le in E; lia|]. cbn.
  unfold Sql.Query, Sql.BeginTxx, Sql.Rollback. cbn.
  unfold Sqlc.WithdrawWalletBalanceByUserID, Sqlc.HasWalletByUserID.
  rewrite Hw. cbn. rewrite Hw.
  by rewrite bool_decide_eq_false_2 by (intros [? ?]; done).
Qed.

Lemma withdraw_short_balance now db userID uid w amountMinor chainID :
  uuid_Parse userID = Some uid ->
  0 < amountMinor ->
  wallets db !! uid = Some w ->
  balance_minor w < amountMinor ->
  WithdrawWalletBalanceByUserID no_faults now db userID amountMinor chainID =
    (Err ErrInsufficientBalance, db,
     [OpBegin; OpWithdrawWalletBalanceByUserID; OpHasWalletByUserID; OpRollback]).
Proof.
  intros Hp Ha Hw Hlt. unfold WithdrawWalletBalanceByUserID. rewrite Hp.
  destruct (amountMinor <=? 0) eqn:E; [apply Z.leb_le in E; lia|]. cbn.
  unfold Sql.Query, Sql.BeginTxx, Sql.Rollback. cbn.
  rewrite (update_overdraft _ _ _ _ w) by done. cbn.
  unfold Sqlc.HasWalletByUserID. rewrite Hw.
  by rewrite bool_decide_eq_true_2 by eauto.
Qed.

(** X1. With no database fault, a parseable user and a positive amount,
    the repository answers wallet-not-found exactly when the user has no
    wallet row, and insufficient-balance exactly when the row holds less
    than the amount; in both cases the database is unchanged. *)
Theorem missing_wallet_told_from_short_balance
  now db userID uid amountMinor chainID :
  uuid_Parse userID = Some uid ->
  0 < amountMinor ->
  let '(r, db', _) :=
    WithdrawWalletBalanceByUserID no_faults now db userID amountMinor chainID in
  (r = Err ErrWalletNotFound <-> wallets db !! uid = None) /\
  (r = Err ErrInsufficientBalance <->
     exists w, wallets db !! uid = Some w /\ balance_minor w < amountMinor) /\
  (r = Err ErrWalletNotFound \/ r = Err ErrInsufficientBalance -> db' = db).
Proof.
  intros Hp Ha. unfold WithdrawWalletBalanceByUserID. rewrite Hp.
  destruct (amountMinor <=? 0) eqn:E; [apply Z.leb_le in E; lia|]. cbn.
  unfold Sql.Query, Sql.BeginTxx, Sql.Exec, Sql.Commit, Sql.Rollback. cbn.
  unfold Sqlc.WithdrawWalletBalanceByUserID, Sqlc.HasWalletByUserID.
  destruct (wallets db !! uid) as [w|] eqn:Hw.
  - destruct (amountMinor <=? balance_minor w) eqn:E2.
    + apply Z.leb_le in E2.
      destruct (in_int64 _ && in_int64 _); cbn.
      * split; [split; [done|done]|]. split; [|intros [?|?]; done].
        split; [done|]. intros (w' & [= <-] & Hlt). lia.
      * split; [split; [done|done]|]. split; [|intros [?|?]; done].
        split; [done|]. intros (w' & [= <-] & Hlt). lia.
    + apply Z.leb_gt in E2. cbn. rewrite Hw.
      rewrite bool_decide_eq_true_2 by eauto. cbn.
      split; [split; done|]. split; [|done].
      split; [|done]. intros _. by exists w.
  - cbn. rewrite Hw.
    rewrite bool_decide_eq_false_2 by (intros [? ?]; done). cbn.
    split; [done|]. split; [|done].
    split; [done|]. by intros (w' & ? & _).
Qed.

Lemma withdraw_step_conserves f now db userID amountMinor chainID :
  let '(r, db', _) :=
    WithdrawWalletBalanceByUserID f now db userID amountMinor chainID in
  total_balance db' - ledger_total db' = total_balance db - ledger_total db /\
  length (wallet_ledger db') =
    (length (wallet_ledger db) + (if succeeded r then 1 else 0))%nat.
Proof.
  pose proof (withdraw_cases f now db userID amountMinor chainID) as Hc.
  destruct (WithdrawWalletBalanceByUserID f now db userID amountMinor chainID)
    as [[r db'] ops].
  destruct Hc as [(e & -> & -> & _)|(uid & w & _ & Hw & _ & -> & -> & _)].
  - cbn. split; [done|lia].
  - cbn. split.
    + unfold total_balance, ledger_total at 1. cbn.
      rewrite (total_balance_insert _ _ w) by done.
      rewrite ledger_total_snoc. unfold ledger_total. cbn. lia.
    + rewrite length_app. cbn. lia.
Qed.

(** X2. Whatever calls are made one after the other, and whatever
    database calls fail in them, the sum of all wallet balances minus
    the sum of all ledger amounts stays what it was, the ledger grows by
    exactly one row per successful call, and balances that were
    non-negative stay so. *)
Theorem withdrawals_conserve_money calls :
  forall db,
  let '(rs, db') := withdraw_all calls db in
  total_balance db' - ledger_total db' = total_balance db - ledger_total db /\
  length (wallet_ledger db') =
    (length (wallet_ledger db) + length (filter (fun r => succeeded r = true) rs))%nat /\
  length rs = length calls /\
  (balances_non_negative db -> balances_non_negative db').
Proof.
  induction calls as [|call calls IH]; intros db.
  - cbn. repeat split; [lia|done].
  - cbn [withdraw_all].
    pose proof (withdraw_step_conserves (call_faults call) (call_now call) db
                  (call_userID call) (call_amountMinor call) (call_chainID call))
      as Hstep.
    pose proof (withdraw_preserves_non_negative (call_faults call) (call_now call)
                  db (call_userID call) (call_amountMinor call) (call_chainID call))
      as Hnn.
    destruct (WithdrawWalletBalanceByUserID (call_faults call) (call_now call) db
                (call_userID call) (call_amountMinor call) (call_chainID call))
      as [[r db1] ops].
    cbn in Hnn. destruct Hstep as [Hm Hl].
    specialize (IH db1). destruct (withdraw_all calls db1) as [rs db2].
    destruct IH as (IHm & IHl & IHn & IHnn).
    split; [lia|]. split; [|split; [cbn; lia|auto]].
    rewrite IHl, Hl. rewrite filter_cons.
    destruct r; cbn; rewrite ?decide_True by done; cbn; try lia.
    rewrite decide_False by done. lia.
Qed.

End WalletProperties.

(** ** The balance inquiry and the two handlers *)

Section HandlerProperties.
Context `{Runtime}.

Lemma withdraw_service_ok f now db userID amountMinor chainID res db' ops :
  Services.WithdrawBalance f now db userID amountMinor chainID = (Ok res, db', ops) ->
  exists uid w,
    TrimSpace userID <> EmptyString /\
    uuid_Parse userID = Some uid /\ wallets db !! uid = Some w /\
    0 < amountMinor <= balance_minor w /\
    res = {| ww_UserID := uid; ww_AmountMinor := amountMinor;
             ww_BalanceMinor := balance_minor w - amountMinor;
             ww_Currency := currency w; ww_ChainID := chainID;
             ww_UpdatedAt := now |} /\
    db' = {| wallets := <[uid := debited now amountMinor w]> (wallets db);
             wallet_ledger :=
               wallet_ledger db ++ [withdrawal_entry now amountMinor chainID w];
             withdraw_idempotency := withdraw_idempotency db |}.
Proof.
  unfold Services.WithdrawBalance. case_bool_decide as Ht; [done|].
  destruct (amountMinor <=? 0); [done|].
  pose proof (withdraw_cases f now db userID amountMinor chainID) as Hc.
  destruct (Repository.WithdrawWalletBalanceByUserID f now db userID
              amountMinor chainID) as [[r db1] ops1].
  destruct Hc as [(e & -> & -> & _)|(uid & w & Hp & Hw & Ha & -> & -> & _)];
    [done|].
  intros [= <- <- <-]. exists uid, w. repeat split; try done; lia.
Qed.

Lemma withdraw_service_err f now db userID amountMinor chainID e db' ops :
  Services.WithdrawBalance f now db userID amountMinor chainID = (Err e, db', ops) ->
  db' = db.
Proof.
  intros Hs.
  pose proof (service_cases f now db userID amountMinor chainID) as Hc.
  rewrite Hs in Hc. by destruct Hc as [(? & _ & ->)|(? & ? & ? & _)].
Qed.

(** X3. The balance inquiry reads what the withdrawal wrote: after a
    successful withdrawal the inquiry for the same user returns the user,
    balance, currency and update time that the withdrawal reported, and
    the answer for every other user is what it was; after a failed
    withdrawal the answer for every user is what it was. *)
Theorem balance_inquiry_follows_withdrawal
  f now db userID amountMinor chainID r db' ops :
  Services.WithdrawBalance f now db userID amountMinor chainID = (r, db', ops) ->
  match r with
  | Ok res =>
      Services.CheckBalance false db' userID =
        Ok {| Services.bi_UserID := ww_UserID res;
              Services.bi_BalanceMinor := ww_BalanceMinor res;
              Services.bi_Currency := ww_Currency res;
              Services.bi_UpdatedAt := ww_UpdatedAt res |} /\
      forall query_fails other,
        uuid_Parse other <> uuid_Parse userID ->
        Services.CheckBalance query_fails db' other =
          Services.CheckBalance query_fails db other
  | Err _ =>
      forall query_fails other,
        Services.CheckBalance query_fails db' other =
          Services.CheckBalance query_fails db other
  end.
Proof.
  intros Hs. destruct r as [res|e].
  - apply withdraw_service_ok in Hs
      as (uid & w & Ht & Hp & Hw & Ha & -> & ->).
    split.
    + unfold Services.CheckBalance, Repository.GetWalletBalanceByUserID,
        Sqlc.GetWalletBalanceByUserID.
      rewrite bool_decide_eq_false_2 by done. rewrite Hp. cbn.
      by rewrite lookup_insert_eq.
    + intros query_fails other Hne.
      unfold Services.CheckBalance, Repository.GetWalletBalanceByUserID,
        Sqlc.GetWalletBalanceByUserID.
      destruct (uuid_Parse other) as [uid'|] eqn:Hp'; [|done]. cbn.
      rewrite lookup_insert_ne; [done|]. intros <-. by rewrite Hp in Hne.
  - apply withdraw_service_err in Hs as ->. done.
Qed.

(** X4. The inquiry handler, for an authenticated user: a blank or
    unparseable user id and a failed query are answered 500 with the
    fixed internal-error body, a user without a wallet row 404, and a
    user with a wallet 200 with the row's balance, currency and update
    time; the stores are never changed. *)
Theorem inquiry_status_table query_fails clk c w userID :
  Fiber.Locals_user_id (Fiber.req c) = Some userID ->
  userID <> EmptyString ->
  (TrimSpace userID = EmptyString \/ uuid_Parse userID = None \/ query_fails = true ->
   Handlers.InquiryCheckBalanceHandler_Handle query_fails clk c w =
     (None,
      Fiber.JSON Fiber.StatusInternalServerError
        (Handlers.error_body "internal server error") c, w)) /\
  (forall uid,
     TrimSpace userID <> EmptyString -> uuid_Parse userID = Some uid ->
     query_fails = false ->
     Handlers.InquiryCheckBalanceHandler_Handle query_fails clk c w =
       match wallets (Fiber.pg w) !! uid with
       | None =>
           (None,
            Fiber.JSON Fiber.StatusNotFound
              (Handlers.error_body "wallet not found") c, w)
       | Some wallet =>
           (None,
            Fiber.JSON Fiber.StatusOK
              (Handlers.balance_body
                 {| Services.bi_UserID := uid;
                    Services.bi_BalanceMinor := balance_minor wallet;
                    Services.bi_Currency := currency wallet;
                    Services.bi_UpdatedAt := wallet_updated_at wallet |}) c, w)
       end).
Proof.
  intros Hu Hne. unfold Handlers.InquiryCheckBalanceHandler_Handle.
  rewrite Hu. rewrite (bool_decide_eq_false_2 (userID = EmptyString)) by done.
  unfold Services.CheckBalance, Repository.GetWalletBalanceByUserID,
    Sqlc.GetWalletBalanceByUserID.
  split.
  - intros [Ht|[Hp| ->]].
    + by rewrite bool_decide_eq_true_2.
    + case_bool_decide; [done|]. by rewrite Hp.
    + case_bool_decide; [done|]. by destruct (uuid_Parse userID).
  - intros uid Ht Hp ->. rewrite bool_decide_eq_false_2 by done. rewrite Hp.
    by destruct (wallets (Fiber.pg w) !! uid).
Qed.

(** X5. The withdraw handler, for an authenticated user and no database
    fault: a body that does not decode is answered 400; a user id that
    is blank is answered 404 and one that does not parse 500; a user
    without a wallet row 404; a wallet that holds less than the amount
    409; and a wallet that holds the amount 200 with the new balance in
    the body. Every reply but the 200 leaves the stores as they were. *)
Theorem withdraw_status_table clk c w userID :
  Fiber.Locals_user_id (Fiber.req c) = Some userID ->
  userID <> EmptyString ->
  (BindJSON_withdrawalRequest (Fiber.BodyRaw (Fiber.req c)) = None ->
   Handlers.Handle Repository.no_faults clk c w =
     (None, Fiber.JSON Fiber.StatusBadRequest
              (Handlers.error_body "invalid request body") c, w)) /\
  (forall amountMinor,
     BindJSON_withdrawalRequest (Fiber.BodyRaw (Fiber.req c)) = Some amountMinor ->
     0 < amountMinor ->
     (TrimSpace userID = EmptyString ->
      Handlers.Handle Repository.no_faults clk c w =
        (None, Fiber.JSON Fiber.StatusNotFound
                 (Handlers.error_body "wallet not found") c, w)) /\
     (TrimSpace userID <> EmptyString -> uuid_Parse userID = None ->
      Handlers.Handle Repository.no_faults clk c w =
        (None, Fiber.JSON Fiber.StatusInternalServerError
                 (Handlers.error_body "internal server error") c, w)) /\
     (forall uid,
        TrimSpace userID <> EmptyString -> uuid_Parse userID = Some uid ->
        (wallets (Fiber.pg w) !! uid = None ->
         Handlers.Handle Repository.no_faults clk c w =
           (None, Fiber.JSON Fiber.StatusNotFound
                    (Handlers.error_body "wallet not found") c, w)) /\
        (forall wallet,
           wallets (Fiber.pg w) !! uid = Some wallet ->
           (balance_minor wallet < amountMinor ->
            Handlers.Handle Repository.no_faults clk c w =
              (None, Fiber.JSON Fiber.StatusConflict
                       (Handlers.error_body "insufficient balance") c, w)) /\
           (amountMinor <= balance_minor wallet <= max_int64 ->
            0 <= version wallet < max_int64 ->
            exists w',
              Handlers.Handle Repository.no_faults clk c w =
                (None,
                 Fiber.JSON Fiber.StatusOK
                   (Handlers.withdrawal_body
                      {| ww_UserID := uid;
                         ww_AmountMinor := amountMinor;
                         ww_BalanceMinor := balance_minor wallet - amountMinor;
                         ww_Currency := currency wallet;
                         ww_ChainID := Middlewares.ChainIDFromContext c;
                         ww_UpdatedAt := Ratelimit.now_ns clk |}) c, w') /\
              balance_minor <$> wallets (Fiber.pg w') !! uid
                = Some (balance_minor wallet - amountMinor))))).
Proof.
  intros Hu Hne. unfold Handlers.Handle. rewrite Hu.
  rewrite (bool_decide_eq_false_2 (userID = EmptyString)) by done.
  split; [by intros ->|].
  intros amountMinor -> Ha. unfold Services.WithdrawBalance.
  destruct (amountMinor <=? 0) eqn:E; [apply Z.leb_le in E; lia|].
  split; [|split].
  - intros Ht. rewrite bool_decide_eq_true_2 by done. by rewrite set_pg_same.
  - intros Ht Hp. rewrite bool_decide_eq_false_2 by done.
    unfold Repository.WithdrawWalletBalanceByUserID. rewrite Hp.
    by rewrite set_pg_same.
  - intros uid Ht Hp. rewrite bool_decide_eq_false_2 by done.
    split.
    + intros Hw. rewrite (withdraw_without_wallet _ _ _ uid) by done.
      by rewrite set_pg_same.
    + intros wallet Hw. split.
      * intros Hlt. rewrite (withdraw_short_balance _ _ _ uid wallet) by done.
        by rewrite set_pg_same.
      * intros Hb Hv.
        rewrite (withdraw_succeeds _ _ _ uid wallet) by (done || lia).
        eexists. split; [reflexivity|]. cbn. by rewrite lookup_insert_eq.
Qed.

(** X6. Whatever database call fails, the withdraw handler returns no
    error to the framework, and a reply of status 500 carries the fixed
    internal-error body, never the text of the failure, and leaves the
    stores as they were. *)
Theorem internal_errors_are_masked rf clk c w :
  let '(err, c', w') := Handlers.Handle rf clk c w in
  err = None /\
  (Fiber.Status (Fiber.resp c') = Fiber.StatusInternalServerError ->
   Fiber.RespBody (Fiber.resp c') =
     JSONEncoder (Handlers.error_body "internal server error") /\
   w' = w).
Proof.
  unfold Handlers.Handle.
  destruct (Fiber.Locals_user_id (Fiber.req c)) as [userID|]; [|by split].
  case_bool_decide; [by split|].
  destruct (BindJSON_withdrawalRequest (Fiber.BodyRaw (Fiber.req c)))
    as [amountMinor|]; [|by split].
  destruct (Services.WithdrawBalance rf (Ratelimit.now_ns clk) (Fiber.pg w)
              userID amountMinor (Middlewares.ChainIDFromContext c))
    as [[r db'] ops] eqn:Hs.
  destruct r as [res|e]; [by split|].
  apply withdraw_service_err in Hs as ->. rewrite set_pg_same.
  destruct e; by split.
Qed.

End HandlerProperties.

(** ** The idempotency store: validation, completion, round trips *)

Section StoreProperties.
Context `{Runtime}.

Import Idempotency.

(** The database a call of Acquire can leave. *)
Lemma acquire_db_cases f now db request :
  let db' := (SQLXStore_Acquire f now db request).2 in
  db' = db \/
  db' = insertQuery now db (TrimSpace (Scope request)) (TrimSpace (Key request))
          (TrimSpace (RequestHash request)) (now + effectiveLockTTL request) \/
  db' = reacquireQuery now db (TrimSpace (Scope request)) (TrimSpace (Key request))
          (now + effectiveLockTTL request).
Proof.
  unfold SQLXStore_Acquire.
  unfold Sql.Query, Sql.Failed, Sql.Exec, Sql.Commit, Sql.Rollback, Sql.BeginTxx.
  cbn. repeat case_match; simplify_eq/=; auto.
Qed.

Lemma complete_db_cases f now db request response :
  let db' := (SQLXStore_Complete f now db request response).2 in
  db' = db \/
  db' = (updateQuery now db (TrimSpace (Scope request)) (TrimSpace (Key request))
           (TrimSpace (RequestHash request)) (sr_StatusCode response)
           (sr_Body response) (TrimSpace (sr_ContentType response))).1.
Proof.
  unfold SQLXStore_Complete. cbn.
  repeat case_match; simplify_eq/=; auto.
Qed.

(** X7. A request whose scope, key or request hash is blank is refused
    by Acquire and by Complete alike, with the error that names the
    first blank field in that order, whatever else would fail, and the
    database is left as it was. *)
Theorem blank_request_rejected f now db request response :
  (TrimSpace (Scope request) = EmptyString ->
   SQLXStore_Acquire f now db request =
     (Err (Wrapped "idempotency: scope is required"), db) /\
   SQLXStore_Complete f now db request response =
     (Some (Wrapped "idempotency: scope is required"), db)) /\
  (TrimSpace (Scope request) <> EmptyString ->
   TrimSpace (Key request) = EmptyString ->
   SQLXStore_Acquire f now db request =
     (Err (Wrapped "idempotency: key is required"), db) /\
   SQLXStore_Complete f now db request response =
     (Some (Wrapped "idempotency: key is required"), db)) /\
  (TrimSpace (Scope request) <> EmptyString ->
   TrimSpace (Key request) <> EmptyString ->
   TrimSpace (RequestHash request) = EmptyString ->
   SQLXStore_Acquire f now db request =
     (Err (Wrapped "idempotency: request hash is required"), db) /\
   SQLXStore_Complete f now db request response =
     (Some (Wrapped "idempotency: request hash is required"), db)).
Proof.
  unfold SQLXStore_Acquire, SQLXStore_Complete. split; [|split].
  - intros Hs. by rewrite !(bool_decide_eq_true_2 _ Hs).
  - intros Hs Hk.
    rewrite !(bool_decide_eq_false_2 _ Hs). by rewrite !(bool_decide_eq_true_2 _ Hk).
  - intros Hs Hk Hh.
    rewrite !(bool_decide_eq_false_2 _ Hs), !(bool_decide_eq_false_2 _ Hk).
    by rewrite !(bool_decide_eq_true_2 _ Hh).
Qed.

(** X8. Complete records a response only on the row that was acquired
    for the same request hash: when it returns no error such a row
    existed and is now completed with the response; when the key has no
    row, or a row of another hash, it returns an error (the
    key-not-found error when the statement itself goes through) and the
    database is left as it was. *)
Theorem complete_needs_matching_row f now db request response :
  well_formed request ->
  let '(err, db') := SQLXStore_Complete f now db request response in
  (err = None ->
   exists row,
     row_of db request = Some row /\
     request_hash row = TrimSpace (RequestHash request) /\
     db' = set_withdraw_idempotency
             (<[(TrimSpace (Scope request), TrimSpace (Key request)) :=
                  completed now (sr_StatusCode response) (sr_Body response)
                    (TrimSpace (sr_ContentType response)) row]>
                (withdraw_idempotency db)) db) /\
  ((forall row, row_of db request = Some row ->
                request_hash row <> TrimSpace (RequestHash request)) ->
   err <> None /\ db' = db /\
   (complete_exec_fails f = false -> rows_affected_fails f = false ->
    err = Some (Wrapped "idempotency: key not found for completion"))).
Proof.
  intros (Hs & Hk & Hh). unfold SQLXStore_Complete, row_of.
  rewrite !bool_decide_eq_false_2 by done. cbn zeta.
  destruct (complete_exec_fails f).
  { split; [done|]. by intros _. }
  unfold updateQuery.
  destruct (withdraw_idempotency db !! (TrimSpace (Scope request),
                                        TrimSpace (Key request)))
    as [row|] eqn:Hrow.
  - case_bool_decide as Heq.
    + destruct (rows_affected_fails f); cbn.
      * split; [done|]. intros Hno. by destruct (Hno row).
      * split; [|intros Hno; by destruct (Hno row)].
        intros _. by exists row.
    + destruct (rows_affected_fails f); cbn; (split; [done|]); by intros _.
  - destruct (rows_affected_fails f); cbn; (split; [done|]); by intros _.
Qed.

(** X9. Acquire, Complete, Acquire is a round trip: on a key with no
    row, Acquire takes the key, Complete stores the response whenever it
    comes, and from then on every Acquire of the same request, at any
    time, returns Replay with the stored status code and body, and the
    content type with its surrounding whitespace removed, while a
    request under the same key with another hash gets Conflict; neither
    changes the database any more. *)
Theorem acquire_complete_replay_round_trip now1 now2 now3 db request response :
  well_formed request ->
  row_of db request = None ->
  exists db1 db2,
    SQLXStore_Acquire no_faults now1 db request =
      (Ok (Decision_of_type DecisionAcquired), db1) /\
    SQLXStore_Complete no_faults now2 db1 request response = (None, db2) /\
    SQLXStore_Acquire no_faults now3 db2 request =
      (Ok {| Type_ := DecisionReplay;
             StatusCode := sr_StatusCode response;
             Body := sr_Body response;
             ContentType := TrimSpace (sr_ContentType response) |}, db2) /\
    (forall other,
       TrimSpace (Scope other) = TrimSpace (Scope request) ->
       TrimSpace (Key other) = TrimSpace (Key request) ->
       TrimSpace (RequestHash other) <> EmptyString ->
       TrimSpace (RequestHash other) <> TrimSpace (RequestHash request) ->
       SQLXStore_Acquire no_faults now3 db2 other =
         (Ok (Decision_of_type DecisionConflict), db2)).
Proof.
  intros Hwf Hrow.
  assert (reads_commit no_faults) as Hrc by done.
  pose proof (acquire_fresh no_faults now1 db request Hwf Hrc eq_refl Hrow) as Ha1.
  set (db1 := set_withdraw_idempotency _ db) in Ha1.
  assert (row_of db1 request =
            Some (inserted now1 (now1 + effectiveLockTTL request)
                    (TrimSpace (RequestHash request)))) as Hrow1.
  { unfold row_of, db1. cbn. apply lookup_insert_eq. }
  pose proof (complete_finds_row now2 db1 request response _ Hwf Hrow1 eq_refl)
    as Hc.
  set (db2 := set_withdraw_idempotency _ db1) in Hc.
  assert (forall other,
            TrimSpace (Scope other) = TrimSpace (Scope request) ->
            TrimSpace (Key other) = TrimSpace (Key request) ->
            row_of db2 other =
              Some (completed now2 (sr_StatusCode response) (sr_Body response)
                      (TrimSpace (sr_ContentType response))
                      (inserted now1 (now1 + effectiveLockTTL request)
                         (TrimSpace (RequestHash request))))) as Hrow2.
  { intros other Hs Hk. unfold row_of, db2. cbn. rewrite Hs, Hk.
    apply lookup_insert_eq. }
  exists db1, db2. split; [done|]. split; [done|]. split.
  - by rewrite (acquire_replay no_faults now3 db2 request _ Hwf Hrc
                  (Hrow2 request eq_refl eq_refl) eq_refl eq_refl).
  - intros other Hs Hk Hh Hne.
    eapply acquire_conflict; [|done|apply (Hrow2 other Hs Hk)|].
    + destruct Hwf as (Hs' & Hk' & _). repeat split; congruence.
    + cbn. congruence.
Qed.

(** X10. A key taken by Acquire stays taken for the lock time in force:
    a second Acquire of the same request made before the lock runs out
    is told InProgress and changes nothing, and one made when it has run
    out takes the key over with a new lock that starts then. *)
Theorem lock_excludes_until_expiry now now' db request :
  well_formed request ->
  row_of db request = None ->
  exists db1,
    SQLXStore_Acquire no_faults now db request =
      (Ok (Decision_of_type DecisionAcquired), db1) /\
    (now' < now + effectiveLockTTL request ->
     SQLXStore_Acquire no_faults now' db1 request =
       (Ok (Decision_of_type DecisionInProgress), db1)) /\
    (now + effectiveLockTTL request <= now' ->
     exists db2,
       SQLXStore_Acquire no_faults now' db1 request =
         (Ok (Decision_of_type DecisionAcquired), db2) /\
       (fun row => (status row, locked_until row)) <$> row_of db2 request =
         Some ("in_progress", now' + effectiveLockTTL request)).
Proof.
  intros Hwf Hrow.
  assert (reads_commit no_faults) as Hrc by done.
  pose proof (acquire_fresh no_faults now db request Hwf Hrc eq_refl Hrow) as Ha1.
  set (db1 := set_withdraw_idempotency _ db) in Ha1.
  assert (row_of db1 request =
            Some (inserted now (now + effectiveLockTTL request)
                    (TrimSpace (RequestHash request)))) as Hrow1.
  { unfold row_of, db1. cbn. apply lookup_insert_eq. }
  exists db1. split; [done|]. split.
  - intros Hlt.
    by apply (acquire_in_progress no_faults now' db1 request _ Hwf Hrc Hrow1).
  - intros Hle. eexists. split.
    + by apply (acquire_expired no_faults now' db1 request _ Hwf Hrc eq_refl Hrow1).
    + unfold row_of. cbn. by rewrite lookup_insert_eq.
Qed.

(** X11. Acquire and Complete touch nothing but the row under their own
    scope and key: wallets, ledger and the rows of every other key are
    what they were, whatever fails; and an Acquire that returns an error
    has changed nothing at all. *)
Theorem store_calls_touch_one_row f now db request response :
  let '(r, db1) := SQLXStore_Acquire f now db request in
  let '(e, db2) := SQLXStore_Complete f now db request response in
  (wallets db1 = wallets db /\ wallet_ledger db1 = wallet_ledger db /\
   forall k, k <> (TrimSpace (Scope request), TrimSpace (Key request)) ->
             withdraw_idempotency db1 !! k = withdraw_idempotency db !! k) /\
  (wallets db2 = wallets db /\ wallet_ledger db2 = wallet_ledger db /\
   forall k, k <> (TrimSpace (Scope request), TrimSpace (Key request)) ->
             withdraw_idempotency db2 !! k = withdraw_idempotency db !! k) /\
  ((exists err, r = Err err) -> db1 = db).
Proof.
  pose proof (acquire_db_cases f now db request) as Ha.
  pose proof (complete_db_cases f now db request response) as Hc.
  pose proof (acquire_keeps_db_unless_acquired f now db request) as Hk.
  destruct (SQLXStore_Acquire f now db request) as [r db1].
  destruct (SQLXStore_Complete f now db request response) as [e db2].
  cbn in Ha, Hc. split; [|split].
  - destruct Ha as [->|[->| ->]]; [done| |].
    + cbn. repeat split. intros k Hne. by rewrite lookup_insert_ne.
    + unfold reacquireQuery. case_match; [|done].
      cbn. repeat split. intros k Hne. by rewrite lookup_insert_ne.
  - destruct Hc as [->| ->]; [done|].
    unfold updateQuery. case_match; [|done]. case_bool_decide; [|done].
    cbn. repeat split. intros k Hne. by rewrite lookup_insert_ne.
  - intros [err ->]. by destruct Hk.
Qed.

End StoreProperties.

(** ** The idempotency middleware around any handler *)

Section GuardProperties.
Context `{Runtime}.

Import Idempotency.

(** X12. The idempotency middleware runs the rest of the chain only on
    an Acquired decision: when the store does not answer Acquired for
    the request (because the request does not get as far as the store,
    Acquire fails, or the decision is Replay, InProgress, Conflict or
    unknown), the outcome is the same whatever handler follows. *)
Theorem handler_runs_only_when_acquired store next1 next2 clk c w :
  (forall userID decision db',
     Fiber.Locals_user_id (Fiber.req c) = Some userID ->
     Acquire store (Ratelimit.now_ns clk) (Fiber.pg w)
       (idempotency_request c userID) = (Ok decision, db') ->
     Type_ decision <> DecisionAcquired) ->
  Middlewares.NewHTTPWithdrawIdempotencyMiddleware (Some store) next1 clk c w =
  Middlewares.NewHTTPWithdrawIdempotencyMiddleware (Some store) next2 clk c w.
Proof.
  intros Hno. unfold Middlewares.NewHTTPWithdrawIdempotencyMiddleware.
  destruct (Fiber.Locals_user_id (Fiber.req c)) as [userID|]; [|done].
  case_bool_decide; [done|]. case_bool_decide; [done|]. cbn zeta.
  match goal with
  | |- context [Acquire store ?a ?b ?r] =>
      destruct (Acquire store a b r) as [[d|e] db'] eqn:Ha
  end; [|done].
  pose proof (Hno userID d db' eq_refl Ha) as Hty.
  repeat case_bool_decide; done.
Qed.

(** X13. A request that arrives while the first one with the same key
    and payload is still being served, that is, before its lock runs
    out, is answered 409 with the in-progress message; the handler is
    not run and the stores are left as they were. *)
Theorem concurrent_duplicate_answered_409 next clk c w userID row :
  reaches_store c userID ->
  well_formed (idempotency_request c userID) ->
  row_of (Fiber.pg w) (idempotency_request c userID) = Some row ->
  request_hash row = TrimSpace (RequestHash (idempotency_request c userID)) ->
  status row = "in_progress" ->
  Ratelimit.now_ns clk < locked_until row ->
  Middlewares.NewHTTPWithdrawIdempotencyMiddleware
    (Some (SQLXStore no_faults)) next clk c w =
    (None,
     Fiber.JSON Fiber.StatusConflict
       (Middlewares.error_body "request is already in progress") c,
     w).
Proof.
  intros (Hu & Ht & Hk) Hwf Hrow Hh Hst Hlock.
  assert (reads_commit no_faults) as Hrc by done.
  pose proof (acquire_in_progress no_faults (Ratelimit.now_ns clk) (Fiber.pg w)
                (idempotency_request c userID) row Hwf Hrc Hrow Hh Hst Hlock)
    as Ha.
  unfold Middlewares.NewHTTPWithdrawIdempotencyMiddleware.
  rewrite Hu. rewrite !bool_decide_eq_false_2 by done.
  fold (idempotency_request c userID). cbn zeta.
  change (Acquire (SQLXStore no_faults)) with (SQLXStore_Acquire no_faults).
  rewrite Ha. cbn. by rewrite set_pg_same.
Qed.

(** X14. When the response cannot be stored after the handler ran (the
    completing UPDATE fails), the client gets 500 with the
    persist-failure message in place of the handler's reply, while
    whatever the handler did to wallets and ledger stays, and the key
    stays in progress under its lock; once that lock has run out, the
    same request is acquired again. *)
Theorem failed_completion_keeps_handler_effects sf rf clk c w userID :
  reaches_store c userID ->
  well_formed (idempotency_request c userID) ->
  row_of (Fiber.pg w) (idempotency_request c userID) = None ->
  reads_commit sf -> insert_fails sf = false -> complete_exec_fails sf = true ->
  exists db1 c1 w1,
    SQLXStore_Acquire sf (Ratelimit.now_ns clk) (Fiber.pg w)
      (idempotency_request c userID) =
      (Ok (Decision_of_type DecisionAcquired), db1) /\
    Handlers.Handle rf clk c (Fiber.set_pg db1 w) = (None, c1, w1) /\
    Middlewares.NewHTTPWithdrawIdempotencyMiddleware
      (Some (SQLXStore sf)) (Handlers.Handle rf) clk c w =
      (None,
       Fiber.JSON Fiber.StatusInternalServerError
         (Middlewares.error_body "failed to persist idempotency response") c1,
       w1) /\
    row_of (Fiber.pg w1) (idempotency_request c userID) =
      Some (inserted (Ratelimit.now_ns clk)
              (Ratelimit.now_ns clk + defaultLockTTL)
              (TrimSpace (RequestHash (idempotency_request c userID)))) /\
    (forall now2,
       Ratelimit.now_ns clk + defaultLockTTL <= now2 ->
       reacquire_fails sf = false ->
       exists db2,
         SQLXStore_Acquire sf now2 (Fiber.pg w1) (idempotency_request c userID) =
           (Ok (Decision_of_type DecisionAcquired), db2)).
Proof.
  intros Hreach Hwf Hrow Hrc Hins Hcf.
  pose proof (acquire_fresh sf (Ratelimit.now_ns clk) (Fiber.pg w)
                (idempotency_request c userID) Hwf Hrc Hins Hrow) as Ha.
  set (db1 := set_withdraw_idempotency _ (Fiber.pg w)) in Ha.
  destruct (Handle_shape rf clk c (Fiber.set_pg db1 w))
    as (st & body & w1 & Hh & _ & Hidem & _).
  exists db1, (Fiber.JSON st body c), w1.
  split; [done|]. split; [done|].
  assert (row_of (Fiber.pg w1) (idempotency_request c userID) =
            Some (inserted (Ratelimit.now_ns clk)
                    (Ratelimit.now_ns clk + defaultLockTTL)
                    (TrimSpace (RequestHash (idempotency_request c userID)))))
    as Hrow1.
  { unfold row_of. rewrite Hidem. cbn. apply lookup_insert_eq. }
  split; [|split; [done|]].
  - rewrite (middleware_acquired (SQLXStore sf) (Handlers.Handle rf) clk c w userID
               (Decision_of_type DecisionAcquired) db1 Hreach Ha eq_refl).
    rewrite Hh. cbn.
    destruct Hwf as (Hs & Hk & Hhash).
    unfold SQLXStore_Complete. cbn in Hs, Hk, Hhash |- *.
    rewrite !bool_decide_eq_false_2 by done. rewrite Hcf.
    by rewrite set_pg_same.
  - intros now2 Hlate Hre. eexists.
    by apply (acquire_expired sf now2 (Fiber.pg w1) (idempotency_request c userID)
                _ Hwf Hrc Hre Hrow1).
Qed.

(** X25. The response stored is the reply sent: when a request on a key
    with no row goes through the middleware and the withdraw handler,
    with the store working, the key's row ends completed, with the
    request's hash and with the status code and body of the reply the
    client gets and its content type with surrounding whitespace
    removed, whatever the handler answered. *)
Theorem stored_response_is_reply rf clk c w userID :
  reaches_store c userID ->
  well_formed (idempotency_request c userID) ->
  row_of (Fiber.pg w) (idempotency_request c userID) = None ->
  exists c1 w1 row,
    Middlewares.NewHTTPWithdrawIdempotencyMiddleware
      (Some (SQLXStore no_faults)) (Handlers.Handle rf) clk c w = (None, c1, w1) /\
    row_of (Fiber.pg w1) (idempotency_request c userID) = Some row /\
    status row = "completed" /\
    request_hash row = TrimSpace (RequestHash (idempotency_request c userID)) /\
    response_status row = Some (Fiber.Status (Fiber.resp c1)) /\
    response_body row = Some (Fiber.RespBody (Fiber.resp c1)) /\
    response_content_type row = Some (TrimSpace (Fiber.Response_ContentType c1)) /\
    completed_at row = Some (Ratelimit.now_ns clk).
Proof.
  intros Hreach Hwf Hrow.
  assert (reads_commit no_faults) as Hrc by done.
  pose proof (acquire_fresh no_faults (Ratelimit.now_ns clk) (Fiber.pg w)
                (idempotency_request c userID) Hwf Hrc eq_refl Hrow) as Ha.
  set (db1 := set_withdraw_idempotency _ (Fiber.pg w)) in Ha.
  destruct (Handle_shape rf clk c (Fiber.set_pg db1 w))
    as (st & body & w1 & Hh & _ & Hidem & _).
  assert (row_of (Fiber.pg w1) (idempotency_request c userID) =
            Some (inserted (Ratelimit.now_ns clk)
                    (Ratelimit.now_ns clk + defaultLockTTL)
                    (TrimSpace (RequestHash (idempotency_request c userID)))))
    as Hrow1.
  { unfold row_of. rewrite Hidem. cbn. apply lookup_insert_eq. }
  rewrite (middleware_acquired (SQLXStore no_faults) (Handlers.Handle rf) clk c w
             userID (Decision_of_type DecisionAcquired) db1 Hreach Ha eq_refl).
  rewrite Hh. cbn [Complete SQLXStore].
  rewrite (complete_finds_row _ _ _ _ _ Hwf Hrow1 eq_refl).
  do 3 eexists. split; [reflexivity|]. split.
  - unfold row_of. cbn. apply lookup_insert_eq.
  - by repeat split.
Qed.

End GuardProperties.

(** ** The limiter: construction, windows, reset and keys *)

Section LimiterProperties.
Context `{Runtime}.

Import Ratelimit.

Variable tokenBucket slidingWindow :
  Clock -> gmap string RedisEntry -> string -> Config
  -> Res error Result * gmap string RedisEntry.

(** X15. New refuses a nil store, a limit that is not positive and a
    window that is not positive, and nothing else; the limiter it makes
    keeps the limit and the window, has a positive burst (the limit when
    none was given), a named algorithm (token bucket when none was
    given) and a key extractor, and is what New makes again from its own
    configuration. *)
Theorem New_validates_and_defaults store config keyExtractor :
  match New store config keyExtractor with
  | Ok l =>
      store = Some (l_store l) /\
      0 < cfg_Limit config /\ 0 < Window config /\
      cfg_Limit (l_config l) = cfg_Limit config /\
      Window (l_config l) = Window config /\
      0 < Burst (l_config l) /\
      (Burst (l_config l) = if Burst config <=? 0 then cfg_Limit config
                            else Burst config) /\
      Algorithm (l_config l) <> EmptyString /\
      (Algorithm config <> EmptyString -> Algorithm (l_config l) = Algorithm config) /\
      (Algorithm config = EmptyString -> Algorithm (l_config l) = AlgorithmTokenBucket) /\
      New store (l_config l) (Some (l_KeyExtractor l)) = Ok l
  | Err e =>
      (store = None /\ e = Wrapped "ratelimit: store is required") \/
      (store <> None /\ cfg_Limit config <= 0 /\
       e = Wrapped "ratelimit: limit must be positive") \/
      (store <> None /\ 0 < cfg_Limit config /\ Window config <= 0 /\
       e = Wrapped "ratelimit: window must be positive")
  end.
Proof.
  unfold New. destruct store as [s|]; [|by left].
  destruct (cfg_Limit config <=? 0) eqn:El.
  { apply Z.leb_le in El. right; left. done. }
  apply Z.leb_gt in El.
  destruct (Window config <=? 0) eqn:Ew.
  { apply Z.leb_le in Ew. right; right. done. }
  apply Z.leb_gt in Ew. cbn.
  assert (0 < (if Burst config <=? 0 then cfg_Limit config else Burst config))
    as Hb.
  { destruct (Burst config <=? 0) eqn:Eb; [done|]. by apply Z.leb_gt in Eb. }
  split; [done|]. do 4 (split; [done|]). split; [done|]. split; [done|].
  split; [by case_bool_decide|].
  split; [intros Hne; by rewrite bool_decide_eq_false_2|].
  split; [intros Heq; by rewrite bool_decide_eq_true_2|].
  destruct (cfg_Limit config <=? 0) eqn:El'; [apply Z.leb_le in El'; lia|].
  destruct (Window config <=? 0) eqn:Ew'; [apply Z.leb_le in Ew'; lia|].
  f_equal. f_equal. f_equal.
  - destruct (bool_decide (Algorithm config = EmptyString)) eqn:Ea; [done|].
    by rewrite Ea.
  - destruct (Burst config <=? 0) eqn:Eb; [by rewrite El'|by rewrite Eb].
Qed.

Lemma script_frame now st key limit window out :
  fixedWindow_script now st key limit window = Some out ->
  forall k, k <> key -> out.2 !! k = st !! k.
Proof.
  unfold fixedWindow_script. intros Hs k Hne.
  repeat case_match; simplify_eq/=;
    rewrite ?lookup_insert_ne, ?lookup_delete_ne, ?lookup_insert_ne by done;
    done.
Qed.

Lemma fixedWindow_frame clk st key config r st' :
  fixedWindow clk st key config = (r, st') ->
  forall k, k <> key -> st' !! k = st !! k.
Proof.
  unfold fixedWindow. intros Hf k Hne.
  destruct (eval_fails clk); [by simplify_eq|].
  destruct (fixedWindow_script (redis_now_ms clk) st key (cfg_Limit config)
              (Milliseconds (Window config))) as [[[[r0 r1] r2] st1]|] eqn:Hs;
    [|by simplify_eq].
  simplify_eq. by apply (script_frame _ _ _ _ _ _ Hs).
Qed.

Lemma window_at_least_1ms config :
  Idempotency.Millisecond <= Window config -> 1 <= Milliseconds (Window config).
Proof.
  unfold Idempotency.Millisecond, Milliseconds. intros Hw.
  rewrite Z.quot_div_nonneg by lia. apply Z.div_le_lower_bound; lia.
Qed.

(** While the counter is alive and at or over the limit, every call is
    turned away, counts one up and leaves the expiry where it was. *)
Lemma run_over_limit prefix config key ex clks :
  Algorithm config = AlgorithmFixedWindow ->
  forall n st,
    st !! (prefix +:+ ":" +:+ key) = Some (counter n ex) ->
    1 <= n -> cfg_Limit config <= n ->
    n + Z.of_nat (length clks) < max_int64 ->
    Forall (fun clk => redis_now_ms clk <= ex /\ eval_fails clk = false) clks ->
    exists rs st',
      AllowKey_run tokenBucket slidingWindow prefix config key clks st = (rs, st') /\
      Forall denied rs /\ length rs = length clks /\
      st' !! (prefix +:+ ":" +:+ key) =
        Some (counter (n + Z.of_nat (length clks)) ex).
Proof.
  intros Halg. induction clks as [|clk clks IH]; intros n st Hst Hn Hle Hmax Hall.
  - exists [], st. cbn. rewrite Z.add_0_r. by repeat split.
  - inversion Hall as [|? ? [Hnow Hev] Hall']; subst.
    cbn [length] in Hmax. cbn [AllowKey_run].
    rewrite AllowKey_fixed by done. unfold fixedWindow. rewrite Hev.
    rewrite (script_next _ _ _ _ _ n ex) by (done || lia).
    destruct (n + 1 <=? cfg_Limit config) eqn:E; [apply Z.leb_le in E; lia|].
    cbn.
    destruct (IH (n + 1) (<[prefix +:+ ":" +:+ key := counter (n + 1) ex]> st))
      as (rs & st' & Hrun & Hrs & Hlen & Hst'); try done; try lia.
    { apply lookup_insert_eq. }
    rewrite Hrun. do 2 eexists. split; [reflexivity|]. split; [|split].
    + constructor; [|done]. eexists. by repeat split.
    + cbn. by rewrite Hlen.
    + rewrite Hst'. f_equal. f_equal. cbn [length]. lia.
Qed.

(** X16. Under the fixed-window algorithm, with a limit below 2^53
    (where the script's numbers are exact), requests made while the
    counter is at or over the limit are all turned away with nothing
    remaining, and they do not move the end of the window: the counter
    keeps the expiry it had, and the first request made after that
    expiry is let through as the first of a new window that starts at
    that request. *)
Theorem denied_requests_do_not_extend_window
  prefix config key st n ex clks clk_next :
  Algorithm config = AlgorithmFixedWindow ->
  1 <= cfg_Limit config <= n ->
  cfg_Limit config < 2 ^ 53 ->
  n + Z.of_nat (length clks) < max_int64 ->
  Idempotency.Millisecond <= Window config ->
  st !! (prefix +:+ ":" +:+ key) = Some (counter n ex) ->
  Forall (fun clk => redis_now_ms clk <= ex /\ eval_fails clk = false) clks ->
  ex < redis_now_ms clk_next ->
  eval_fails clk_next = false ->
  exists rs st1 res st2,
    AllowKey_run tokenBucket slidingWindow prefix config key clks st = (rs, st1) /\
    Forall denied rs /\ length rs = length clks /\
    st1 !! (prefix +:+ ":" +:+ key) =
      Some (counter (n + Z.of_nat (length clks)) ex) /\
    AllowKey tokenBucket slidingWindow prefix config clk_next st1 key = (Ok res, st2) /\
    Allowed res = true /\ Remaining res = cfg_Limit config - 1 /\
    st2 !! (prefix +:+ ":" +:+ key) =
      Some (counter 1 (redis_now_ms clk_next + Milliseconds (Window config))).
Proof.
  intros Halg [Hl1 Hl2] Hexact Hmax Hw Hst Hall Hnext Hev.
  destruct (run_over_limit prefix config key ex clks Halg n st)
    as (rs & st1 & Hrun & Hrs & Hlen & Hst1); try done; try lia.
  pose proof (window_at_least_1ms config Hw) as Hwin.
  exists rs, st1. 
  assert (redis_get (redis_now_ms clk_next) st1 (prefix +:+ ":" +:+ key) = None)
    as Hget.
  { unfold redis_get. rewrite Hst1. unfold expired. cbn.
    by destruct (ex <? redis_now_ms clk_next) eqn:E; [|apply Z.ltb_ge in E; lia]. }
  rewrite AllowKey_fixed by done. unfold fixedWindow. rewrite Hev.
  rewrite script_first by done.
  destruct (1 <=? cfg_Limit config) eqn:E; [|apply Z.leb_gt in E; lia].
  do 2 eexists. split; [done|]. split; [done|]. split; [done|]. split; [done|].
  split; [reflexivity|]. split; [done|]. split; [done|]. apply lookup_insert_eq.
Qed.

(** X17. ResetKey deletes the counter of the key and nothing else; under
    the fixed-window algorithm with a limit below 2^53 (where the
    script's numbers are exact) the next request on the key is then let
    through as the first of a new window, whatever the key held before.
    A DEL that fails returns the error and leaves the keyspace as it
    was. *)
Theorem reset_opens_fresh_window l st key clk :
  Algorithm (l_config l) = AlgorithmFixedWindow ->
  1 <= cfg_Limit (l_config l) < 2 ^ 53 ->
  Idempotency.Millisecond <= Window (l_config l) ->
  eval_fails clk = false ->
  exists st1 res st2,
    ResetKey false l st key = (None, st1) /\
    (forall k, k <> rs_prefix (l_store l) +:+ ":" +:+ key -> st1 !! k = st !! k) /\
    Limiter_AllowKey (limiter_Limiter tokenBucket slidingWindow l) clk st1 key
      = (Ok res, st2) /\
    Allowed res = true /\ Remaining res = cfg_Limit (l_config l) - 1 /\
    (exists e, ResetKey true l st key = (Some e, st)).
Proof.
  intros Halg [Hl Hexact] Hw Hev.
  pose proof (window_at_least_1ms _ Hw) as Hwin.
  unfold ResetKey, RedisStore_Reset. cbn.
  do 3 eexists. split; [reflexivity|].
  split; [intros k Hne; by rewrite lookup_delete_ne|].
  rewrite AllowKey_fixed by done. unfold fixedWindow. rewrite Hev.
  rewrite script_first; [|unfold redis_get; by rewrite lookup_delete_eq|done].
  destruct (1 <=? cfg_Limit (l_config l)) eqn:E; [|apply Z.leb_gt in E; lia].
  split; [reflexivity|]. split; [done|]. split; [done|]. by eexists.
Qed.

End LimiterProperties.

(** ** Rate-limit keys and the rate-limit middleware *)

Section KeyProperties.
Context `{Runtime}.

Import Ratelimit.

Variable tokenBucket slidingWindow :
  Clock -> gmap string RedisEntry -> string -> Config
  -> Res error Result * gmap string RedisEntry.

Lemma app_cons a s t : String a s +:+ t = String a (s +:+ t).
Proof. reflexivity. Qed.

Lemma app_assoc_string s1 s2 s3 : (s1 +:+ s2) +:+ s3 = s1 +:+ (s2 +:+ s3).
Proof.
  induction s1 as [|a s1 IH]; [reflexivity|].
  rewrite !app_cons. by rewrite IH.
Qed.

Lemma joinKeys_loop_app ps :
  forall i j r s,
    (0 < i)%nat -> (0 < j)%nat ->
    joinKeys_loop i (r +:+ s) ps = r +:+ joinKeys_loop j s ps.
Proof.
  induction ps as [|p ps IH]; intros i j r s Hi Hj; [reflexivity|].
  cbn [joinKeys_loop].
  destruct i as [|i]; [lia|]. destruct j as [|j]; [lia|].
  cbn [Nat.ltb Nat.leb].
  rewrite <- (IH (S (S i)) (S (S j)) r ((s +:+ ":") +:+ p)) by lia.
  by rewrite !app_assoc_string.
Qed.

Lemma composite_loop_ok extractors ctx :
  forall parts new,
    Forall2 (fun (ext : KeyExtractor) p => ext ctx = Ok p) extractors new ->
    composite_loop extractors ctx parts = Ok (parts ++ new)%list.
Proof.
  induction extractors as [|ext extractors IH]; intros parts new Hall.
  - inversion Hall; subst. cbn. by rewrite app_nil_r.
  - inversion Hall as [|? p ? new' Hp Hall']; subst. cbn. rewrite Hp.
    rewrite (IH _ new' Hall'). by rewrite <- app_assoc.
Qed.

Lemma composite_loop_err before :
  forall parts (ext : KeyExtractor) after ctx err,
    Forall (fun ext' : KeyExtractor => exists p, ext' ctx = Ok p) before ->
    ext ctx = Err err ->
    composite_loop (before ++ ext :: after) ctx parts = Err err.
Proof.
  induction before as [|b before IH]; intros parts ext after ctx err Hall Herr.
  - cbn. by rewrite Herr.
  - inversion Hall as [|? ? [p Hp] Hall']; subst. cbn. rewrite Hp.
    by apply IH.
Qed.

(** X18. The composite extractor runs its extractors in order: when all
    of them give a key it returns these keys joined by colons, in order,
    and when one fails it returns the error of the first that fails.
    Joining no keys gives the empty string, and joining one key gives
    that key. *)
Theorem composite_key_joins_parts extractors ctx :
  (forall parts,
     Forall2 (fun (ext : KeyExtractor) p => ext ctx = Ok p) extractors parts ->
     CompositeKeyExtractor extractors ctx = Ok (joinKeys parts)) /\
  (forall before (ext : KeyExtractor) after err,
     extractors = (before ++ ext :: after)%list ->
     Forall (fun ext' : KeyExtractor => exists p, ext' ctx = Ok p) before ->
     ext ctx = Err err ->
     CompositeKeyExtractor extractors ctx = Err err) /\
  joinKeys [] = EmptyString /\
  (forall p, joinKeys [p] = p) /\
  (forall p q ps, joinKeys (p :: q :: ps) = p +:+ ":" +:+ joinKeys (q :: ps)).
Proof.
  split; [|split; [|split; [|split]]].
  - intros parts Hall. unfold CompositeKeyExtractor.
    by rewrite (composite_loop_ok _ _ [] parts Hall).
  - intros before ext after err -> Hall Herr. unfold CompositeKeyExtractor.
    by rewrite (composite_loop_err before [] ext after ctx err Hall Herr).
  - reflexivity.
  - reflexivity.
  - intros p q ps. unfold joinKeys. cbn [joinKeys_loop Nat.ltb Nat.leb].
    change (EmptyString +:+ p) with p. change (EmptyString +:+ q) with q.
    rewrite app_assoc_string.
    rewrite (joinKeys_loop_app ps 2 2 p (":" +:+ q)) by lia.
    by rewrite (joinKeys_loop_app ps 2 1 ":" q) by lia.
Qed.

Lemma user_key_not_ip_key u ip : ":user:" +:+ u <> ":ip:" +:+ ip.
Proof. rewrite !app_cons. discriminate. Qed.

(** X19. The per-user key of the withdraw route tells users apart: a
    request whose key equals that of an authenticated user comes from
    that same authenticated user, never from another user or from an
    anonymous address. Under the fixed-window algorithm a request counted
    on one user's key leaves the counter of every other request's key as
    it was. *)
Theorem users_do_not_share_counters prefix c1 c2 u1 :
  Fiber.Locals_user_id (Fiber.req c1) = Some u1 ->
  u1 <> EmptyString ->
  (Middlewares.PerUserKeyExtractor prefix c1 =
     Middlewares.PerUserKeyExtractor prefix c2 ->
   Fiber.Locals_user_id (Fiber.req c2) = Some u1) /\
  (forall storePrefix config clk st r st',
     Algorithm config = AlgorithmFixedWindow ->
     Fiber.Locals_user_id (Fiber.req c2) <> Some u1 ->
     AllowKey tokenBucket slidingWindow storePrefix config clk st
       (Middlewares.PerUserKeyExtractor prefix c1) = (r, st') ->
     st' !! (storePrefix +:+ ":" +:+ Middlewares.PerUserKeyExtractor prefix c2) =
       st !! (storePrefix +:+ ":" +:+ Middlewares.PerUserKeyExtractor prefix c2)).
Proof.
  intros Hu1 Hne1.
  assert (Middlewares.PerUserKeyExtractor prefix c1 =
            Middlewares.PerUserKeyExtractor prefix c2 ->
          Fiber.Locals_user_id (Fiber.req c2) = Some u1) as Hinj.
  { unfold Middlewares.PerUserKeyExtractor. rewrite Hu1.
    rewrite (bool_decide_eq_true_2 _ Hne1).
    destruct (Fiber.Locals_user_id (Fiber.req c2)) as [u2|].
    - case_bool_decide.
      + intros Heq. apply (inj (String.app prefix)) in Heq.
        apply (inj (String.app ":user:")) in Heq. by subst.
      + intros Heq. apply (inj (String.app prefix)) in Heq.
        by apply user_key_not_ip_key in Heq.
    - intros Heq. apply (inj (String.app prefix)) in Heq.
      by apply user_key_not_ip_key in Heq. }
  split; [done|].
  intros storePrefix config clk st r st' Halg Hother Hallow.
  rewrite AllowKey_fixed in Hallow by done.
  destruct (fixedWindow clk st
              (storePrefix +:+ ":" +:+ Middlewares.PerUserKeyExtractor prefix c1)
              config) as [r1 st1] eqn:Hf.
  assert (st' = st1) as -> by (destruct r1; by simplify_eq).
  apply (fixedWindow_frame _ _ _ _ _ _ Hf).
  intros Heq. apply (inj (String.app storePrefix)) in Heq.
  apply (inj (String.app ":")) in Heq. symmetry in Heq. auto.
Qed.

(** X20. The rate-limit middleware fails closed: when the limiter
    cannot decide, because the script call fails or the key holds
    something that is not a counter, the request is answered 500 with
    the fixed internal-error body, the rest of the chain is not run and
    the stores are left as they were. *)
Theorem limiter_failure_fails_closed l keyExtractor next clk c w :
  Algorithm (l_config l) = AlgorithmFixedWindow ->
  (eval_fails clk = true \/
   exists e,
     redis_get (redis_now_ms clk) (Fiber.rd w)
       (rs_prefix (l_store l) +:+ ":" +:+ keyExtractor c) = Some e /\
     value e = VOther) ->
  Middlewares.NewHTTPRateLimitMiddleware
    {| Middlewares.Limiter := Some (limiter_Limiter tokenBucket slidingWindow l);
       Middlewares.Skipper := None;
       Middlewares.KeyExtractor := Some keyExtractor |} next clk c w =
    (None,
     Fiber.JSON Fiber.StatusInternalServerError
       (Middlewares.error_body "internal server error") c,
     w).
Proof.
  intros Halg Hfail. unfold Middlewares.NewHTTPRateLimitMiddleware. cbn.
  rewrite AllowKey_fixed by done. unfold fixedWindow.
  destruct Hfail as [-> | (e & Hget & Hval)].
  - by destruct w.
  - destruct (eval_fails clk); [by destruct w|].
    unfold fixedWindow_script. rewrite Hget, Hval. by destruct w.
Qed.

Lemma Set_header key val c :
  key <> Fiber.HeaderContentType ->
  Fiber.Set_ key val c =
    {| Fiber.req := Fiber.req c;
       Fiber.resp :=
         {| Fiber.Status := Fiber.Status (Fiber.resp c);
            Fiber.ContentTypeHeader := Fiber.ContentTypeHeader (Fiber.resp c);
            Fiber.RespHeaders := <[key := val]> (Fiber.RespHeaders (Fiber.resp c));
            Fiber.RespBody := Fiber.RespBody (Fiber.resp c) |} |}.
Proof. intros Hne. unfold Fiber.Set_. by rewrite bool_decide_eq_false_2. Qed.

(** X21. The rate-limit middleware lets a request through untouched
    when no limiter is configured or the skipper selects the request,
    without asking the limiter; and when the limiter allows the request,
    the rest of the chain runs on the same request with the limit, the
    remaining count and the reset time (in Unix seconds) set as
    X-RateLimit headers, and on the keyspace the limiter left. *)
Theorem allowed_request_carries_quota_headers cfg next clk c w :
  (Middlewares.Limiter cfg = None ->
   Middlewares.NewHTTPRateLimitMiddleware cfg next clk c w = next clk c w) /\
  (forall skipper,
     Middlewares.Skipper cfg = Some skipper -> skipper c = true ->
     Middlewares.NewHTTPRateLimitMiddleware cfg next clk c w = next clk c w) /\
  (forall limiter result st',
     Middlewares.Limiter cfg = Some limiter ->
     default (fun _ => false) (Middlewares.Skipper cfg) c = false ->
     Limiter_AllowKey limiter clk (Fiber.rd w)
       (default Middlewares.defaultKeyExtractor (Middlewares.KeyExtractor cfg) c)
       = (Ok result, st') ->
     Allowed result = true ->
     exists c',
       Middlewares.NewHTTPRateLimitMiddleware cfg next clk c w =
         next clk c' (Fiber.set_rd st' w) /\
       Fiber.req c' = Fiber.req c /\
       Fiber.Status (Fiber.resp c') = Fiber.Status (Fiber.resp c) /\
       Fiber.RespBody (Fiber.resp c') = Fiber.RespBody (Fiber.resp c) /\
       Fiber.RespHeaders (Fiber.resp c') !! "X-RateLimit-Limit" =
         Some (Middlewares.FormatInt (Limit result)) /\
       Fiber.RespHeaders (Fiber.resp c') !! "X-RateLimit-Remaining" =
         Some (Middlewares.FormatInt (Remaining result)) /\
       Fiber.RespHeaders (Fiber.resp c') !! "X-RateLimit-Reset" =
         Some (Middlewares.FormatInt (Middlewares.Unix (ResetAt result)))).
Proof.
  unfold Middlewares.NewHTTPRateLimitMiddleware. split; [|split].
  - by intros ->.
  - intros skipper Hs Hskip. destruct (Middlewares.Limiter cfg); [|done].
    rewrite Hs. cbn. by rewrite Hskip.
  - intros limiter result st' -> Hskip Hallow Hal. cbn zeta.
    rewrite Hskip, Hallow, Hal. cbn [negb].
    eexists. split; [reflexivity|].
    rewrite !Set_header by done. cbn.
    repeat split.
    + rewrite lookup_insert_ne by done. rewrite lookup_insert_ne by done.
      apply lookup_insert_eq.
    + rewrite lookup_insert_ne by done. apply lookup_insert_eq.
    + apply lookup_insert_eq.
Qed.

End KeyProperties.

(** ** The providers of package app *)

Section BootstrapProperties.
Context `{Runtime}.

Import Bootstrap.

(** X22. With a Redis client, the withdraw rate limiter is built for
    every configuration: limit, window and burst that are missing, zero
    or negative become 20 requests, one minute and the limit, so that
    New never refuses them; the algorithm is one of the three named
    ones and the keys go under the prefix withdraw-api:withdraw. Without
    a client the provider returns its error. *)
Theorem withdraw_rate_limiter_always_builds cfg :
  (forall client,
     exists l,
       provideWithdrawRateLimiter cfg (Some client) = Ok l /\
       Ratelimit.rs_prefix (Ratelimit.l_store l) = "withdraw-api:withdraw" /\
       Ratelimit.cfg_Limit (Ratelimit.l_config l) =
         (if Config.GetInt cfg "rate_limit.withdraw.limit" <=? 0 then 20
          else Config.GetInt cfg "rate_limit.withdraw.limit") /\
       Ratelimit.Window (Ratelimit.l_config l) =
         (if Config.GetDuration cfg "rate_limit.withdraw.window" <=? 0 then Minute
          else Config.GetDuration cfg "rate_limit.withdraw.window") /\
       Ratelimit.Burst (Ratelimit.l_config l) =
         (if Config.GetInt cfg "rate_limit.withdraw.burst" <=? 0
          then Ratelimit.cfg_Limit (Ratelimit.l_config l)
          else Config.GetInt cfg "rate_limit.withdraw.burst") /\
       1 <= Ratelimit.cfg_Limit (Ratelimit.l_config l) /\
       1 <= Ratelimit.Window (Ratelimit.l_config l) /\
       1 <= Ratelimit.Burst (Ratelimit.l_config l) /\
       (Ratelimit.Algorithm (Ratelimit.l_config l) = Ratelimit.AlgorithmTokenBucket \/
        Ratelimit.Algorithm (Ratelimit.l_config l) = Ratelimit.AlgorithmSlidingWindow \/
        Ratelimit.Algorithm (Ratelimit.l_config l) = Ratelimit.AlgorithmFixedWindow)) /\
  provideWithdrawRateLimiter cfg None =
    Err (Wrapped "app: redis client is required for withdraw rate limiter").
Proof.
  split; [|reflexivity]. intros client. unfold provideWithdrawRateLimiter.
  set (limit := if Config.GetInt cfg "rate_limit.withdraw.limit" <=? 0 then 20
                else Config.GetInt cfg "rate_limit.withdraw.limit").
  set (window := if Config.GetDuration cfg "rate_limit.withdraw.window" <=? 0
                 then Minute
                 else Config.GetDuration cfg "rate_limit.withdraw.window").
  set (burst := if Config.GetInt cfg "rate_limit.withdraw.burst" <=? 0 then limit
                else Config.GetInt cfg "rate_limit.withdraw.burst").
  assert (1 <= limit) as Hl.
  { unfold limit.
    destruct (Config.GetInt cfg "rate_limit.withdraw.limit" <=? 0) eqn:E;
      [lia|apply Z.leb_gt in E; lia]. }
  assert (1 <= window) as Hw.
  { unfold window.
    destruct (Config.GetDuration cfg "rate_limit.withdraw.window" <=? 0) eqn:E;
      [unfold Minute, Idempotency.Second; lia|apply Z.leb_gt in E; lia]. }
  assert (1 <= burst) as Hb.
  { unfold burst.
    destruct (Config.GetInt cfg "rate_limit.withdraw.burst" <=? 0) eqn:E;
      [done|apply Z.leb_gt in E; lia]. }
  unfold Ratelimit.New. cbn.
  destruct (limit <=? 0) eqn:El; [apply Z.leb_le in El; lia|].
  destruct (window <=? 0) eqn:Ew; [apply Z.leb_le in Ew; lia|].
  eexists. split; [reflexivity|]. cbn.
  destruct (burst <=? 0) eqn:Eb; [apply Z.leb_le in Eb; lia|].
  do 4 (split; [done|]). do 3 (split; [done|]).
  unfold App.parseRateLimitAlgorithm. repeat case_bool_decide; auto.
Qed.

Lemma length_app_string s t :
  String.length (s +:+ t) = (String.length s + String.length t)%nat.
Proof. induction s as [|a s IH]; [done|]. cbn. by rewrite <- IH. Qed.

Lemma length_Repeat_x n : String.length (Repeat "x" n) = n.
Proof.
  induction n as [|n IH]; [done|].
  cbn [Repeat]. rewrite length_app_string. cbn. by rewrite IH.
Qed.

Lemma padded_secret_length s :
  (32 <= String.length
           (if (String.length s <? 32)%nat
            then s +:+ Repeat "x" (32 - String.length s) else s))%nat.
Proof.
  destruct (String.length s <? 32)%nat eqn:E.
  - apply Nat.ltb_lt in E. rewrite length_app_string, length_Repeat_x. lia.
  - by apply Nat.ltb_ge in E.
Qed.

Lemma New_keeps_options opts m :
  Jwt.New opts = Ok m ->
  Jwt.ttl m = Jwt.TTL opts /\ Jwt.issuer m = Jwt.Issuer opts.
Proof.
  unfold Jwt.New, Jwt.NewHMAC. repeat case_match; try done. by intros [= <-].
Qed.

Lemma provided_manager_fields cfg m :
  provideJWTTokenManager cfg = Ok m ->
  0 < Jwt.ttl m /\
  Jwt.issuer m = Config.GetString cfg "security.jwt.issuer".
Proof.
  unfold provideJWTTokenManager.
  match goal with
  | |- context [Jwt.New ?opts] =>
      destruct (Jwt.New opts) as [m'|e] eqn:Hn; [|done];
      apply New_keeps_options in Hn as [Httl Hiss]
  end.
  intros [= <-]. rewrite Httl, Hiss. cbn. split; [|done].
  destruct (Config.GetDuration cfg "security.jwt.ttl" <=? 0) eqn:E;
    [done|by apply Z.leb_gt in E].
Qed.

(** X23. The JWT token manager is built for every configuration: the
    secret in use has at least 32 bytes (a shorter configured secret is
    padded, a missing one replaced), so NewHMAC never refuses it; the
    manager signs with HS256 and has a positive time to live, 15
    minutes when none is configured. *)
Theorem jwt_manager_always_builds cfg :
  exists m,
    provideJWTTokenManager cfg = Ok m /\
    (32 <= String.length (Jwt.secret m))%nat /\
    Jwt.method m = Jwt.SigningMethodHS256 /\
    Jwt.issuer m = Config.GetString cfg "security.jwt.issuer" /\
    0 < Jwt.ttl m /\
    Jwt.ttl m =
      (if Config.GetDuration cfg "security.jwt.ttl" <=? 0 then 15 * Minute
       else Config.GetDuration cfg "security.jwt.ttl").
Proof.
  unfold provideJWTTokenManager.
  set (s0 := if bool_decide (_ = EmptyString)
             then "change-me-please-use-strong-secret-in-production" else _).
  pose proof (padded_secret_length s0) as Hlen.
  set (s := if (String.length s0 <? 32)%nat then _ else s0) in *.
  assert ((String.length s =? 0)%nat = false) as E0 by (apply Nat.eqb_neq; lia).
  assert ((String.length s <? 32)%nat = false) as E1 by (apply Nat.ltb_ge; lia).
  unfold Jwt.New, Jwt.NewHMAC.
  cbn [Jwt.Strategy Jwt.Secret Jwt.Algorithm Jwt.Issuer Jwt.Audience Jwt.TTL].
  rewrite E0, E1. cbn.
  eexists. split; [reflexivity|]. cbn. do 3 (split; [done|]).
  split; [|done].
  destruct (_ <=? 0) eqn:E; [done|by apply Z.leb_gt in E].
Qed.

(** X24. Every login token expires: for the manager the application
    builds, the registered claims that Sign makes for a login (claims
    holding only the subject) carry that subject, an issued-at of the
    signing time and an expiry of the signing time plus the manager's
    positive time to live, and reading them back gives claims with the
    same subject and that expiry. *)
Theorem login_tokens_expire NewNumericDate cfg m now subject :
  provideJWTTokenManager cfg = Ok m ->
  let registered :=
    Jwt.Sign_registered NewNumericDate m now (Jwt.Claims_of_subject subject) in
  Jwt.r_Subject registered = subject /\
  Jwt.r_IssuedAt registered = Some (NewNumericDate now) /\
  Jwt.r_ExpiresAt registered = Some (NewNumericDate (now + Jwt.ttl m)) /\
  0 < Jwt.ttl m /\
  Jwt.r_NotBefore registered = None /\
  Jwt.r_Issuer registered = Config.GetString cfg "security.jwt.issuer" /\
  Jwt.Subject (Jwt.registeredToClaims registered) = subject /\
  Jwt.ExpiresAt (Jwt.registeredToClaims registered) =
    NewNumericDate (now + Jwt.ttl m).
Proof.
  intros Hm. destruct (provided_manager_fields cfg m Hm) as [Httl Hiss].
  cbn. unfold Jwt.Sign_registered. cbn.
  destruct (0 <? Jwt.ttl m) eqn:E; [|apply Z.ltb_ge in E; lia].
  by repeat split.
Qed.

(** A token manager exists only for the strategy hmac with a secret of
    at least 32 bytes and one of the algorithm names HS256 (also chosen
    for the empty name), HS384 and HS512; it then keeps the secret,
    issuer, audience and time to live it was given. *)
Lemma hmac_manager_needs_long_secret opts :
  match Jwt.New opts with
  | Ok m =>
      Jwt.Strategy opts = Jwt.StrategyHMAC /\
      (32 <= String.length (Jwt.Secret opts))%nat /\
      Jwt.resolveHMACMethod (Jwt.Algorithm opts) = Ok (Jwt.method m) /\
      (Jwt.method m = Jwt.SigningMethodHS256 <->
         Jwt.Algorithm opts = EmptyString \/ Jwt.Algorithm opts = "HS256") /\
      Jwt.secret m = Jwt.Secret opts /\ Jwt.issuer m = Jwt.Issuer opts /\
      Jwt.audience m = Jwt.Audience opts /\ Jwt.ttl m = Jwt.TTL opts
  | Err _ =>
      Jwt.Strategy opts <> Jwt.StrategyHMAC \/
      (String.length (Jwt.Secret opts) < 32)%nat \/
      (Jwt.Algorithm opts <> EmptyString /\ Jwt.Algorithm opts <> "HS256" /\
       Jwt.Algorithm opts <> "HS384" /\ Jwt.Algorithm opts <> "HS512")
  end.
Proof.
  unfold Jwt.New. case_bool_decide as Hs; [|by left].
  unfold Jwt.NewHMAC.
  destruct (String.length (Jwt.Secret opts) =? 0)%nat eqn:E0.
  { apply Nat.eqb_eq in E0. right; left. lia. }
  destruct (String.length (Jwt.Secret opts) <? 32)%nat eqn:E1.
  { apply Nat.ltb_lt in E1. right; left. lia. }
  apply Nat.ltb_ge in E1.
  unfold Jwt.resolveHMACMethod.
  destruct (bool_decide (Jwt.Algorithm opts = EmptyString)) eqn:Ea;
    [apply bool_decide_eq_true in Ea|apply bool_decide_eq_false in Ea].
  { cbn. repeat split; auto. }
  destruct (bool_decide (Jwt.Algorithm opts = "HS256")) eqn:Eb;
    [apply bool_decide_eq_true in Eb|apply bool_decide_eq_false in Eb].
  { cbn. repeat split; auto. }
  cbn.
  case_bool_decide as Ec.
  { cbn. repeat split; try done. intros [?|?]; done. }
  case_bool_decide as Ed.
  { cbn. repeat split; try done. intros [?|?]; done. }
  right; right. done.
Qed.

(** X26. Started as a single binary (the bin name is blank or all, in
    any case and with any surrounding whitespace), every module opens
    the same data source: the module's own database keys are not read.
    Started as a module binary, a module's own key, when set, is the one
    that is read. *)
Theorem single_binary_shares_database_settings cfg bin :
  (isSingleBinaryBin bin = true ->
   forall module1 module2,
     providePostgresSQLXForModule_dsn cfg bin module1 =
       providePostgresSQLXForModule_dsn cfg bin module2) /\
  (isSingleBinaryBin bin = false ->
   forall module key,
     Config.IsSet cfg ("database." +:+ module +:+ "." +:+ key) = true ->
     moduleDBString cfg module key (negb (isSingleBinaryBin bin)) =
       Config.GetString cfg ("database." +:+ module +:+ "." +:+ key) /\
     moduleDBInt cfg module key (negb (isSingleBinaryBin bin)) =
       Config.GetInt cfg ("database." +:+ module +:+ "." +:+ key)).
Proof.
  split.
  - intros Hs module1 module2. unfold providePostgresSQLXForModule_dsn.
    rewrite Hs. reflexivity.
  - intros Hs module key Hset. rewrite Hs. unfold moduleDBString, moduleDBInt.
    cbn. by rewrite Hset.
Qed.

End BootstrapProperties.

(** ** Authentication: the bearer-token middleware and the login *)

Section AuthProperties.
Context `{Runtime}.

Variable EqualFold : string -> string -> bool.

(** X27. The bearer-token middleware lets a request reach the rest of
    the chain in two ways only: as a POST whose path contains
    /auth/login, untouched; or with an Authorization header made of a
    scheme that equals Bearer up to case, a space and a token that the
    token manager verifies, and then user_id is set to the subject of
    the verified claims. Every other request is answered 401 with the
    stores left as they were. *)
Theorem bearer_token_guard tokenManager next clk c w :
  (Fiber.Method (Fiber.req c) = Fiber.MethodPost ->
   Middlewares.Contains (Fiber.Path (Fiber.req c)) "/auth/login" = true ->
   Middlewares.NewHTTPJWTMiddleware EqualFold tokenManager next clk c w =
     next clk c w) /\
  (Fiber.Method (Fiber.req c) <> Fiber.MethodPost \/
   Middlewares.Contains (Fiber.Path (Fiber.req c)) "/auth/login" = false ->
   (exists scheme rest claims,
      Middlewares.SplitN_space_2
        (TrimSpace (Fiber.Get c Fiber.HeaderAuthorization)) = [scheme; rest] /\
      EqualFold scheme "Bearer" = true /\
      TrimSpace rest <> EmptyString /\
      Jwt.Verify tokenManager (Ratelimit.now_ns clk) (TrimSpace rest) = Ok claims /\
      Middlewares.NewHTTPJWTMiddleware EqualFold tokenManager next clk c w =
        next clk (Fiber.set_Locals_user_id (Jwt.Subject claims) c) w) \/
   (exists msg,
      Middlewares.NewHTTPJWTMiddleware EqualFold tokenManager next clk c w =
        (None,
         Fiber.JSON Fiber.StatusUnauthorized (Middlewares.error_body msg) c,
         w))).
Proof.
  unfold Middlewares.NewHTTPJWTMiddleware. split.
  - intros Hm Hc. rewrite (bool_decide_eq_true_2 _ Hm), Hc. reflexivity.
  - intros Hno.
    assert (bool_decide (Fiber.Method (Fiber.req c) = Fiber.MethodPost)
            && Middlewares.Contains (Fiber.Path (Fiber.req c)) "/auth/login"
            = false) as ->.
    { destruct Hno as [Hm| ->]; [|apply andb_false_r].
      by rewrite (bool_decide_eq_false_2 _ Hm). }
    cbn zeta.
    destruct (Middlewares.SplitN_space_2
                (TrimSpace (Fiber.Get c Fiber.HeaderAuthorization)))
      as [|scheme [|rest [|? ?]]] eqn:Hsplit; try (right; by eexists).
    destruct (EqualFold scheme "Bearer") eqn:Hfold; cbn [negb];
      [|right; by eexists].
    case_bool_decide as Htok; [right; by eexists|].
    destruct (Jwt.Verify tokenManager (Ratelimit.now_ns clk) (TrimSpace rest))
      as [claims|e] eqn:Hv; [|right; by eexists].
    left. by exists scheme, rest, claims.
Qed.

Variable sql_lower : string -> string.

(** X28. A login succeeds only for a user row whose lower-cased email
    equals the normalised email given, whose status is active and whose
    stored hash the hasher accepts for the password given; the token
    returned is the one signed for that row's id, of type Bearer. A
    login that fails for any other reason than a failing query or
    signature (blank input, unknown email, inactive user, wrong
    password) returns one and the same error, invalid credentials. *)
Theorem login_needs_matching_password
  hasher tokenManager query_fails now users email password :
  match Auth.Login sql_lower hasher tokenManager query_fails now users
          email password with
  | Ok r =>
      Auth.TokenType r = "Bearer" /\
      TrimSpace password <> EmptyString /\
      query_fails = false /\
      exists u,
        In u users /\
        sql_lower (Auth.u_email u) =
          TrimSpace (ToLower (TrimSpace (ToLower email))) /\
        Auth.u_status u = "active" /\
        Hash.Compare hasher (Auth.u_password_hash u) password = None /\
        Jwt.Sign tokenManager now (Jwt.Claims_of_subject (Auth.u_id u)) =
          Ok (Auth.AccessToken r)
  | Err e =>
      e = Auth.ErrInvalidCredentials \/
      (e = Auth.AuthWrapped "repository: get user auth by email failed" /\
       query_fails = true) \/
      (e = Auth.AuthWrapped "service: failed to issue token" /\
       exists u err,
         In u users /\ Auth.u_status u = "active" /\
         Hash.Compare hasher (Auth.u_password_hash u) password = None /\
         Jwt.Sign tokenManager now (Jwt.Claims_of_subject (Auth.u_id u)) =
           Err err)
  end.
Proof.
  unfold Auth.Login.
  case_bool_decide as He; [by left|].
  case_bool_decide as Hp; [by left|]. cbn [orb].
  unfold Auth.GetUserAuthByEmail.
  case_bool_decide as He2; [by left|].
  destruct query_fails; [right; left; done|].
  destruct (List.find _ users) as [row|] eqn:Hfind; [|by left].
  apply find_some in Hfind as [Hin Hmatch].
  apply bool_decide_eq_true in Hmatch.
  case_bool_decide as Hst; [by left|].
  assert (Auth.u_status row = "active") as Hactive.
  { destruct (decide (Auth.u_status row = "active")); [done|]. by destruct Hst. }
  cbn.
  destruct (Hash.Compare hasher (Auth.u_password_hash row) password)
    as [cmpErr|] eqn:Hcmp; [by left|].
  destruct (Jwt.Sign tokenManager now (Jwt.Claims_of_subject (Auth.u_id row)))
    as [token|signErr] eqn:Hsign.
  - cbn. split; [done|]. split; [done|]. split; [done|]. by exists row.
  - right; right. split; [done|]. by exists row, signErr.
Qed.

End AuthProperties.

(** ** Extracted keys, and the order of the withdraw route *)

Section RouteOrderProperties.
Context `{Runtime}.

Import Ratelimit.

Variable tokenBucket slidingWindow :
  Clock -> gmap string RedisEntry -> string -> Config
  -> Res error Result * gmap string RedisEntry.

(** X29. Allow counts a request under the key its extractor gives. A
    limiter made without an extractor uses the address put in the
    context by WithIP, under ip:, and puts every request whose context
    has no address, or an empty one, under the one key default. When
    the extractor fails, as the user extractor does on a context without
    a user id, Allow and Reset return the extraction error and leave the
    keyspace as it was. *)
Theorem Allow_counts_under_extracted_key store config clk st ctx :
  (forall l ip,
     New (Some store) config None = Ok l -> ip <> EmptyString ->
     limiter_Allow tokenBucket slidingWindow l clk st (WithIP ctx ip) =
       AllowKey tokenBucket slidingWindow (rs_prefix store) (l_config l) clk st
         ("ip:" +:+ ip)) /\
  (forall l,
     New (Some store) config None = Ok l ->
     GetIP ctx = EmptyString ->
     limiter_Allow tokenBucket slidingWindow l clk st ctx =
       AllowKey tokenBucket slidingWindow (rs_prefix store) (l_config l) clk st
         "default") /\
  (forall l prefix del_fails,
     New (Some store) config (Some (UserKeyExtractor prefix)) = Ok l ->
     GetUserID ctx = EmptyString ->
     limiter_Allow tokenBucket slidingWindow l clk st ctx =
       (Err (Wrapped "ratelimit: failed to extract key"), st) /\
     Reset del_fails l st ctx =
       (Some (Wrapped "ratelimit: failed to extract key"), st)) /\
  (forall l prefix userID,
     New (Some store) config (Some (UserKeyExtractor prefix)) = Ok l ->
     userID <> EmptyString -> prefix <> EmptyString ->
     limiter_Allow tokenBucket slidingWindow l clk st (WithUserID ctx userID) =
       AllowKey tokenBucket slidingWindow (rs_prefix store) (l_config l) clk st
         (prefix +:+ ":user:" +:+ userID)).
Proof.
  assert (forall ke l, New (Some store) config ke = Ok l ->
            l_store l = store /\
            l_KeyExtractor l = default DefaultKeyExtractor ke) as Hnew.
  { intros ke l. unfold New.
    destruct (cfg_Limit config <=? 0); [done|].
    destruct (Window config <=? 0); [done|]. by intros [= <-]. }
  split; [|split; [|split]].
  - intros l ip Hl Hip. destruct (Hnew _ _ Hl) as [Hs Hk].
    unfold limiter_Allow. rewrite Hk, Hs. cbn.
    by rewrite bool_decide_eq_true_2.
  - intros l Hl Hip. destruct (Hnew _ _ Hl) as [Hs Hk].
    unfold limiter_Allow. rewrite Hk, Hs. cbn. unfold DefaultKeyExtractor.
    unfold GetIP in Hip. destruct (value_ip ctx) as [ip|]; [|done].
    cbn in Hip. subst ip. by rewrite bool_decide_eq_false_2 by (intros Hne; done).
  - intros l prefix del_fails Hl Hu. destruct (Hnew _ _ Hl) as [Hs Hk].
    unfold limiter_Allow, Reset. rewrite Hk. cbn. unfold UserKeyExtractor.
    unfold GetUserID in Hu. destruct (value_user_id ctx) as [u|]; [|done].
    cbn in Hu. subst u. by rewrite bool_decide_eq_false_2 by (intros Hne; done).
  - intros l prefix userID Hl Hu Hp. destruct (Hnew _ _ Hl) as [Hs Hk].
    unfold limiter_Allow. rewrite Hk, Hs. cbn. unfold UserKeyExtractor. cbn.
    by rewrite !bool_decide_eq_true_2.
Qed.

(** X30. On the withdraw route the rate limit comes before the
    idempotency check: the limiter is asked under the per-user key of
    the scope withdraw, and when it cannot decide (500) or turns the
    request away (429) neither the idempotency store nor the handler is
    reached, so that the database is left as it was; when it allows the
    request, the idempotency middleware and the handler run on the same
    request and on the keyspace the limiter left. *)
Theorem rate_limit_precedes_idempotency limiter store rf clk c w :
  match Limiter_AllowKey limiter clk (Fiber.rd w)
          (Middlewares.PerUserKeyExtractor "withdraw" c) with
  | (Err _, st') =>
      App.registerWithdrawRoutes (Some limiter) store rf clk c w =
        (None,
         Fiber.JSON Fiber.StatusInternalServerError
           (Middlewares.error_body "internal server error") c,
         Fiber.set_rd st' w)
  | (Ok result, st') =>
      exists c',
        Fiber.req c' = Fiber.req c /\
        if Allowed result then
          App.registerWithdrawRoutes (Some limiter) store rf clk c w =
            Middlewares.NewHTTPWithdrawIdempotencyMiddleware store
              (Handlers.Handle rf) clk c' (Fiber.set_rd st' w)
        else
          exists body,
            App.registerWithdrawRoutes (Some limiter) store rf clk c w =
              (None, Fiber.JSON Fiber.StatusTooManyRequests body c',
               Fiber.set_rd st' w)
  end.
Proof.
  unfold App.registerWithdrawRoutes, Middlewares.NewHTTPRateLimitMiddleware.
  cbn [Middlewares.Limiter Middlewares.Skipper Middlewares.KeyExtractor
       from_option id].
  destruct (Limiter_AllowKey limiter clk (Fiber.rd w)
              (Middlewares.PerUserKeyExtractor "withdraw" c))
    as [[result|e] st']; [|done].
  destruct (Allowed result); cbn [negb].
  - eexists. split; [|reflexivity]. by rewrite !Set_header.
  - eexists. split; [|eexists; reflexivity]. by rewrite !Set_header.
Qed.

End RouteOrderProperties.

(** * Worked instances

    The theorems above at the seeded wallet and the sample requests,
    with the executable runtime. *)

#[local] Existing Instance Sample.runtime.

(** C1 on the seeded wallet: 2,000,000 asked of 1,000,000. *)
Lemma overdraft_rejected_on_seed_wallet :
  Repository.WithdrawWalletBalanceByUserID
    Repository.no_faults 7 Sample.seed_db
    Sample.seed_user 2000000 "chain-1" =
  (Err ErrInsufficientBalance, Sample.seed_db,
   [Sql.OpBegin; Sql.OpWithdrawWalletBalanceByUserID;
    Sql.OpHasWalletByUserID; Sql.OpRollback]).
Proof.
  refine (proj1 (proj2
    (overdraft_rejected_by_conditional_update
       7 Sample.seed_db Sample.seed_user Sample.seed_user Sample.seed_wallet
       2000000 "chain-1" _ _ _ _))).
  - reflexivity.
  - reflexivity.
  - cbn. lia.
  - cbn. lia.
Defined.

(** C6 on a request for amount 0 by the seeded user. *)
Lemma invalid_amount_answered_400 :
  (Handlers.Handle Repository.no_faults (Sample.clock 10)
     (Sample.withdraw_request "idem-1" (Sample.amount_body 0))
     Sample.seed_world).1.2
  = Fiber.JSON Fiber.StatusBadRequest
      (Handlers.error_body "amount_minor must be greater than 0")
      (Sample.withdraw_request "idem-1" (Sample.amount_body 0)).
Proof.
  rewrite (proj1 (proj2 (proj2
    (invalid_input_fails_before_transaction
       Repository.no_faults 0 Sample.seed_db Sample.seed_user 0 "chain-1")))
    (Sample.clock 10) (Sample.withdraw_request "idem-1" (Sample.amount_body 0))
    Sample.seed_world Sample.seed_user); [reflexivity|..].
  - reflexivity.
  - discriminate.
  - vm_compute. discriminate.
  - reflexivity.
  - lia.
Defined.

(** C2 on the seeded wallet: a withdrawal of 100 commits. *)
Lemma withdrawal_commits_on_seed_wallet :
  exists snapshot db',
    Repository.WithdrawWalletBalanceByUserID
      Repository.no_faults 5 Sample.seed_db Sample.seed_user 100 "chain-1" =
      (Ok snapshot, db',
       [Sql.OpBegin; Sql.OpWithdrawWalletBalanceByUserID;
        Sql.OpInsertWalletLedger; Sql.OpCommit]).
Proof.
  apply (proj2 (withdrawal_ledger_entry_is_atomic
                  Repository.no_faults 5 Sample.seed_db Sample.seed_user 100
                  "chain-1") Sample.seed_user Sample.seed_wallet).
  - reflexivity.
  - reflexivity.
  - cbn. lia.
  - cbn. unfold max_int64. lia.
  - cbn. unfold max_int64. lia.
Defined.

(** C3 on the seeded wallet: the withdrawal of 100 under key idem-1,
    then the client's retry of it, which comes under another request id
    and from another address. *)
Lemma replay_on_seed_wallet :
  exists r1 w1 r2,
    withdraw_route Repository.no_faults (Sample.clock 10)
      Sample.first_ctx Sample.seed_world = (None, r1, w1) /\
    withdraw_route Repository.no_faults (Sample.clock 20)
      Sample.retry_ctx w1 = (None, r2, w1) /\
    Fiber.reply r2 = Fiber.reply r1 /\
    (Fiber.Status (Fiber.resp r1) = 200 ->
     exists entry : LedgerEntry,
       wallet_ledger (Fiber.pg w1) =
         (wallet_ledger (Fiber.pg Sample.seed_world) ++ [entry])%list /\
       entry_type entry = "withdrawal") /\
    (Fiber.Status (Fiber.resp r1) <> 200 ->
     wallet_ledger (Fiber.pg w1) = wallet_ledger (Fiber.pg Sample.seed_world)).
Proof.
  apply (proj2 (proj2 (replay_law))
           Repository.no_faults Repository.no_faults (Sample.clock 10)
           (Sample.clock 20) Sample.first_ctx Sample.retry_ctx
           Sample.seed_world Sample.seed_user Sample.seed_user).
  - repeat split; vm_compute; discriminate.
  - repeat split; vm_compute; discriminate.
  - reflexivity.
  - reflexivity.
  - vm_compute. reflexivity.
  - reflexivity.
  - discriminate.
Defined.

(** C4 on the seeded wallet: key idem-1 reused for another amount. *)
Lemma conflict_on_seed_wallet :
  Middlewares.NewHTTPWithdrawIdempotencyMiddleware
    (Some (Idempotency.SQLXStore Idempotency.no_faults))
    (Handlers.Handle Repository.no_faults) (Sample.clock 20) Sample.other_ctx
    Sample.world_after_first =
    (None,
     Fiber.JSON Fiber.StatusConflict
       (Middlewares.error_body "idempotency key reused with different payload")
       Sample.other_ctx,
     Sample.world_after_first) /\
  Fiber.Status
    (Fiber.resp
       (Fiber.JSON Fiber.StatusConflict
          (Middlewares.error_body "idempotency key reused with different payload")
          Sample.other_ctx)) = 409.
Proof.
  apply (proj2 (conflict_law)
           Idempotency.no_faults (Handlers.Handle Repository.no_faults)
           (Sample.clock 20) Sample.other_ctx Sample.world_after_first
           Sample.seed_user Sample.first_row).
  - repeat split; vm_compute; discriminate.
  - repeat split; vm_compute; discriminate.
  - done.
  - vm_compute. reflexivity.
  - vm_compute. discriminate.
Defined.

(** C5 on a key locked at time 100 for 30 seconds: asked again 5
    nanoseconds later, the request is told InProgress; asked again at
    second 31 with a LockTTL of 5 seconds, it is given the key, locked
    until second 36. *)
Lemma arbitration_on_locked_key :
  Idempotency.SQLXStore_Acquire Idempotency.no_faults 105
    Sample.db_in_progress Sample.first_request =
    (Ok (Idempotency.Decision_of_type Idempotency.DecisionInProgress),
     Sample.db_in_progress) /\
  exists db' row,
    Idempotency.SQLXStore_Acquire Idempotency.no_faults (31 * Idempotency.Second)
      Sample.db_in_progress Sample.request_with_ttl =
      (Ok (Idempotency.Decision_of_type Idempotency.DecisionAcquired), db') /\
    row_of db' Sample.request_with_ttl = Some row /\
    status row = "in_progress" /\
    locked_until row = 36 * Idempotency.Second /\
    31 * Idempotency.Second < locked_until row.
Proof.
  split.
  - refine (proj1 (in_progress_arbitration
                     Idempotency.no_faults 105 Sample.db_in_progress
                     Sample.first_request Sample.row_in_progress _ _ _ _ _) _).
    + repeat split; vm_compute; discriminate.
    + done.
    + vm_compute. reflexivity.
    + reflexivity.
    + reflexivity.
    + vm_compute. reflexivity.
  - destruct (proj2 (in_progress_arbitration
                       Idempotency.no_faults (31 * Idempotency.Second)
                       Sample.db_in_progress Sample.request_with_ttl
                       Sample.row_in_progress
                       ltac:(repeat split; vm_compute; discriminate)
                       ltac:(done)
                       ltac:(vm_compute; reflexivity)
                       eq_refl eq_refl)
                ltac:(vm_compute; discriminate) eq_refl)
      as (db' & row & Ha & Hrow & Hst & Hpos & _ & Hafter & _).
    exists db', row. split; [exact Ha|]. split; [exact Hrow|].
    split; [exact Hst|]. split; [|exact Hafter].
    rewrite Hpos; [reflexivity|]. vm_compute. reflexivity.
Defined.

(** C9 on the request the middleware builds, whose LockTTL is 0. *)
Lemma middleware_request_gets_default_ttl :
  Idempotency.effectiveLockTTL Sample.first_request = 30 * Idempotency.Second.
Proof.
  refine (proj1 (non_positive_lock_ttl_defaults
                   Idempotency.no_faults 100 Sample.seed_db Sample.first_request _)).
  cbn. lia.
Defined.

(** C10 on a completed row whose response_status is NULL. *)
Lemma replay_of_row_without_status :
  exists c',
    Middlewares.NewHTTPWithdrawIdempotencyMiddleware
      (Some (Idempotency.SQLXStore Idempotency.no_faults))
      (Handlers.Handle Repository.no_faults) (Sample.clock 20) Sample.first_ctx
      Sample.world_without_status = (None, c', Sample.world_without_status) /\
    Fiber.Status (Fiber.resp c') = 200 /\
    Fiber.RespBody (Fiber.resp c') =
      default EmptyString (response_body Sample.row_without_status) /\
    (forall ct,
       response_content_type Sample.row_without_status = Some ct ->
       ct <> EmptyString -> Fiber.ContentTypeHeader (Fiber.resp c') = ct).
Proof.
  apply (proj2 (replay_without_positive_status_answers_200)
           Idempotency.no_faults (Handlers.Handle Repository.no_faults)
           (Sample.clock 20) Sample.first_ctx Sample.world_without_status
           Sample.seed_user Sample.row_without_status).
  - repeat split; vm_compute; discriminate.
  - repeat split; vm_compute; discriminate.
  - done.
  - vm_compute. reflexivity.
  - reflexivity.
  - reflexivity.
  - by left.
Defined.

(** C7 on a limit of two a minute: requests at seconds 10 and 11 pass,
    the one at second 12 is denied for the 58 seconds left; and the
    withdraw request that meets the counter at its limit at second 12 is
    answered 429 with Retry-After 58 and retry_after 58 in the body. *)
Lemma fixed_window_two_a_minute :
  (exists rs st1 res st2,
     AllowKey_run Sample.no_script Sample.no_script "withdraw-api:withdraw"
       Sample.fixed_window_config "withdraw:user:u1"
       [Sample.clock 10; Sample.clock 11] ∅ = (rs, st1) /\
     Z.of_nat (length rs) = 2 /\
     Forall allowed rs /\
     Ratelimit.AllowKey Sample.no_script Sample.no_script "withdraw-api:withdraw"
       Sample.fixed_window_config (Sample.clock 12) st1 "withdraw:user:u1"
       = (Ok res, st2) /\
     Ratelimit.Allowed res = false /\ Ratelimit.Remaining res = 0 /\
     Ratelimit.Limit res = 2 /\
     Ratelimit.RetryAfter res = 58000 * 1000000 /\
     0 < Ratelimit.RetryAfter res) /\
  (exists c' st',
     (forall next,
        Middlewares.NewHTTPRateLimitMiddleware Sample.withdraw_rate_limit next
          (Sample.clock 12) Sample.first_ctx Sample.world_at_limit =
          (None, c', Fiber.set_rd st' Sample.world_at_limit)) /\
     Fiber.Status (Fiber.resp c') = 429 /\
     Fiber.RespHeaders (Fiber.resp c') !! "Retry-After" = Some "58" /\
     Fiber.RespBody (Fiber.resp c') =
       Sample.encode
         [("error", JString "rate limit exceeded");
          ("retry_after", JNumber 58)]).
Proof.
  split.
  - destruct (proj1 (fixed_window_boundary Sample.no_script Sample.no_script)
                "withdraw-api:withdraw" Sample.fixed_window_config
                "withdraw:user:u1" ∅ (Sample.clock 10) [Sample.clock 11]
                (Sample.clock 12)
                eq_refl
                ltac:(vm_compute; split; [discriminate | reflexivity])
                ltac:(vm_compute; split; discriminate)
                eq_refl eq_refl eq_refl
                ltac:(repeat constructor; vm_compute; discriminate)
                ltac:(vm_compute; split; discriminate)
                eq_refl)
      as (rs & st1 & res & st2 & Hrun & Hlen & Hall & Hlast & Hden & Hrem
          & Hlim & Hretry & _ & Hpos).
    exists rs, st1, res, st2.
    split; [exact Hrun|]. split; [exact Hlen|]. split; [exact Hall|].
    split; [exact Hlast|]. split; [exact Hden|]. split; [exact Hrem|].
    split; [exact Hlim|]. split; [exact Hretry|].
    apply (proj2 Hpos). vm_compute. reflexivity.
  - destruct (proj2 (fixed_window_boundary Sample.no_script Sample.no_script)
                Sample.withdraw_rate_limit
                (Ratelimit.limiter_Limiter Sample.no_script Sample.no_script
                   Sample.fixed_window_limiter)
                (Sample.clock 12) Sample.first_ctx Sample.world_at_limit
                (Sample.denied_for 58)
                (Fiber.rd Sample.world_after_denial)
                eq_refl eq_refl
                ltac:(vm_compute; reflexivity)
                eq_refl
                ltac:(vm_compute; split; [discriminate | reflexivity]))
      as (c' & Hrun & Hst & Hhead & _ & Hbody).
    exists c', (Fiber.rd Sample.world_after_denial).
    split; [exact Hrun|]. split; [exact Hst|].
    split; [exact Hhead | exact Hbody].
Defined.

(** ** The scenarios of the test tables, run on the model *)

(** Withdrawing 100 of 1,000,000: status 200, balance 999,900, one
    ledger row of -100 with balance-after 999,900. *)
Example scenario_withdraw_100 :
  Fiber.Status (Fiber.resp Sample.first_reply) = 200 /\
  balance_minor <$> wallets (Fiber.pg Sample.world_after_first) !! Sample.seed_user
    = Some 999900 /\
  (fun e => (amount_minor e, balance_after_minor e))
    <$> wallet_ledger (Fiber.pg Sample.world_after_first)
    = [(-100, 999900)].
Proof. vm_compute. done. Qed.

(** Withdrawing 5,000,000 of 1,000,000: status 409, stores unchanged
    but for the idempotency row. *)
Example scenario_insufficient_balance :
  let '(_, c, w) :=
    withdraw_route Repository.no_faults (Sample.clock 10)
      (Sample.withdraw_request "idem-2" (Sample.amount_body 5000000))
      Sample.seed_world in
  Fiber.Status (Fiber.resp c) = 409 /\
  wallets (Fiber.pg w) = wallets Sample.seed_db /\
  wallet_ledger (Fiber.pg w) = [].
Proof. vm_compute. done. Qed.

(** A user without a wallet: status 404. *)
Example scenario_unknown_user :
  let c := Sample.withdraw_request "idem-3" (Sample.amount_body 100) in
  let c' :=
    {| Fiber.req :=
         {| Fiber.Method := Fiber.Method (Fiber.req c);
            Fiber.Path := Fiber.Path (Fiber.req c);
            Fiber.ReqHeaders := Fiber.ReqHeaders (Fiber.req c);
            Fiber.BodyRaw := Fiber.BodyRaw (Fiber.req c);
            Fiber.IP := Fiber.IP (Fiber.req c);
            Fiber.Locals_user_id := Some "33333333-3333-3333-3333-333333333333";
            Fiber.RequestID := Fiber.RequestID (Fiber.req c) |};
       Fiber.resp := Fiber.resp c |} in
  Fiber.Status
    (Fiber.resp
       (withdraw_route Repository.no_faults (Sample.clock 10) c'
          Sample.seed_world).1.2) = 404.
Proof. vm_compute. done. Qed.

(** The middleware test table: replay of a stored 202, a decision of an
    unknown type, and a fresh acquisition around a 201 handler. *)
Example middleware_test_table :
  Fiber.Status
    (Fiber.resp
       (Middlewares.NewHTTPWithdrawIdempotencyMiddleware
          (Some (Sample.store_answering
                   {| Idempotency.Type_ := Idempotency.DecisionReplay;
                      Idempotency.StatusCode := 202;
                      Idempotency.Body := "replay";
                      Idempotency.ContentType := "application/json" |}))
          Sample.created_handler (Sample.clock 10) Sample.first_ctx
          Sample.seed_world).1.2) = 202 /\
  Fiber.Status
    (Fiber.resp
       (Middlewares.NewHTTPWithdrawIdempotencyMiddleware
          (Some (Sample.store_answering (Idempotency.Decision_of_type "unknown")))
          Sample.created_handler (Sample.clock 10) Sample.first_ctx
          Sample.seed_world).1.2) = 500 /\
  Fiber.Status
    (Fiber.resp
       (Middlewares.NewHTTPWithdrawIdempotencyMiddleware
          (Some (Sample.store_answering
                   (Idempotency.Decision_of_type Idempotency.DecisionAcquired)))
          Sample.created_handler (Sample.clock 10) Sample.first_ctx
          Sample.seed_world).1.2) = 201 /\
  Fiber.Status
    (Fiber.resp
       (Middlewares.NewHTTPWithdrawIdempotencyMiddleware None
          Sample.created_handler (Sample.clock 10) Sample.first_ctx
          Sample.seed_world).1.2) = 500.
Proof. vm_compute. done. Qed.

(** The table of TestParseRateLimitAlgorithm. *)
Example parse_rate_limit_algorithm_table :
  App.parseRateLimitAlgorithm "" = "token_bucket" /\
  App.parseRateLimitAlgorithm "sliding_window" = "sliding_window" /\
  App.parseRateLimitAlgorithm "fixed_window" = "fixed_window" /\
  App.parseRateLimitAlgorithm "random" = "token_bucket".
Proof. vm_compute. done. Qed.

(** A denied request through the rate-limit middleware: 429, Retry-After
    of 5 seconds, and the handler is not reached. *)
Example rate_limited_request :
  let '(_, c, w) :=
    App.registerWithdrawRoutes (Some Sample.denying_limiter)
      (Some (Idempotency.SQLXStore Idempotency.no_faults)) Repository.no_faults
      (Sample.clock 10) Sample.first_ctx Sample.seed_world in
  Fiber.Status (Fiber.resp c) = 429 /\
  Fiber.RespHeaders (Fiber.resp c) !! "Retry-After" = Some "5" /\
  Fiber.RespBody (Fiber.resp c) =
    Sample.encode [("error", JString "rate limit exceeded");
                   ("retry_after", JNumber 5)] /\
  w = Sample.seed_world.
Proof. vm_compute. done. Qed.

(** A lock taken at time 100 and found again 31 seconds later has run
    out: Acquire takes the key over and locks it for 30 more seconds. *)
Example expired_lock_is_reacquired :
  let now := 100 + 31 * Idempotency.Second in
  let '(r, db') :=
    Idempotency.SQLXStore_Acquire Idempotency.no_faults now
      Sample.db_in_progress Sample.first_request in
  r = Ok (Idempotency.Decision_of_type Idempotency.DecisionAcquired) /\
  (fun row => (status row, locked_until row)) <$> row_of db' Sample.first_request
    = Some ("in_progress", now + 30 * Idempotency.Second).
Proof. vm_compute. done. Qed.

(** ** Further instances *)

(** X1 on a user without a wallet: wallet-not-found, not
    insufficient-balance. *)
Lemma unknown_user_is_not_found :
  let '(r, db', _) :=
    Repository.WithdrawWalletBalanceByUserID Repository.no_faults 7
      Sample.seed_db Sample.other_user 100 "chain-1" in
  (r = Err ErrWalletNotFound <-> wallets Sample.seed_db !! Sample.other_user = None) /\
  (r = Err ErrInsufficientBalance <->
     exists w, wallets Sample.seed_db !! Sample.other_user = Some w /\
               balance_minor w < 100) /\
  (r = Err ErrWalletNotFound \/ r = Err ErrInsufficientBalance -> db' = Sample.seed_db).
Proof.
  apply (missing_wallet_told_from_short_balance 7 Sample.seed_db
           Sample.other_user Sample.other_user 100 "chain-1").
  - reflexivity.
  - lia.
Defined.

(** X3 on the seeded wallet: after withdrawing 100 the inquiry answers
    999,900. *)
Lemma inquiry_after_withdrawal_of_100 :
  Services.CheckBalance false Sample.withdrawal_of_100.1.2 Sample.seed_user =
    Ok {| Services.bi_UserID := Sample.seed_user;
          Services.bi_BalanceMinor := 999900;
          Services.bi_Currency := "IDR";
          Services.bi_UpdatedAt := 7 |}.
Proof.
  refine (proj1 (balance_inquiry_follows_withdrawal Repository.no_faults 7
                   Sample.seed_db Sample.seed_user 100 "chain-1"
                   (Ok {| ww_UserID := Sample.seed_user; ww_AmountMinor := 100;
                          ww_BalanceMinor := 999900; ww_Currency := "IDR";
                          ww_ChainID := "chain-1"; ww_UpdatedAt := 7 |})
                   Sample.withdrawal_of_100.1.2 Sample.withdrawal_of_100.2 _)).
  vm_compute. reflexivity.
Defined.

(** X4 on the seeded wallet: the inquiry handler answers 200 with the
    balance of 1,000,000. *)
Lemma inquiry_on_seed_wallet :
  Handlers.InquiryCheckBalanceHandler_Handle false (Sample.clock 10)
    Sample.first_ctx Sample.seed_world =
    (None,
     Fiber.JSON Fiber.StatusOK
       (Handlers.balance_body
          {| Services.bi_UserID := Sample.seed_user;
             Services.bi_BalanceMinor := 1000000;
             Services.bi_Currency := "IDR";
             Services.bi_UpdatedAt := 0 |}) Sample.first_ctx,
     Sample.seed_world).
Proof.
  refine (proj2 (inquiry_status_table false (Sample.clock 10) Sample.first_ctx
                   Sample.seed_world Sample.seed_user _ _)
            Sample.seed_user _ _ _).
  - reflexivity.
  - discriminate.
  - vm_compute. discriminate.
  - reflexivity.
  - reflexivity.
Defined.

(** X5 on the seeded wallet: 5,000,000 asked of 1,000,000 is answered
    409 with the stores unchanged. *)
Lemma overdraft_answered_409 :
  Handlers.Handle Repository.no_faults (Sample.clock 10)
    (Sample.withdraw_request "idem-2" (Sample.amount_body 5000000))
    Sample.seed_world =
    (None,
     Fiber.JSON Fiber.StatusConflict
       (Handlers.error_body "insufficient balance")
       (Sample.withdraw_request "idem-2" (Sample.amount_body 5000000)),
     Sample.seed_world).
Proof.
  refine (proj1
            (proj2
               (proj2 (proj2
                  (proj2 (withdraw_status_table (Sample.clock 10)
                            (Sample.withdraw_request "idem-2"
                               (Sample.amount_body 5000000))
                            Sample.seed_world Sample.seed_user _ _)
                     5000000 _ _))
                  Sample.seed_user _ _)
               Sample.seed_wallet _) _).
  - reflexivity.
  - discriminate.
  - reflexivity.
  - lia.
  - vm_compute. discriminate.
  - reflexivity.
  - reflexivity.
  - cbn. lia.
Defined.

(** X8 on the locked key: Complete finds the row the first request
    inserted. *)
Lemma completion_on_locked_key :
  let '(err, db') :=
    Idempotency.SQLXStore_Complete Idempotency.no_faults 105
      Sample.db_in_progress Sample.first_request Sample.stored_response in
  (err = None ->
   exists row,
     row_of Sample.db_in_progress Sample.first_request = Some row /\
     request_hash row = TrimSpace (Idempotency.RequestHash Sample.first_request) /\
     db' = set_withdraw_idempotency
             (<[(TrimSpace (Idempotency.Scope Sample.first_request),
                 TrimSpace (Idempotency.Key Sample.first_request)) :=
                  completed 105 (Idempotency.sr_StatusCode Sample.stored_response)
                    (Idempotency.sr_Body Sample.stored_response)
                    (TrimSpace (Idempotency.sr_ContentType Sample.stored_response))
                    row]>
                (withdraw_idempotency Sample.db_in_progress))
             Sample.db_in_progress) /\
  ((forall row, row_of Sample.db_in_progress Sample.first_request = Some row ->
                request_hash row <>
                  TrimSpace (Idempotency.RequestHash Sample.first_request)) ->
   err <> None /\ db' = Sample.db_in_progress /\
   (Idempotency.complete_exec_fails Idempotency.no_faults = false ->
    Idempotency.rows_affected_fails Idempotency.no_faults = false ->
    err = Some (Wrapped "idempotency: key not found for completion"))).
Proof.
  apply (complete_needs_matching_row Idempotency.no_faults 105
           Sample.db_in_progress Sample.first_request Sample.stored_response).
  repeat split; vm_compute; discriminate.
Defined.

(** X9 on the seeded database: the stored content type comes back
    trimmed. *)
Lemma round_trip_on_seed_db :
  exists db1 db2,
    Idempotency.SQLXStore_Acquire Idempotency.no_faults 100 Sample.seed_db
      Sample.first_request =
      (Ok (Idempotency.Decision_of_type Idempotency.DecisionAcquired), db1) /\
    Idempotency.SQLXStore_Complete Idempotency.no_faults 105 db1
      Sample.first_request Sample.stored_response = (None, db2) /\
    Idempotency.SQLXStore_Acquire Idempotency.no_faults 110 db2
      Sample.first_request =
      (Ok {| Idempotency.Type_ := Idempotency.DecisionReplay;
             Idempotency.StatusCode := 200;
             Idempotency.Body := "ok";
             Idempotency.ContentType := "text/plain" |}, db2) /\
    (forall other,
       TrimSpace (Idempotency.Scope other) =
         TrimSpace (Idempotency.Scope Sample.first_request) ->
       TrimSpace (Idempotency.Key other) =
         TrimSpace (Idempotency.Key Sample.first_request) ->
       TrimSpace (Idempotency.RequestHash other) <> EmptyString ->
       TrimSpace (Idempotency.RequestHash other) <>
         TrimSpace (Idempotency.RequestHash Sample.first_request) ->
       Idempotency.SQLXStore_Acquire Idempotency.no_faults 110 db2 other =
         (Ok (Idempotency.Decision_of_type Idempotency.DecisionConflict), db2)).
Proof.
  refine (acquire_complete_replay_round_trip 100 105 110 Sample.seed_db
            Sample.first_request Sample.stored_response _ _).
  - repeat split; vm_compute; discriminate.
  - reflexivity.
Defined.

(** X10 on the seeded database: a key taken at time 100 is in progress
    at time 105. *)
Lemma lock_on_seed_db :
  exists db1,
    Idempotency.SQLXStore_Acquire Idempotency.no_faults 100 Sample.seed_db
      Sample.first_request =
      (Ok (Idempotency.Decision_of_type Idempotency.DecisionAcquired), db1) /\
    (105 < 100 + Idempotency.effectiveLockTTL Sample.first_request ->
     Idempotency.SQLXStore_Acquire Idempotency.no_faults 105 db1
       Sample.first_request =
       (Ok (Idempotency.Decision_of_type Idempotency.DecisionInProgress), db1)) /\
    (100 + Idempotency.effectiveLockTTL Sample.first_request <= 105 ->
     exists db2,
       Idempotency.SQLXStore_Acquire Idempotency.no_faults 105 db1
         Sample.first_request =
         (Ok (Idempotency.Decision_of_type Idempotency.DecisionAcquired), db2) /\
       (fun row => (status row, locked_until row)) <$> row_of db2 Sample.first_request =
         Some ("in_progress",
               105 + Idempotency.effectiveLockTTL Sample.first_request)).
Proof.
  apply (lock_excludes_until_expiry 100 105 Sample.seed_db Sample.first_request).
  - repeat split; vm_compute; discriminate.
  - reflexivity.
Defined.

(** X12 on a store that answers Replay: the reply is the same around
    the test handler and around the withdraw handler. *)
Lemma replayed_request_ignores_handler :
  Middlewares.NewHTTPWithdrawIdempotencyMiddleware
    (Some (Sample.store_answering
             (Idempotency.Decision_of_type Idempotency.DecisionReplay)))
    Sample.created_handler (Sample.clock 10) Sample.first_ctx Sample.seed_world =
  Middlewares.NewHTTPWithdrawIdempotencyMiddleware
    (Some (Sample.store_answering
             (Idempotency.Decision_of_type Idempotency.DecisionReplay)))
    (Handlers.Handle Repository.no_faults) (Sample.clock 10) Sample.first_ctx
    Sample.seed_world.
Proof.
  apply handler_runs_only_when_acquired.
  intros userID decision db' _ Ha. cbn in Ha. injection Ha as <- _.
  discriminate.
Defined.

(** X13 on the locked key: the duplicate sent at second 10 is answered
    409. *)
Lemma duplicate_while_locked :
  Middlewares.NewHTTPWithdrawIdempotencyMiddleware
    (Some (Idempotency.SQLXStore Idempotency.no_faults))
    (Handlers.Handle Repository.no_faults) (Sample.clock 10) Sample.first_ctx
    Sample.world_in_progress =
    (None,
     Fiber.JSON Fiber.StatusConflict
       (Middlewares.error_body "request is already in progress") Sample.first_ctx,
     Sample.world_in_progress).
Proof.
  apply (concurrent_duplicate_answered_409 (Handlers.Handle Repository.no_faults)
           (Sample.clock 10) Sample.first_ctx Sample.world_in_progress
           Sample.seed_user Sample.row_in_progress).
  - repeat split; vm_compute; discriminate.
  - repeat split; vm_compute; discriminate.
  - vm_compute. reflexivity.
  - reflexivity.
  - reflexivity.
  - vm_compute. reflexivity.
Defined.

(** X14 on the seeded wallet: the withdrawal of 100 is made, the reply
    is 500 and the key stays in progress. *)
Lemma failed_completion_on_seed_wallet :
  exists db1 c1 w1,
    Idempotency.SQLXStore_Acquire Sample.completion_fails
      (Ratelimit.now_ns (Sample.clock 10)) (Fiber.pg Sample.seed_world)
      (idempotency_request Sample.first_ctx Sample.seed_user) =
      (Ok (Idempotency.Decision_of_type Idempotency.DecisionAcquired), db1) /\
    Handlers.Handle Repository.no_faults (Sample.clock 10) Sample.first_ctx
      (Fiber.set_pg db1 Sample.seed_world) = (None, c1, w1) /\
    Middlewares.NewHTTPWithdrawIdempotencyMiddleware
      (Some (Idempotency.SQLXStore Sample.completion_fails))
      (Handlers.Handle Repository.no_faults) (Sample.clock 10) Sample.first_ctx
      Sample.seed_world =
      (None,
       Fiber.JSON Fiber.StatusInternalServerError
         (Middlewares.error_body "failed to persist idempotency response") c1,
       w1) /\
    row_of (Fiber.pg w1) (idempotency_request Sample.first_ctx Sample.seed_user) =
      Some (inserted (Ratelimit.now_ns (Sample.clock 10))
              (Ratelimit.now_ns (Sample.clock 10) + Idempotency.defaultLockTTL)
              (TrimSpace
                 (Idempotency.RequestHash
                    (idempotency_request Sample.first_ctx Sample.seed_user)))) /\
    (forall now2,
       Ratelimit.now_ns (Sample.clock 10) + Idempotency.defaultLockTTL <= now2 ->
       Idempotency.reacquire_fails Sample.completion_fails = false ->
       exists db2,
         Idempotency.SQLXStore_Acquire Sample.completion_fails now2 (Fiber.pg w1)
           (idempotency_request Sample.first_ctx Sample.seed_user) =
           (Ok (Idempotency.Decision_of_type Idempotency.DecisionAcquired), db2)).
Proof.
  apply (failed_completion_keeps_handler_effects Sample.completion_fails
           Repository.no_faults (Sample.clock 10) Sample.first_ctx
           Sample.seed_world Sample.seed_user).
  - repeat split; vm_compute; discriminate.
  - repeat split; vm_compute; discriminate.
  - reflexivity.
  - done.
  - reflexivity.
  - reflexivity.
Defined.

(** X25 on the seeded wallet: the first withdrawal leaves its row
    completed with the reply's status, body and content type. *)
Lemma first_withdrawal_stores_its_reply :
  exists c1 w1 row,
    Middlewares.NewHTTPWithdrawIdempotencyMiddleware
      (Some (Idempotency.SQLXStore Idempotency.no_faults))
      (Handlers.Handle Repository.no_faults) (Sample.clock 10) Sample.first_ctx
      Sample.seed_world = (None, c1, w1) /\
    row_of (Fiber.pg w1) (idempotency_request Sample.first_ctx Sample.seed_user)
      = Some row /\
    status row = "completed" /\
    request_hash row =
      TrimSpace (Idempotency.RequestHash
                   (idempotency_request Sample.first_ctx Sample.seed_user)) /\
    response_status row = Some (Fiber.Status (Fiber.resp c1)) /\
    response_body row = Some (Fiber.RespBody (Fiber.resp c1)) /\
    response_content_type row = Some (TrimSpace (Fiber.Response_ContentType c1)) /\
    completed_at row = Some (Ratelimit.now_ns (Sample.clock 10)).
Proof.
  apply (stored_response_is_reply Repository.no_faults (Sample.clock 10)
           Sample.first_ctx Sample.seed_world Sample.seed_user).
  - repeat split; vm_compute; discriminate.
  - repeat split; vm_compute; discriminate.
  - reflexivity.
Defined.

(** X16 on a limit of two a minute: requests at seconds 12 and 13 are
    turned away and leave the window ending at second 70; the request at
    second 71 opens a new window. *)
Lemma window_ends_at_second_70 :
  exists rs st1 res st2,
    AllowKey_run Sample.no_script Sample.no_script "withdraw-api:withdraw"
      Sample.fixed_window_config "withdraw:user:u1"
      [Sample.clock 12; Sample.clock 13] Sample.keyspace_at_limit = (rs, st1) /\
    Forall denied rs /\ length rs = 2%nat /\
    st1 !! ("withdraw-api:withdraw" +:+ ":" +:+ "withdraw:user:u1") =
      Some (counter (2 + Z.of_nat 2) 70000) /\
    Ratelimit.AllowKey Sample.no_script Sample.no_script "withdraw-api:withdraw"
      Sample.fixed_window_config (Sample.clock 71) st1 "withdraw:user:u1"
      = (Ok res, st2) /\
    Ratelimit.Allowed res = true /\
    Ratelimit.Remaining res = Ratelimit.cfg_Limit Sample.fixed_window_config - 1 /\
    st2 !! ("withdraw-api:withdraw" +:+ ":" +:+ "withdraw:user:u1") =
      Some (counter 1
              (Ratelimit.redis_now_ms (Sample.clock 71)
               + Ratelimit.Milliseconds
                   (Ratelimit.Window Sample.fixed_window_config))).
Proof.
  apply (denied_requests_do_not_extend_window Sample.no_script Sample.no_script
           "withdraw-api:withdraw" Sample.fixed_window_config "withdraw:user:u1"
           Sample.keyspace_at_limit 2 70000 [Sample.clock 12; Sample.clock 13]
           (Sample.clock 71)).
  - reflexivity.
  - vm_compute. split; discriminate.
  - vm_compute. reflexivity.
  - vm_compute. reflexivity.
  - vm_compute. discriminate.
  - reflexivity.
  - repeat constructor; vm_compute; discriminate.
  - vm_compute. reflexivity.
  - reflexivity.
Defined.

(** X17 on a key that holds a hash: after the reset the request at
    second 10 is let through with one request remaining. *)
Lemma reset_of_wrong_typed_key :
  exists st1 res st2,
    Ratelimit.ResetKey false Sample.fixed_window_limiter
      Sample.keyspace_wrong_type "withdraw:user:u1" = (None, st1) /\
    (forall k,
       k <> Ratelimit.rs_prefix (Ratelimit.l_store Sample.fixed_window_limiter)
            +:+ ":" +:+ "withdraw:user:u1" ->
       st1 !! k = Sample.keyspace_wrong_type !! k) /\
    Ratelimit.Limiter_AllowKey
      (Ratelimit.limiter_Limiter Sample.no_script Sample.no_script
         Sample.fixed_window_limiter)
      (Sample.clock 10) st1 "withdraw:user:u1" = (Ok res, st2) /\
    Ratelimit.Allowed res = true /\
    Ratelimit.Remaining res =
      Ratelimit.cfg_Limit (Ratelimit.l_config Sample.fixed_window_limiter) - 1 /\
    (exists e,
       Ratelimit.ResetKey true Sample.fixed_window_limiter
         Sample.keyspace_wrong_type "withdraw:user:u1" =
         (Some e, Sample.keyspace_wrong_type)).
Proof.
  apply (reset_opens_fresh_window Sample.no_script Sample.no_script
           Sample.fixed_window_limiter Sample.keyspace_wrong_type
           "withdraw:user:u1" (Sample.clock 10)).
  - reflexivity.
  - vm_compute. split; [discriminate | reflexivity].
  - vm_compute. discriminate.
  - reflexivity.
Defined.

(** X19 on the seeded user and an anonymous request from the same
    address: the keys differ. *)
Lemma seed_user_key_differs_from_anonymous :
  Middlewares.PerUserKeyExtractor "withdraw" Sample.first_ctx <>
    Middlewares.PerUserKeyExtractor "withdraw" Sample.anonymous_ctx.
Proof.
  intros Heq.
  pose proof (proj1 (users_do_not_share_counters Sample.no_script Sample.no_script
                       "withdraw" Sample.first_ctx Sample.anonymous_ctx
                       Sample.seed_user eq_refl ltac:(discriminate)) Heq) as Hu.
  discriminate Hu.
Defined.

(** X20 on a failing script call: the withdraw request is answered 500
    and nothing is touched. *)
Lemma failing_script_answers_500 :
  Middlewares.NewHTTPRateLimitMiddleware
    {| Middlewares.Limiter :=
         Some (Ratelimit.limiter_Limiter Sample.no_script Sample.no_script
                 Sample.fixed_window_limiter);
       Middlewares.Skipper := None;
       Middlewares.KeyExtractor := Some (Middlewares.PerUserKeyExtractor "withdraw") |}
    (Handlers.Handle Repository.no_faults) (Sample.failing_clock 10)
    Sample.first_ctx Sample.seed_world =
    (None,
     Fiber.JSON Fiber.StatusInternalServerError
       (Middlewares.error_body "internal server error") Sample.first_ctx,
     Sample.seed_world).
Proof.
  apply (limiter_failure_fails_closed Sample.no_script Sample.no_script
           Sample.fixed_window_limiter (Middlewares.PerUserKeyExtractor "withdraw")
           (Handlers.Handle Repository.no_faults) (Sample.failing_clock 10)
           Sample.first_ctx Sample.seed_world).
  - reflexivity.
  - left. reflexivity.
Defined.

(** X29 on the limiter of the withdraw route: a request from
    10.0.0.1 is counted under ip:10.0.0.1. *)
Lemma request_counted_under_its_address :
  Ratelimit.limiter_Allow Sample.no_script Sample.no_script
    Sample.fixed_window_limiter (Sample.clock 10) ∅
    (Ratelimit.WithIP
       {| Ratelimit.value_ip := None; Ratelimit.value_user_id := None |}
       "10.0.0.1") =
    Ratelimit.AllowKey Sample.no_script Sample.no_script
      (Ratelimit.rs_prefix (Ratelimit.l_store Sample.fixed_window_limiter))
      (Ratelimit.l_config Sample.fixed_window_limiter) (Sample.clock 10) ∅
      ("ip:" +:+ "10.0.0.1").
Proof.
  refine (proj1 (Allow_counts_under_extracted_key Sample.no_script
                   Sample.no_script
                   (Ratelimit.l_store Sample.fixed_window_limiter)
                   Sample.fixed_window_config (Sample.clock 10) ∅
                   {| Ratelimit.value_ip := None;
                      Ratelimit.value_user_id := None |})
            Sample.fixed_window_limiter "10.0.0.1" _ _).
  - reflexivity.
  - discriminate.
Defined.

(** X24 on the empty configuration: a login token signed at second 10
    expires 15 minutes later. *)
Lemma login_token_of_default_manager :
  let registered :=
    Jwt.Sign_registered Sample.numeric_date Sample.default_manager
      (10 * Idempotency.Second) (Jwt.Claims_of_subject Sample.seed_user) in
  Jwt.r_Subject registered = Sample.seed_user /\
  Jwt.r_IssuedAt registered = Some (Sample.numeric_date (10 * Idempotency.Second)) /\
  Jwt.r_ExpiresAt registered =
    Some (Sample.numeric_date
            (10 * Idempotency.Second + Jwt.ttl Sample.default_manager)) /\
  0 < Jwt.ttl Sample.default_manager /\
  Jwt.r_NotBefore registered = None /\
  Jwt.r_Issuer registered = Config.GetString Sample.empty_config "security.jwt.issuer" /\
  Jwt.Subject (Jwt.registeredToClaims registered) = Sample.seed_user /\
  Jwt.ExpiresAt (Jwt.registeredToClaims registered) =
    Sample.numeric_date (10 * Idempotency.Second + Jwt.ttl Sample.default_manager).
Proof.
  apply (login_tokens_expire Sample.numeric_date Sample.empty_config
           Sample.default_manager (10 * Idempotency.Second) Sample.seed_user).
  vm_compute. reflexivity.
Defined.

(** X26 on the bin name All with spaces around it: the auth and the
    wallet module open the same data source. *)
Lemma all_binary_shares_data_source :
  Bootstrap.providePostgresSQLXForModule_dsn Sample.empty_config " All " "auth" =
    Bootstrap.providePostgresSQLXForModule_dsn Sample.empty_config " All " "wallet".
Proof.
  refine (proj1 (single_binary_shares_database_settings Sample.empty_config " All ")
            _ "auth" "wallet").
  vm_compute. reflexivity.
Defined.

(** ** Further scenarios, run on the model *)

(** Three calls on the seeded wallet, the second refused for its amount
    and the third failing at commit: one ledger row, and balance minus
    ledger total is what it was. *)
Example scenario_three_calls :
  let calls :=
    [{| call_faults := Repository.no_faults; call_now := 7;
        call_userID := Sample.seed_user; call_amountMinor := 100;
        call_chainID := "c1" |};
     {| call_faults := Repository.no_faults; call_now := 8;
        call_userID := Sample.seed_user; call_amountMinor := 5000000;
        call_chainID := "c2" |};
     {| call_faults :=
          {| Repository.begin_fails := false; Repository.withdraw_fails := false;
             Repository.has_wallet_fails := false;
             Repository.insert_ledger_fails := false;
             Repository.commit_fails := true |};
        call_now := 9; call_userID := Sample.seed_user; call_amountMinor := 50;
        call_chainID := "c3" |}] in
  let '(rs, db') := withdraw_all calls Sample.seed_db in
  succeeded <$> rs = [true; false; false] /\
  total_balance db' = 999900 /\ ledger_total db' = -100 /\
  length (wallet_ledger db') = 1%nat.
Proof. vm_compute. done. Qed.

(** A composite of the user and the address extractor. *)
Example composite_key_of_user_and_address :
  Ratelimit.CompositeKeyExtractor
    [Ratelimit.UserKeyExtractor "api"; Ratelimit.IPKeyExtractor EmptyString]
    (Ratelimit.WithIP
       (Ratelimit.WithUserID
          {| Ratelimit.value_ip := None; Ratelimit.value_user_id := None |} "u1")
       "10.0.0.1") = Ok "api:user:u1:ip:10.0.0.1" /\
  Ratelimit.CompositeKeyExtractor
    [Ratelimit.UserKeyExtractor "api"; Ratelimit.IPKeyExtractor EmptyString]
    (Ratelimit.WithIP
       {| Ratelimit.value_ip := None; Ratelimit.value_user_id := None |}
       "10.0.0.1") = Err (Wrapped "ratelimit: user_id not found in context").
Proof. vm_compute. done. Qed.

(** The bearer-token middleware in front of the withdraw route: a good
    token reaches the handler as the seeded user, a bad token, another
    scheme and a missing header are answered 401. *)
Example bearer_token_table :
  let protected :=
    Middlewares.NewHTTPJWTMiddleware Sample.equal_fold Sample.token_manager
      (withdraw_route Repository.no_faults) in
  let status authorization :=
    Fiber.Status
      (Fiber.resp
         (protected (Sample.clock 10) (Sample.bearer_ctx authorization)
            Sample.seed_world).1.2) in
  status "bearer good-token" = 200 /\ status "Bearer bad-token" = 401 /\
  status "Basic good-token" = 401 /\ status "" = 401 /\ status "Bearer " = 401.
Proof. vm_compute. done. Qed.

(** The login of the seeded user, with the right and the wrong password,
    of a suspended user and of an unknown one. *)
Example login_table :
  let login :=
    Auth.Login (Sample.map_string Sample.lower) Sample.hasher Sample.token_manager
      false 0 Sample.users in
  login " Sample.User@Example.com " "secret" =
    Ok {| Auth.AccessToken := "signed:" +:+ Sample.seed_user;
          Auth.TokenType := "Bearer" |} /\
  login "sample.user@example.com" "wrong" = Err Auth.ErrInvalidCredentials /\
  login "gone@example.com" "old" = Err Auth.ErrInvalidCredentials /\
  login "nobody@example.com" "secret" = Err Auth.ErrInvalidCredentials.
Proof. vm_compute. done. Qed.

(** The providers on the empty configuration: bcrypt at cost 10 and the
    Redis client at localhost:6379. *)
Example provider_defaults :
  Bootstrap.providePasswordHasher = Ok {| Hash.cost := 10 |} /\
  Bootstrap.provideRedisClient Sample.empty_config =
    {| Bootstrap.Addr := "localhost:6379";
       Bootstrap.Password := EmptyString;
       Bootstrap.DB_ := 0 |}.
Proof. vm_compute. done. Qed.

(** The skippers and the other key extractors on the sample requests:
    the withdraw request is not skipped, and its keys by address and by
    endpoint are the ones the source builds. *)
Example skippers_and_keys :
  Middlewares.SkipHealthCheck Sample.first_ctx = false /\
  Middlewares.SkipAuthRoutes Sample.first_ctx = false /\
  Middlewares.PerIPKeyExtractor "withdraw" Sample.first_ctx
    = "withdraw:ip:127.0.0.1" /\
  Middlewares.PerEndpointKeyExtractor "api" Sample.anonymous_ctx
    = "api:POST:/api/v1/withdrawals:ip:127.0.0.1" /\
  Middlewares.PerUserKeyExtractor "withdraw" Sample.anonymous_ctx
    = Middlewares.PerIPKeyExtractor "withdraw" Sample.anonymous_ctx.
Proof. vm_compute. done. Qed.

(** Signing with the default manager and a signer that fails: the error
    is the manager's own. *)
Example failed_signature :
  Jwt.hmacManager_Sign Sample.numeric_date
    (fun _ _ _ => Err (Wrapped "key is of invalid type"))
    Sample.default_manager 0 (Jwt.Claims_of_subject Sample.seed_user)
    = Err (Wrapped "jwt: failed to sign token").
Proof. vm_compute. done. Qed.
